(** * cupy-release-tools: build / verify tooling

    A shallow embedding of the three scripts of the release tooling

      - [builder/setup_cuda_opt_lib.py]  (module [OptLib], over the file-system
        model of module [Fs]),
      - [verifier/setup_cuda_runtime_headers.py]  (module [RuntimeHeaders]),
      - [dist.py]  (module [Dist]),

    followed by the properties of the specification that were checked
    against them.  Part I holds the embedding, Part II the proofs of the
    claims C1 to C10, Part III further properties of the code (X1 to
    X26). *)

From Stdlib Require Import ZArith Lia Ascii String.
From stdpp Require Import gmap strings list fin_maps pretty.

#[local] Open Scope string_scope.
#[local] Open Scope list_scope.
#[local] Open Scope Z_scope.
#[local] Set Warnings "-register-all,-clear-no-such-hyp".

(* ===================================================================== *)
(** * Part I: the embedding                                               *)
(* ===================================================================== *)

(** ** Python notions shared by the three scripts *)

Module Py.

(** The exception classes the scripts raise themselves or receive from the
    library functions they call. *)
Inductive exn_class : Type :=
| AssertionError
| NameError
| KeyError
| ValueError
| RuntimeError
| CalledProcessError
| OSError
| FileNotFoundError
| FileExistsError
| NotADirectoryError
| IsADirectoryError
| PermissionError
| SameFileError
| OtherException.

(** An exception: its class and the text [str(e)] gives. *)
Record exn : Type := Exn { exn_class_of : exn_class; exn_msg : string }.

(** [isinstance(e, OSError)]: the file errors derive from [OSError];
    [shutil.SameFileError] derives from [shutil.Error], an [OSError]. *)
Definition is_OSError (c : exn_class) : bool :=
  match c with
  | OSError | FileNotFoundError | FileExistsError | NotADirectoryError
  | IsADirectoryError | PermissionError | SameFileError => true
  | _ => false
  end.

(** How a call ends: it returns a value or raises. *)
Inductive result (A : Type) : Type :=
| Return (a : A)
| Raise (e : exn).
Arguments Return {A} a.
Arguments Raise {A} e.

Definition returned {A} (r : result A) : bool :=
  match r with Return _ => true | Raise _ => false end.

Definition raised_class {A} (r : result A) : option exn_class :=
  match r with Return _ => None | Raise e => Some (exn_class_of e) end.

(** [sep.join(l)] *)
Definition join (sep : string) (l : list string) : string := String.concat sep l.

(** [shlex.quote]: a word made of the characters [[A-Za-z0-9_@%+=:,./-]] is
    left alone, any other is wrapped in single quotes (a single quote inside
    it spelled quote-doublequote-quote-doublequote-quote). *)
Definition is_shell_safe (c : ascii) : bool :=
  let n := nat_of_ascii c in
  ((48 <=? n) && (n <=? 57) || (65 <=? n) && (n <=? 90) || (97 <=? n) && (n <=? 122)
   || bool_decide (n ∈ [95; 64; 37; 43; 61; 58; 44; 46; 47; 45]))%nat.

Definition dquote : string := String (ascii_of_nat 34) EmptyString.

Fixpoint escape_squotes (s : string) : string :=
  match s with
  | EmptyString => EmptyString
  | String c s' =>
      if (nat_of_ascii c =? 39)%nat
      then "'" +:+ dquote +:+ "'" +:+ dquote +:+ "'" +:+ escape_squotes s'
      else String c (escape_squotes s')
  end.

Definition shlex_quote (s : string) : string :=
  match s with
  | EmptyString => "''"
  | _ =>
      if forallb is_shell_safe (list_ascii_of_string s) then s
      else "'" +:+ escape_squotes s +:+ "'"
  end.

(** [shlex.join] *)
Definition shlex_join (cmdline : list string) : string :=
  join " " (shlex_quote <$> cmdline).

End Py.
Import Py.

(** ** verifier/setup_cuda_runtime_headers.py *)

Module RuntimeHeaders.

(** What the script reads from its host: [cupy.cuda.runtime.is_hip],
    [cupy.cuda.nvrtc.getVersion()], [sys.executable], and how a
    [subprocess.run(cmdline, check=True)] ends. *)
Record host : Type := Host {
  is_hip : bool;
  nvrtc_getVersion : result (Z * Z);
  sys_executable : string;
  subprocess_run : list string → result unit;
}.

(** What the script does to the outside: lines printed, commands run. *)
Inductive event : Type :=
| Printed (line : string)
| Ran (cmdline : list string).

(** The tail of [main], after the version test let it through. *)
Definition install (h : host) (major minor : Z) : list event * result unit :=
  let cmdline :=
    [ sys_executable h; "-m"; "pip"; "install"; "--user";
      "nvidia-cuda-runtime-cu" +:+ pretty major +:+ "==" +:+ pretty major +:+ "."
        +:+ pretty minor +:+ ".*" ] in
  ([Printed ("Running: " +:+ shlex_join cmdline); Ran cmdline],
   subprocess_run h cmdline).

Definition main (h : host) : list event * result unit :=
  if is_hip h then ([], Return tt)
  else
    match nvrtc_getVersion h with
    | Raise e => ([], Raise e)
    | Return (major, minor) =>
        if major =? 11 then ([], Return tt)
        else if major =? 12 then
          if minor <? 2 then ([], Return tt)
          else install h major minor
        else
          ([], Raise (Exn AssertionError
                        ("Unsupported CUDA version: " +:+ pretty major +:+ "."
                           +:+ pretty minor)))
    end.

(** The package requirement handed to pip for CUDA 12.[minor]. *)
Definition cu12_requirement (minor : Z) : string :=
  "nvidia-cuda-runtime-cu12==12." +:+ pretty minor +:+ ".*".

Definition ran_commands (evs : list event) : list (list string) :=
  omap (λ ev, match ev with Ran c => Some c | Printed _ => None end) evs.

End RuntimeHeaders.

(** ** A file system

    The scripts of [builder/] read and write one file system through
    [pathlib], [os.walk] and [shutil].  It is modelled as one tree shared by
    every path the code holds: a source and a destination directory are two
    paths into the same tree, so a write through one is seen through the
    other.  Symbolic links, permissions and time stamps are left out; a
    regular file is its contents (with the metadata [shutil.copy2] carries
    over).  A directory maps names to nodes; it is listed in the order of
    [map_to_list] ([os.listdir] promises no order). *)

Module Fs.

(** A normalised absolute path: the names from the root down. *)
Abbreviation path := (list string).

Inductive node : Type :=
| File (data : string)
| Dir (entries : gmap string node).

Definition is_dir_node (n : node) : bool :=
  match n with Dir _ => true | File _ => false end.

(** The node a path leads to, if any. *)
Fixpoint lookup (p : path) (t : node) : option node :=
  match p with
  | [] => Some t
  | name :: p' =>
      match t with
      | Dir es => es !! name ≫= lookup p'
      | File _ => None
      end
  end.

(** Why a path leads nowhere: a name is missing ([ENOENT]), or the path
    runs through a regular file ([ENOTDIR]). *)
Fixpoint missing_class (p : path) (t : node) : exn_class :=
  match p with
  | [] => FileNotFoundError
  | name :: p' =>
      match t with
      | Dir es =>
          match es !! name with
          | Some c => missing_class p' c
          | None => FileNotFoundError
          end
      | File _ => NotADirectoryError
      end
  end.

(** [put p x (Some t)]: the tree [t] with the node at [p] created or
    replaced by [x]; every directory above [p] must exist. *)
Fixpoint put (p : path) (x : node) (o : option node) : option node :=
  match p with
  | [] => Some x
  | name :: p' =>
      match o with
      | Some (Dir es) =>
          c ← put p' x (es !! name); Some (Dir (<[name := c]> es))
      | _ => None
      end
  end.

(** The directory a path lies in, and its last name ([Path.parent],
    [Path.name] / [os.path.basename]). *)
Definition parent (p : path) : path := removelast p.
Definition name_of (p : path) : string := List.last p "".

(** How a path is printed. *)
Definition show (p : path) : string := "/" +:+ join "/" p.

(** [p.relative_to(base)]: [p] with the leading [base] taken off. *)
Fixpoint relative_to (p base : path) {struct base} : option path :=
  match base with
  | [] => Some p
  | b :: base' =>
      match p with
      | a :: p' => if decide (a = b) then relative_to p' base' else None
      | [] => None
      end
  end.

(** The names of a directory as [os.scandir] sorts them for [os.walk]:
    the sub-directories, and everything else. *)
Definition subdirs (es : gmap string node) : list string :=
  omap (λ e : string * node, if is_dir_node e.2 then Some e.1 else None)
       (map_to_list es).
Definition nondirs (es : gmap string node) : list string :=
  omap (λ e : string * node, if is_dir_node e.2 then None else Some e.1)
       (map_to_list es).

End Fs.

(** ** builder/setup_cuda_opt_lib.py *)

Module OptLib.
Import Fs.

(** What the script acts on: the file system, and the lines it printed. *)
Record state : Type := State { fs : node; stdout : list string }.

(** A computation reads and writes the state and returns or raises.  The
    directory walk takes fuel (see [walk]); [None] says the fuel ran out. *)
Definition M (A : Type) : Type := state → option (state * result A).

Definition ret {A} (a : A) : M A := λ st, Some (st, Return a).

Definition raise {A} (c : exn_class) (msg : string) : M A :=
  λ st, Some (st, Raise (Exn c msg)).

Definition bind {A B} (m : M A) (k : A → M B) : M B :=
  λ st,
    match m st with
    | Some (st', Return a) => k a st'
    | Some (st', Raise e) => Some (st', Raise e)
    | None => None
    end.

#[global] Instance M_ret : MRet M := @ret.
#[global] Instance M_bind : MBind M := λ A B k m, bind m k.

(** [for a in l: body(a)] *)
Fixpoint for_each {A} (l : list A) (body : A → M unit) : M unit :=
  match l with
  | [] => ret tt
  | a :: l' => body a;; for_each l' body
  end.

(** [assert cond] *)
Definition assert_ (cond : bool) : M unit :=
  if cond then ret tt else raise AssertionError "".

(** [print(line)] *)
Definition print (line : string) : M unit :=
  λ st, Some ({| fs := fs st; stdout := stdout st ++ [line] |}, Return tt).

(** [p.exists()] and [p.is_dir()]: false when the path leads nowhere. *)
Definition path_exists (p : path) : M bool :=
  λ st, Some (st, Return (bool_decide (is_Some (lookup p (fs st))))).

Definition is_dir (p : path) : M bool :=
  λ st, Some (st, Return (from_option is_dir_node false (lookup p (fs st)))).

(** The file system with the node at [p] set to [x]. *)
Definition set_node (p : path) (x : node) : M unit :=
  λ st,
    Some ({| fs := default (fs st) (put p x (Some (fs st))); stdout := stdout st |},
          Return tt).

(** What stands in the way of creating or opening the entry [p]: nothing
    when the directory it lies in exists. *)
Definition in_directory (p : path) (k : M unit) : M unit :=
  λ st,
    match lookup (parent p) (fs st) with
    | Some (Dir _) => k st
    | Some (File _) => raise NotADirectoryError (show p) st
    | None => raise (missing_class (parent p) (fs st)) (show p) st
    end.

(** [p.mkdir()]: neither [parents] nor [exist_ok]. *)
Definition mkdir (p : path) : M unit :=
  λ st,
    match lookup p (fs st) with
    | Some _ => raise FileExistsError (show p) st
    | None => in_directory p (set_node p (Dir ∅)) st
    end.

(** [list(p.iterdir())]: the children of a directory, as paths. *)
Definition iterdir (p : path) : M (list path) :=
  λ st,
    match lookup p (fs st) with
    | Some (Dir es) => ret ((λ name, p ++ [name]) <$> (map_to_list es).*1) st
    | Some (File _) => raise NotADirectoryError (show p) st
    | None => raise (missing_class p (fs st)) (show p) st
    end.

(** [open(p, 'rb').read()] *)
Definition read_file (p : path) : M string :=
  λ st,
    match lookup p (fs st) with
    | Some (File data) => ret data st
    | Some (Dir _) => raise IsADirectoryError (show p) st
    | None => raise (missing_class p (fs st)) (show p) st
    end.

(** [open(p, 'wb').write(data)]: creates the file or replaces its contents. *)
Definition write_file (p : path) (data : string) : M unit :=
  λ st,
    match lookup p (fs st) with
    | Some (Dir _) => raise IsADirectoryError (show p) st
    | _ => in_directory p (set_node p (File data)) st
    end.

(** [shutil.copy2(src, dst)]: a [dst] that is a directory stands for the
    file of [src]'s name inside it; copying a file onto itself is refused;
    [src] is opened before [dst]. *)
Definition copy2 (src dst : path) : M unit :=
  d ← is_dir dst;
  let dst := if d : bool then dst ++ [name_of src] else dst in
  e ← path_exists src;
  if bool_decide (src = dst) && e then raise SameFileError (show src)
  else data ← read_file src; write_file dst data.

(** [for top, dirs, files in os.walk(src): body(top, files)], top down: a
    directory is listed, the body runs on it, and then each sub-directory
    that was listed is walked in turn, as the file system then is.  A [top]
    that is no directory is passed over ([os.walk] ignores the error of
    listing it).  [fuel] bounds the depth of the walk. *)
Fixpoint walk (fuel : nat) (top : path) (body : path → list string → M unit)
  : M unit :=
  match fuel with
  | O => λ _, None
  | S fuel' =>
      λ st,
        match lookup top (fs st) with
        | Some (Dir es) =>
            (body top (nondirs es);;
             for_each (subdirs es) (λ d, walk fuel' (top ++ [d]) body)) st
        | _ => ret tt st
        end
  end.

(** The body of the loop of [merge_directory]. *)
Definition merge_step (src_dir dst_dir srcpath : path) (files : list string)
  : M unit :=
  match relative_to srcpath src_dir with
  | None => raise ValueError (show srcpath)
  | Some rel =>
      let destpath := dst_dir ++ rel in
      e ← path_exists destpath;
      (if e : bool then ret tt
       else print ("Creating directory: " +:+ show destpath);; mkdir destpath);;
      for_each files (λ f,
        let srcfile := srcpath ++ [f] in
        let destfile := destpath ++ [f] in
        print ("Copying: " +:+ show destfile +:+ " <- " +:+ show srcfile);;
        copy2 srcfile destfile)
  end.

Definition merge_directory (fuel : nat) (src_dir dst_dir : path) : M unit :=
  walk fuel src_dir (merge_step src_dir dst_dir).

Definition _child (p : path) : M path :=
  children ← iterdir p;
  assert_ (bool_decide (length children = 1%nat));;
  match children with
  | c :: _ => ret c
  | [] => raise OtherException "IndexError"
  end.

(** The body of the loop of [_install_library] over the payload.  Its
    [else] branch names [dst_name], which nothing defines (the local is
    [dest_name]): evaluating it raises [NameError]. *)
Definition install_entry (fuel : nat) (dst_dir : path)
    (install_map : gmap string string) (child : path) : M unit :=
  let dest_name := default (name_of child) (install_map !! name_of child) in
  d ← is_dir child;
  if d : bool then merge_directory fuel child (dst_dir ++ [dest_name])
  else raise NameError "name 'dst_name' is not defined".

Definition _install_library (fuel : nat) (name : string) (src_dir dst_dir : path)
    (install_map : gmap string string) : M unit :=
  (* $src_dir/$CUDA_VERSION/$name/$LIB_VERSION *)
  src_dir ← _child src_dir;
  let src_dir := src_dir ++ [name] in
  e ← path_exists src_dir;
  if negb e then print ("Skip installing " +:+ name +:+ " (unavailable)")
  else
    src_dir ← _child src_dir;
    children ← iterdir src_dir;
    for_each children (install_entry fuel dst_dir install_map).

Definition main (fuel : nat) (sys_platform : string) (src_dir dst_dir : path)
  : M unit :=
  if bool_decide (sys_platform = "linux") then
    _install_library fuel "cutensor" src_dir dst_dir
      {[ "lib" := "lib64"; "include" := "include" ]};;
    _install_library fuel "nccl" src_dir dst_dir
      {[ "lib" := "lib64"; "include" := "include" ]};;
    _install_library fuel "cudnn" src_dir dst_dir
      {[ "lib64" := "lib64"; "include" := "include" ]}
  else if bool_decide (sys_platform = "win32") then
    _install_library fuel "cutensor" src_dir dst_dir
      {[ "lib" := "bin"; "include" := "include" ]};;
    _install_library fuel "cudnn" src_dir dst_dir
      {[ "bin" := "bin"; "lib" := "lib"; "include" := "include" ]}
  else assert_ false.

End OptLib.

(** ** dist.py *)

Module Dist.

(** *** What [dist.py] imports

    [dist_config.py] and [dist_utils.py] are not part of the slice: the
    tables of the first and the pure helpers of the second are the fields of
    [config]; the helpers that look at the host are fields of [world]. *)

Record nccl_config : Type := NcclConfig {
  nccl_type : string;            (* ['type'] *)
  nccl_files : list string;      (* ['files'] *)
}.

(** An entry of [WHEEL_LINUX_CONFIGS]; the key ['nccl'] may be absent. *)
Record linux_config : Type := LinuxConfig {
  lc_name : string;
  lc_kind : string;
  lc_image : string;
  lc_nccl : option nccl_config;
  lc_libs : list string;
  lc_includes : list (string * string);
  lc_verify_image : string;
  lc_verify_systems : list string;
  lc_verify_preloads : list string;
}.

(** An entry of [WHEEL_WINDOWS_CONFIGS]. *)
Record windows_config : Type := WindowsConfig {
  wc_name : string;
  wc_libs : list string;
  wc_cudart_lib : string;
  wc_check_version : Z → bool;
}.

Record sdist_config : Type := SdistConfig {
  sc_image : string;
  sc_verify_image : string;
  sc_verify_systems : list string;
  sc_verify_preloads : list string;
  sc_nccl : option nccl_config;
}.

Record config : Type := Config {
  CYTHON_VERSION : string;
  SDIST_CONFIG : sdist_config;
  SDIST_LONG_DESCRIPTION : string;
  WHEEL_LINUX_CONFIGS : gmap string linux_config;
  WHEEL_WINDOWS_CONFIGS : gmap string windows_config;
  (** [WHEEL_PYTHON_VERSIONS[v]['requires']] *)
  WHEEL_PYTHON_VERSIONS : gmap string (list string);
  (** [WHEEL_LONG_DESCRIPTION.format(cuda=v)] *)
  WHEEL_LONG_DESCRIPTION_format : string → string;
  VERIFY_PYTHON_VERSIONS : list string;
  PYTHON_VERSIONS : list string;
  (** [image.format(system=s)] *)
  format_system : string → string → string;
  sdist_name : string → string → string;
  wheel_name : string → string → string → string → string;
}.

(** A record of the cuDNN table that [install_library.py --action dump]
    prints: [{cuda, cudnn, assets: {platform: {url, filename}}}]. *)
Record cudnn_asset : Type := CudnnAsset { asset_url : string; asset_filename : string }.
Record cudnn_record : Type := CudnnRecord {
  rec_cuda : string;
  rec_cudnn : string;
  rec_assets : gmap string cudnn_asset;
}.

(** What [json.dump] writes. *)
Inductive json : Type :=
| JNull
| JStr (s : string)
| JObj (fields : list (string * json)).

(** *** What [dist.py] does to its host

    Every library call that acts on the host is a [call]; a run is the list
    of the calls made, in order. *)
Inductive call : Type :=
| Log (msg : string)                              (* [log(msg)] *)
| CheckCall (cmd : list string) (cwd : option string)  (* [subprocess.check_call] *)
| CheckOutput (cmd : list string)                 (* [subprocess.check_output] *)
| Move (src dst : string)                         (* [shutil.move] *)
| Copytree (src dst : string)                     (* [shutil.copytree] *)
| Copy2 (src dst : string)                        (* [shutil.copy2] *)
| Rmtree (path : string)                          (* [shutil.rmtree] *)
| UnpackArchive (file dir : string)               (* [shutil.unpack_archive] *)
| Mkdir (path : string)                           (* [os.mkdir], [Path.mkdir] *)
| Mkdtemp (prefix : string)                       (* [tempfile.mkdtemp] *)
| WriteText (path content : string)               (* [open(path, 'w').write] *)
| JsonDump (path : string) (obj : json)           (* [json.dump] to [open(path, 'w')] *)
| TemporaryDirectory                              (* entering [tempfile.TemporaryDirectory()] *)
| TemporaryDirectoryCleanup (path : string).      (* leaving it *)

Abbreviation trace := (list call).

(** The host.  How a call ends may depend on all that was done before it;
    [respond] gives that (for a call that returns a string, the string; for
    the others it is not looked at). *)
Record world : Type := World {
  sys_platform : string;
  sys_version_info : Z * Z * Z;
  sys_executable : string;
  os_getuid : Z;
  os_getgid : Z;
  os_getcwd : string;
  os_environ : gmap string string;
  (** [dist_utils] *)
  get_version_from_source_tree : string → result string;
  get_system_cuda_version : string → result (option Z);
  find_file_in_path : string → option string;
  (** [json.loads(out.decode('utf-8'))], read as the cuDNN table *)
  json_loads : string → result (list cudnn_record);
  respond : trace → call → result string;
  (** [os.walk(top)], as pairs of a directory (relative to [top]; the empty
      string for [top] itself) and its files, and [Path.exists()] *)
  os_walk : trace → string → list (string * list string);
  path_exists : trace → string → bool;
}.

(** *** Formatting *)

(** [str(x)] for an optional string. *)
Definition str_opt (o : option string) : string := default "None" o.

(** [repr(s)] for a string without quotes or backslashes. *)
Definition repr_str (s : string) : string := "'" +:+ s +:+ "'".

(** [str(cmd)] for a tuple of strings. *)
Definition str_tuple (cmd : list string) : string :=
  match cmd with
  | [x] => "(" +:+ repr_str x +:+ ",)"
  | _ => "(" +:+ join ", " (repr_str <$> cmd) +:+ ")"
  end.

Definition str_asset (a : cudnn_asset) : string :=
  "{'url': " +:+ repr_str (asset_url a) +:+ ", 'filename': "
    +:+ repr_str (asset_filename a) +:+ "}".

(** [os.path.basename]: what follows the last slash. *)
Fixpoint basename_from (acc s : string) : string :=
  match s with
  | EmptyString => acc
  | String c s' =>
      if (nat_of_ascii c =? 47)%nat then basename_from EmptyString s'
      else basename_from (acc +:+ String c EmptyString) s'
  end.
Definition basename (s : string) : string := basename_from EmptyString s.

(** [sub in s] *)
Definition contains (sub s : string) : bool :=
  bool_decide (is_Some (String.index 0 sub s)).

(** [os.path.join(a, b)] ([posixpath]). *)
Definition ends_with_slash (a : string) : bool :=
  match String.rev a with
  | String c _ => (nat_of_ascii c =? 47)%nat
  | EmptyString => false
  end.

Definition path_join (a b : string) : string :=
  if String.prefix "/" b then b
  else if bool_decide (a = "") || ends_with_slash a then a +:+ b
  else a +:+ "/" +:+ b.

(** [a / rel] for a relative path [rel], the empty string standing for
    [Path('.')]. *)
Definition path_div (a rel : string) : string :=
  if bool_decide (rel = "") then a else a +:+ "/" +:+ rel.

Definition newline : string := String (ascii_of_nat 10) EmptyString.

Section Run.

Context (cfg : config) (w : world).

(** *** Computations *)

Definition M (A : Type) : Type := trace → trace * result A.

Definition ret {A} (a : A) : M A := λ tr, (tr, Return a).

Definition raise {A} (c : exn_class) (msg : string) : M A :=
  λ tr, (tr, Raise (Exn c msg)).

Definition bind {A B} (m : M A) (k : A → M B) : M B :=
  λ tr,
    match m tr with
    | (tr', Return a) => k a tr'
    | (tr', Raise e) => (tr', Raise e)
    end.

#[global] Instance M_ret : MRet M := @ret.
#[global] Instance M_bind : MBind M := λ A B k m, bind m k.

(** The outcome of a helper that only reads the host. *)
Definition lift {A} (r : result A) : M A := λ tr, (tr, r).

(** What the host shows after the calls made so far. *)
Definition ask {A} (f : trace → A) : M A := λ tr, (tr, Return (f tr)).

(** A call on the host: it is made, and ends as the host has it end. *)
Definition perform (c : call) : M string := λ tr, (tr ++ [c], respond w tr c).

Definition perform_ (c : call) : M unit := perform c;; ret tt.

(** [d[key]] *)
Definition getitem {V} (d : gmap string V) (key : string) : M V :=
  match d !! key with
  | Some v => ret v
  | None => raise KeyError (repr_str key)
  end.

(** [d[key]] for a key that may be [None] (no table has that key). *)
Definition getitem_opt {V} (d : gmap string V) (key : option string) : M V :=
  match key with
  | Some key => getitem d key
  | None => raise KeyError "None"
  end.

Fixpoint for_each {A} (l : list A) (body : A → M unit) : M unit :=
  match l with
  | [] => ret tt
  | a :: l' => body a;; for_each l' body
  end.

(** [try: body finally: final]: [final] runs however [body] ended; when it
    raises, that is the outcome, otherwise the outcome is [body]'s. *)
Definition try_finally {A} (body : M A) (final : M unit) : M A :=
  λ tr,
    let '(tr1, r1) := body tr in
    let '(tr2, r2) := final tr1 in
    (tr2, match r2 with Return _ => r1 | Raise e => Raise e end).

(** [try: body except OSError as e: handler(e)] *)
Definition try_except_OSError {A} (body : M A) (handler : exn → M A) : M A :=
  λ tr,
    match body tr with
    | (tr1, Raise e) =>
        if is_OSError (exn_class_of e) then handler e tr1 else (tr1, Raise e)
    | out => out
    end.

(** [with tempfile.TemporaryDirectory() as tmpdir: body(tmpdir)] *)
Definition with_temporary_directory {A} (body : string → M A) : M A :=
  tmpdir ← perform TemporaryDirectory;
  try_finally (body tmpdir) (perform_ (TemporaryDirectoryCleanup tmpdir)).

(** *** Module-level functions *)

Definition log (msg : string) : M unit := λ tr, (tr ++ [Log msg], Return tt).

Definition run_command (cmd : list string) (cwd : option string) : M unit :=
  log ("Running command: " +:+ str_tuple cmd);;
  perform_ (CheckCall cmd cwd).

Definition run_command_output (cmd : list string) : M string :=
  log ("Running command: " +:+ str_tuple cmd);;
  perform (CheckOutput cmd).

Definition extract_nccl_archive (nccl_config : nccl_config)
    (nccl_assets : option string) (dest_dir : string) : M unit :=
  log ("Extracting NCCL assets from " +:+ str_opt nccl_assets +:+ " to " +:+ dest_dir);;
  let asset_type := nccl_type nccl_config in
  if bool_decide (asset_type = "v1-deb") then
    for_each (nccl_files nccl_config) (λ nccl_deb,
      run_command ["dpkg"; "-x"; str_opt nccl_assets +:+ "/" +:+ nccl_deb; dest_dir]
                  None);;
    (* Adjust paths to align with tarball. *)
    perform_ (Move (dest_dir +:+ "/usr/lib/x86_64-linux-gnu") (dest_dir +:+ "/lib"));;
    perform_ (Move (dest_dir +:+ "/usr/include") (dest_dir +:+ "/include"))
  else if bool_decide (asset_type = "v2-tar") then
    for_each (nccl_files nccl_config) (λ nccl_tar,
      run_command ["tar"; "-x"; "-f"; str_opt nccl_assets +:+ "/" +:+ nccl_tar;
                   "-C"; dest_dir; "--strip"; "1"] None)
  else raise RuntimeError ("unknown NCCL asset type: " +:+ asset_type).

(** The loop of [get_cudnn_record] over the records. *)
Fixpoint find_cudnn_record (records : list cudnn_record)
    (cuda_version platform : string) : M (string * cudnn_asset) :=
  match records with
  | [] =>
      raise RuntimeError
        ("CUDA " +:+ cuda_version +:+ " not supported by install_library tool")
  | record :: records' =>
      if bool_decide (rec_cuda record = cuda_version) then
        asset ← getitem (rec_assets record) platform;
        ret (rec_cudnn record, asset)
      else find_cudnn_record records' cuda_version platform
  end.

Definition get_cudnn_record (cuda_version platform : string)
  : M (string * cudnn_asset) :=
  log ("Retrieving cuDNN records for CUDA " +:+ cuda_version +:+ " ("
         +:+ platform +:+ ")");;
  let command :=
    [ sys_executable w; "cupy/cupyx/tools/install_library.py";
      "--library"; "cudnn"; "--cuda"; cuda_version; "--action"; "dump" ] in
  out ← run_command_output command;
  cudnn_records ← lift (json_loads w out);
  find_cudnn_record cudnn_records cuda_version platform.

Definition download_extract_cudnn_archive (url dest_dir : string) : M unit :=
  with_temporary_directory (λ tmpdir,
    let filepath := path_join tmpdir (basename url) in
    log ("Downloading " +:+ url +:+ " to " +:+ filepath +:+ "...");;
    run_command ["curl"; "-L"; "-o"; filepath; url] None;;
    log "Extracting...";;
    perform_ (UnpackArchive filepath tmpdir);;
    log "Moving to the destination directory...";;
    perform_ (Move (path_join tmpdir "cuda") dest_dir);;
    log "Cleaning up...").

(** Install the extracted cuDNN to [$CUDA_PATH].  The walk is taken as the
    host lists it when the loop starts. *)
Definition install_cudnn_windows (cudnn_workdir cuda_path : string) : M unit :=
  log ("Installing cuDNN from " +:+ cudnn_workdir +:+ " to " +:+ cuda_path);;
  entries ← ask (λ tr, os_walk w tr cudnn_workdir);
  for_each entries (λ '(rel, files),
    let srcpath := path_div cudnn_workdir rel in
    let destpath := path_div cuda_path rel in
    e ← ask (λ tr, path_exists w tr destpath);
    (if e : bool then ret tt else perform_ (Mkdir destpath));;
    for_each files (λ f,
      let srcfile := path_div srcpath f in
      let destfile := path_div destpath f in
      log ("Copying: " +:+ destfile +:+ " <- " +:+ srcfile);;
      perform_ (Copy2 srcfile destfile))).

(** *** [class Controller] *)

(** Create a docker image to build distributions. *)
Definition _create_builder_linux (image_tag base_image docker_ctx : string) : M unit :=
  let python_versions := join " " (PYTHON_VERSIONS cfg) in
  log ("Building Docker image: " +:+ image_tag);;
  run_command
    [ "docker"; "build";
      "--tag"; image_tag;
      "--build-arg"; "base_image=" +:+ base_image;
      "--build-arg"; "python_versions=" +:+ python_versions;
      "--build-arg"; "cython_version=" +:+ CYTHON_VERSION cfg;
      docker_ctx ] None.

(** Create a docker image to verify distributions. *)
Definition _create_verifier_linux (image_tag base_image docker_ctx : string) : M unit :=
  (* Choose Dockerfile template *)
  template ←
    (if contains "rhel" base_image || contains "centos" base_image then
       log "Using RHEL Dockerfile template";; ret "rhel"
     else if contains "ubuntu" base_image || contains "rocm" base_image then
       log "Using Debian Dockerfile template";; ret "debian"
     else
       raise RuntimeError ("cannot detect OS from image name: " +:+ base_image));
  perform_ (Copy2 (docker_ctx +:+ "/Dockerfile." +:+ template)
                  (docker_ctx +:+ "/Dockerfile"));;
  let python_versions := join " " (VERIFY_PYTHON_VERSIONS cfg) in
  log ("Building Docker image: " +:+ image_tag);;
  run_command
    [ "docker"; "build";
      "--tag"; image_tag;
      "--build-arg"; "base_image=" +:+ base_image;
      "--build-arg"; "python_versions=" +:+ python_versions;
      docker_ctx ] None.

Definition _run_container (image_tag kind workdir : string)
    (agent_args : list string) : M unit :=
  log ("Running docker container with image: " +:+ image_tag +:+ " (" +:+ kind +:+ ")");;
  docker_run ←
    (if bool_decide (kind = "cuda") then ret ["nvidia-docker"; "run"]
     else if bool_decide (kind = "rocm") then
       ret [ "docker"; "run";
             "--device=/dev/kfd"; "--device=/dev/dri";
             "--security-opt"; "seccomp=unconfined";
             "--group-add"; "video";
             "--env"; "HCC_AMDGPU_TARGET" ]
     else raise AssertionError "");
  let command :=
    docker_run
      ++ [ "--rm"; "--volume"; workdir +:+ ":/work"; "--workdir"; "/work"; image_tag ]
      ++ agent_args in
  run_command command None.

(** The locals [build_linux] sets per target (lines 280-334). *)
Record linux_build : Type := LinuxBuild {
  lb_action : string;
  lb_image_tag : string;
  lb_kind : string;
  lb_base_image : string;
  lb_package_name : string;
  lb_long_description : string;
  lb_nccl_config : option nccl_config;
  (** [cudnn_version] and [cudnn_assets], both [None] or both set *)
  lb_cudnn : option (string * cudnn_asset);
  lb_asset_name : string;
  lb_asset_dest_name : string;
}.

Definition build_linux_config (target : string) (cuda_version : option string)
    (python_version source version : string) : M linux_build :=
  if bool_decide (target = "wheel-linux") then
    match cuda_version with
    | None => raise AssertionError ""
    | Some cuda_version =>
        log ("Starting wheel-linux build from " +:+ source +:+ " (version "
               +:+ version +:+ ", for CUDA " +:+ cuda_version +:+ " + Python "
               +:+ python_version +:+ ")");;
        c ← getitem (WHEEL_LINUX_CONFIGS cfg) cuda_version;
        let kind := lc_kind c in
        accel ←
          (if bool_decide (kind = "cuda") then
             (* NCCL *)
             nccl_config ← match lc_nccl c with
                           | Some n => ret n
                           | None => raise KeyError "'nccl'"
                           end;
             (* cuDNN *)
             cudnn ← get_cudnn_record cuda_version "Linux";
             ret (Some nccl_config, Some cudnn)
           else if bool_decide (kind = "rocm") then ret (None, None)
           else raise AssertionError "");
        (* Rename wheels to manylinux1. *)
        ret {| lb_action := "bdist_wheel";
               lb_image_tag := "cupy-builder-" +:+ cuda_version;
               lb_kind := kind;
               lb_base_image := lc_image c;
               lb_package_name := lc_name c;
               lb_long_description := WHEEL_LONG_DESCRIPTION_format cfg cuda_version;
               lb_nccl_config := accel.1;
               lb_cudnn := accel.2;
               lb_asset_name :=
                 wheel_name cfg (lc_name c) version python_version "linux_x86_64";
               lb_asset_dest_name :=
                 wheel_name cfg (lc_name c) version python_version "manylinux1_x86_64" |}
    end
  else if bool_decide (target = "sdist") then
    match cuda_version with
    | Some _ => raise AssertionError ""
    | None =>
        log ("Starting sdist build from " +:+ source +:+ " (version " +:+ version
               +:+ ")");;
        (* Rename not needed for sdist. *)
        ret {| lb_action := "sdist";
               lb_image_tag := "cupy-builder-sdist";
               lb_kind := "cuda";
               lb_base_image := sc_image (SDIST_CONFIG cfg);
               lb_package_name := "cupy";
               lb_long_description := SDIST_LONG_DESCRIPTION cfg;
               lb_nccl_config := None;
               lb_cudnn := None;
               lb_asset_name := sdist_name cfg "cupy" version;
               lb_asset_dest_name := sdist_name cfg "cupy" version |}
    end
  else raise RuntimeError "unknown target".

(** Arguments for the agent (lines 336-369). *)
Definition build_linux_agent_args (target : string) (cuda_version : option string)
    (python_version : string) (b : linux_build) : M (list string) :=
  let agent_args :=
    [ "--action"; lb_action b;
      "--source"; "cupy";
      "--python"; python_version;
      "--chown"; pretty (os_getuid w) +:+ ":" +:+ pretty (os_getgid w) ] in
  (* Add arguments to pass to setup.py. *)
  let setup_args :=
    [ "--cupy-package-name"; lb_package_name b;
      "--cupy-long-description"; "../description.rst" ] in
  if bool_decide (target = "wheel-linux") then
    (* Add requirements for build. *)
    requires ← getitem (WHEEL_PYTHON_VERSIONS cfg) python_version;
    c ← getitem_opt (WHEEL_LINUX_CONFIGS cfg) cuda_version;
    ret (agent_args
           ++ concat ((λ req, ["--requires"; req]) <$> requires)
           ++ setup_args
           ++ [ "--cupy-no-rpath"; "--cupy-wheel-metadata"; "../_wheel.json" ]
           ++ concat ((λ lib, ["--cupy-wheel-lib"; lib]) <$> lc_libs c)
           ++ concat ((λ inc : string * string,
                         ["--cupy-wheel-include"; inc.1 +:+ ":" +:+ inc.2])
                        <$> lc_includes c))
  else if bool_decide (target = "sdist") then
    ret (agent_args ++ setup_args ++ ["--cupy-no-cuda"])
  else ret (agent_args ++ setup_args).

(** The wheel metadata for preload. *)
Definition wheel_metadata (cuda_version : option string)
    (cudnn : option (string * cudnn_asset)) : json :=
  JObj (("cuda", from_option JStr JNull cuda_version)
          :: match cudnn with
             | Some (cudnn_version, cudnn_assets) =>
                 [("cudnn", JObj [ ("version", JStr cudnn_version);
                                   ("filename", JStr (asset_filename cudnn_assets)) ])]
             | None => []
             end).

(** The [try] block of [build_linux] (lines 375-438). *)
Definition build_linux_try (target : string) (nccl_assets cuda_version : option string)
    (source output : string) (b : linux_build) (agent_args : list string)
    (workdir : string) : M unit :=
  log ("Using working directory: " +:+ workdir);;
  (* Copy source tree to working directory. *)
  log ("Copying source tree from: " +:+ source);;
  perform_ (Copytree source (workdir +:+ "/cupy"));;
  (* Add long description file. *)
  perform_ (WriteText (workdir +:+ "/description.rst") (lb_long_description b));;
  (* Copy builder directory to working directory. *)
  let docker_ctx := workdir +:+ "/builder" in
  log ("Copying builder directory to: " +:+ docker_ctx);;
  perform_ (Copytree "builder/" docker_ctx);;
  (* Extract NCCL archive. *)
  log "Creating nccl directory under builder directory";;
  let nccl_workdir := docker_ctx +:+ "/nccl" in
  perform_ (Mkdir nccl_workdir);;
  match lb_nccl_config b with
  | Some nccl_config =>
      log "Extracting NCCL archive";;
      extract_nccl_archive nccl_config nccl_assets nccl_workdir
  | None => log "NCCL is not installed for this build"
  end;;
  (* Extract cuDNN archive. *)
  let cudnn_workdir := docker_ctx +:+ "/cudnn" in
  perform_ (Mkdir cudnn_workdir);;
  match lb_cudnn b with
  | Some (cudnn_version, cudnn_assets) =>
      log ("cuDNN version: " +:+ cudnn_version);;
      log ("cuDNN assets: " +:+ str_asset cudnn_assets);;
      log "Creating cudnn directory under builder directory";;
      download_extract_cudnn_archive (asset_url cudnn_assets) cudnn_workdir
  | None => log "cuDNN is not installed for this build"
  end;;
  (* Create a wheel metadata file for preload. *)
  (if bool_decide (target = "wheel-linux") then
     log "Writing wheel metadata";;
     perform_ (JsonDump (workdir +:+ "/_wheel.json")
                 (wheel_metadata cuda_version (lb_cudnn b)))
   else ret tt);;
  (* Creates a Docker image to build distribution. *)
  _create_builder_linux (lb_image_tag b) (lb_base_image b) docker_ctx;;
  (* Build. *)
  log "Starting build";;
  _run_container (lb_image_tag b) (lb_kind b) workdir agent_args;;
  log "Finished build";;
  (* Copy assets. *)
  let asset_path := workdir +:+ "/cupy/dist/" +:+ lb_asset_name b in
  let output_path := output +:+ "/" +:+ lb_asset_dest_name b in
  log ("Copying asset from " +:+ asset_path +:+ " to " +:+ output_path);;
  perform_ (Copy2 asset_path output_path).

(** The [finally] block of [build_linux], [_verify_linux] and
    [verify_windows]. *)
Definition remove_workdir (workdir : string) : M unit :=
  log ("Removing working directory: " +:+ workdir);;
  perform_ (Rmtree workdir).

(** What [build_linux] does before it creates the working directory (lines
    278-369): the version, the locals of the target, the agent's arguments. *)
Definition build_linux_setup (target : string) (cuda_version : option string)
    (python_version source : string) : M (linux_build * list string) :=
  version ← lift (get_version_from_source_tree w source);
  b ← build_linux_config target cuda_version python_version source version;
  agent_args ← build_linux_agent_args target cuda_version python_version b;
  ret (b, agent_args).

(** Build a single wheel distribution for Linux. *)
Definition build_linux (target : string) (nccl_assets cuda_version : option string)
    (python_version source output : string) : M unit :=
  s ← build_linux_setup target cuda_version python_version source;
  (* Create a working directory. *)
  workdir ← perform (Mkdtemp "cupy-dist-");
  try_finally
    (build_linux_try target nccl_assets cuda_version source output s.1 s.2 workdir)
    (remove_workdir workdir).

Definition _check_windows_environment (cuda_version : option string)
    (python_version : string) : M unit :=
  (* Check if this script is running on Windows. *)
  (if negb (String.prefix "win32" (sys_platform w)) then
     raise RuntimeError ("you are on non-Windows system: " +:+ sys_platform w)
   else ret tt);;
  (* Check Python version. *)
  let current_python_version :=
    let '(major, minor, micro) := sys_version_info w in
    join "." [pretty major; pretty minor; pretty micro] in
  (if bool_decide (python_version ≠ current_python_version) then
     log ("Note: Building wheel for Python " +:+ python_version +:+ " using Python "
            +:+ current_python_version)
   else ret tt);;
  (* Check CUDA runtime version. *)
  config ← getitem_opt (WHEEL_WINDOWS_CONFIGS cfg) cuda_version;
  let cuda_check_version := wc_check_version config in
  current_cuda_version ← lift (get_system_cuda_version w (wc_cudart_lib config));
  match current_cuda_version with
  | None => raise RuntimeError "Cannot build wheel without CUDA Runtime installed"
  | Some current_cuda_version =>
      if negb (cuda_check_version current_cuda_version) then
        raise RuntimeError
          ("Cannot build wheel for CUDA " +:+ str_opt cuda_version +:+ " using CUDA "
             +:+ pretty current_cuda_version)
      else ret tt
  end.

(** The loop of [build_windows] over the libraries to bundle. *)
Fixpoint wheel_lib_args (libs : list string) : M (list string) :=
  match libs with
  | [] => ret []
  | lib :: libs' =>
      match find_file_in_path w lib with
      | None => raise RuntimeError ("Library " +:+ lib +:+ " could not be found in PATH")
      | Some libpath =>
          rest ← wheel_lib_args libs';
          ret (["--cupy-wheel-lib"; libpath] ++ rest)
      end
  end.

(** The locals [build_windows] sets before it creates the working
    directory. *)
Record windows_build : Type := WindowsBuild {
  wb_long_description : string;
  wb_asset_name : string;
  wb_asset_dest_name : string;
  wb_agent_args : list string;
}.

(** What [build_windows] does before it creates the working directory
    (lines 476-520). *)
Definition build_windows_setup (target : string) (nccl_assets cuda_version : option string)
    (python_version source : string) : M windows_build :=
  (* Perform additional check as Windows environment is not isoalted. *)
  _check_windows_environment cuda_version python_version;;
  (if bool_decide (target ≠ "wheel-win") then raise ValueError "unknown target"
   else ret tt);;
  (if bool_decide (nccl_assets ≠ None) then
     raise RuntimeError "NCCL not supported on Windows"
   else ret tt);;
  version ← lift (get_version_from_source_tree w source);
  log ("Starting wheel-win build from " +:+ source +:+ " (version " +:+ version
         +:+ ", for CUDA " +:+ str_opt cuda_version +:+ " + Python "
         +:+ python_version +:+ ")");;
  let action := "bdist_wheel" in
  c ← getitem_opt (WHEEL_WINDOWS_CONFIGS cfg) cuda_version;
  let package_name := wc_name c in
  let long_description := WHEEL_LONG_DESCRIPTION_format cfg (str_opt cuda_version) in
  let asset_name := wheel_name cfg package_name version python_version "win_amd64" in
  let asset_dest_name := asset_name in
  let agent_args := [ "--action"; action; "--source"; "cupy" ] in
  (* Add requirements for build. *)
  requires ← getitem (WHEEL_PYTHON_VERSIONS cfg) python_version;
  let agent_args := agent_args ++ concat ((λ req, ["--requires"; req]) <$> requires) in
  (* Add arguments to pass to setup.py. *)
  let setup_args :=
    [ "--cupy-package-name"; package_name;
      "--cupy-long-description"; "../description.rst";
      "--cupy-wheel-metadata"; "../_wheel.json" ] in
  lib_args ← wheel_lib_args (wc_libs c);
  ret {| wb_long_description := long_description;
         wb_asset_name := asset_name;
         wb_asset_dest_name := asset_dest_name;
         wb_agent_args := agent_args ++ setup_args ++ lib_args |}.

(** The [try] block of [build_windows] (lines 526-574). *)
Definition build_windows_try (cuda_version : option string)
    (source output : string) (b : windows_build) (workdir : string) : M unit :=
  log ("Using working directory: " +:+ workdir);;
  (* Copy source tree and NCCL to working directory. *)
  log ("Copying source tree from: " +:+ source);;
  perform_ (Copytree source (workdir +:+ "/cupy"));;
  (* Add long description file. *)
  perform_ (WriteText (workdir +:+ "/description.rst") (wb_long_description b));;
  (* Get cuDNN version. *)
  cudnn ← get_cudnn_record (str_opt cuda_version) "Windows";
  let '(cudnn_version, cudnn_assets) := cudnn in
  log ("cuDNN version: " +:+ cudnn_version);;
  log ("cuDNN assets: " +:+ str_asset cudnn_assets);;
  (* Extract cuDNN archive. *)
  log "Creating cudnn directory under work directory";;
  let cudnn_workdir := workdir +:+ "/cudnn" in
  download_extract_cudnn_archive (asset_url cudnn_assets) cudnn_workdir;;
  cuda_path ← getitem (os_environ w) "CUDA_PATH";
  log ("Installing cuDNN to " +:+ cuda_path);;
  install_cudnn_windows cudnn_workdir cuda_path;;
  (* Create a wheel metadata file for preload. *)
  log "Writing wheel metadata";;
  perform_ (JsonDump (workdir +:+ "/_wheel.json")
              (wheel_metadata cuda_version (Some cudnn)));;
  (* Build. *)
  log "Starting build";;
  run_command ([sys_executable w; os_getcwd w +:+ "/builder/agent.py"]
                 ++ wb_agent_args b)
              (Some workdir);;
  log "Finished build";;
  (* Copy assets. *)
  let asset_path := workdir +:+ "/cupy/dist/" +:+ wb_asset_name b in
  let output_path := output +:+ "/" +:+ wb_asset_dest_name b in
  log ("Copying asset from " +:+ asset_path +:+ " to " +:+ output_path);;
  perform_ (Copy2 asset_path output_path).

(** The [finally] block of [build_windows] (lines 576-586): a removal that
    raises [OSError] is logged and not raised again. *)
Definition build_windows_finally (workdir : string) : M unit :=
  log ("Removing working directory: " +:+ workdir);;
  try_except_OSError (perform_ (Rmtree workdir)) (λ e,
    log ("Failed to clean-up working directory: " +:+ exn_msg e +:+ newline
           +:+ newline +:+ "Please remove the working directory manually: "
           +:+ workdir)).

(** Build a single wheel distribution for Windows.
    Note that Windows build is not isolated. *)
Definition build_windows (target : string) (nccl_assets cuda_version : option string)
    (python_version source output : string) : M unit :=
  b ← build_windows_setup target nccl_assets cuda_version python_version source;
  (* Create a working directory. *)
  workdir ← perform (Mkdtemp "cupy-dist-");
  try_finally (build_windows_try cuda_version source output b workdir)
              (build_windows_finally workdir).

(** The [try] block of [_verify_linux] (lines 646-680). *)
Definition _verify_linux_try (image_tag base_image kind dist : string)
    (tests : list string) (nccl_assets : option string)
    (nccl_config : option nccl_config) (agent_args : list string)
    (workdir : string) : M unit :=
  let dist_basename := basename dist in
  log ("Using working directory: " +:+ workdir);;
  (* Copy dist and tests to working directory. *)
  log ("Copying distribution from: " +:+ dist);;
  perform_ (Copy2 dist (workdir +:+ "/" +:+ dist_basename));;
  let tests_dir := workdir +:+ "/tests" in
  perform_ (Mkdir tests_dir);;
  for_each tests (λ test,
    log ("Copying tests from: " +:+ test);;
    perform_ (Copytree test (tests_dir +:+ "/" +:+ basename test)));;
  (* Copy verifier directory to working directory. *)
  let docker_ctx := workdir +:+ "/verifier" in
  log ("Copying verifier directory to: " +:+ docker_ctx);;
  perform_ (Copytree "verifier/" docker_ctx);;
  (* Extract NCCL archive. *)
  log "Creating nccl directory under verifier directory";;
  let nccl_workdir := docker_ctx +:+ "/nccl" in
  perform_ (Mkdir nccl_workdir);;
  match nccl_config with
  | Some nccl_config =>
      log "Extracting NCCL archive";;
      extract_nccl_archive nccl_config nccl_assets nccl_workdir
  | None => log "NCCL is not installed for this verification"
  end;;
  (* Creates a Docker image to verify specified distribution. *)
  _create_verifier_linux image_tag base_image docker_ctx;;
  (* Verify. *)
  log "Starting verification";;
  _run_container image_tag kind workdir agent_args;;
  log "Finished verification".

Definition _verify_linux (image_tag base_image kind dist : string)
    (tests : list string) (python_version : string) (nccl_assets : option string)
    (nccl_config : option nccl_config) (cuda_version : option string)
    (preloads : list string) : M unit :=
  let dist_basename := basename dist in
  (* Arguments for the agent. *)
  let agent_args :=
    [ "--python"; python_version;
      "--dist"; dist_basename;
      "--chown"; pretty (os_getuid w) +:+ ":" +:+ pretty (os_getgid w) ] in
  let agent_args :=
    if bool_decide (0 < length preloads)%nat then
      agent_args ++ ["--cuda"; str_opt cuda_version]
        ++ concat ((λ p, ["--preload"; p]) <$> preloads)
    else agent_args in
  (* Add arguments for `python -m pytest`. *)
  let agent_args := agent_args ++ ["tests"] in
  (* Create a working directory. *)
  workdir ← perform (Mkdtemp "cupy-dist-");
  try_finally
    (_verify_linux_try image_tag base_image kind dist tests nccl_assets nccl_config
       agent_args workdir)
    (remove_workdir workdir).

(** The locals [verify_linux] sets per target (lines 593-611). *)
Record linux_verify : Type := LinuxVerify {
  lv_image_tag : string;
  lv_kind : string;
  lv_base_image : string;
  lv_systems : list string;
  lv_preloads : list string;
  lv_nccl_config : option nccl_config;
}.

Definition verify_linux_config (target : string) (cuda_version : option string)
  : M linux_verify :=
  if bool_decide (target = "sdist") then
    match cuda_version with
    | Some _ => raise AssertionError ""
    | None =>
        let s := SDIST_CONFIG cfg in
        if bool_decide (length (sc_verify_preloads s) = 0%nat) then
          ret {| lv_image_tag := "cupy-verifier-sdist";
                 lv_kind := "cuda";
                 lv_base_image := sc_verify_image s;
                 lv_systems := sc_verify_systems s;
                 lv_preloads := sc_verify_preloads s;
                 lv_nccl_config := sc_nccl s |}
        else raise AssertionError ""
    end
  else if bool_decide (target = "wheel-linux") then
    match cuda_version with
    | None => raise AssertionError ""
    | Some cuda_version =>
        c ← getitem (WHEEL_LINUX_CONFIGS cfg) cuda_version;
        ret {| lv_image_tag := "cupy-verifier-wheel-linux-" +:+ cuda_version;
               lv_kind := lc_kind c;
               lv_base_image := lc_verify_image c;
               lv_systems := lc_verify_systems c;
               lv_preloads := lc_verify_preloads c;
               lv_nccl_config := None |}
    end
  else raise RuntimeError "unknown target".

(** One round of the loop of [verify_linux] (lines 614-621). *)
Definition verify_linux_system (v : linux_verify) (nccl_assets cuda_version : option string)
    (python_version dist : string) (tests : list string) (system : string) : M unit :=
  let image := format_system cfg (lv_base_image v) system in
  let image_tag_system := lv_image_tag v +:+ "-" +:+ system in
  log ("Starting verification for " +:+ dist +:+ " on " +:+ image +:+ " with Python "
         +:+ python_version);;
  _verify_linux image_tag_system image (lv_kind v) dist tests python_version
    nccl_assets (lv_nccl_config v) cuda_version (lv_preloads v).

(** Verify a single distribution for Linux. *)
Definition verify_linux (target : string) (nccl_assets cuda_version : option string)
    (python_version dist : string) (tests : list string) : M unit :=
  v ← verify_linux_config target cuda_version;
  for_each (lv_systems v)
    (verify_linux_system v nccl_assets cuda_version python_version dist tests).

(** The [try] block of [verify_windows] (lines 717-735). *)
Definition verify_windows_try (dist : string) (tests : list string)
    (agent_args : list string) (workdir : string) : M unit :=
  let dist_basename := basename dist in
  log ("Using working directory: " +:+ workdir);;
  (* Copy dist and tests to working directory. *)
  log ("Copying distribution from: " +:+ dist);;
  perform_ (Copy2 dist (workdir +:+ "/" +:+ dist_basename));;
  let tests_dir := workdir +:+ "/tests" in
  perform_ (Mkdir tests_dir);;
  for_each tests (λ test,
    log ("Copying tests from: " +:+ test);;
    perform_ (Copytree test (tests_dir +:+ "/" +:+ basename test)));;
  (* Verify. *)
  log "Starting verification";;
  run_command ([sys_executable w; os_getcwd w +:+ "/verifier/agent.py"] ++ agent_args)
              (Some workdir);;
  log "Finished verification".

(** What [verify_windows] does before it creates the working directory
    (lines 691-711); it returns the agent's arguments. *)
Definition verify_windows_setup (target : string) (nccl_assets cuda_version : option string)
    (python_version dist : string) : M (list string) :=
  (* Perform additional check as Windows environment is not isoalted. *)
  _check_windows_environment cuda_version python_version;;
  (if bool_decide (target ≠ "wheel-win") then raise ValueError "unknown target"
   else ret tt);;
  (if bool_decide (nccl_assets ≠ None) then
     raise RuntimeError "NCCL not supported on Windows"
   else ret tt);;
  log ("Starting verification for " +:+ dist +:+ " with Python " +:+ python_version);;
  (* Arguments for the agent; then those for `python -m pytest`. *)
  ret (["--dist"; dist] ++ ["tests"]).

(** Verify a single distribution for Windows. *)
Definition verify_windows (target : string) (nccl_assets cuda_version : option string)
    (python_version dist : string) (tests : list string) : M unit :=
  agent_args ← verify_windows_setup target nccl_assets cuda_version python_version dist;
  (* Create a working directory. *)
  workdir ← perform (Mkdtemp "cupy-dist-");
  try_finally (verify_windows_try dist tests agent_args workdir)
              (remove_workdir workdir).

(** The parsed command line. *)
Record args : Type := Args {
  args_action : string;
  args_target : string;
  args_nccl_assets : option string;
  args_cuda : option string;
  args_python : string;
  args_source : string;
  args_output : string;
  args_dist : string;
  args_test : list string;
}.

Definition main (a : args) : M unit :=
  if bool_decide (args_action a = "build") then
    if bool_decide (args_target a = "wheel-win") then
      build_windows (args_target a) (args_nccl_assets a) (args_cuda a) (args_python a)
        (args_source a) (args_output a)
    else
      build_linux (args_target a) (args_nccl_assets a) (args_cuda a) (args_python a)
        (args_source a) (args_output a)
  else if bool_decide (args_action a = "verify") then
    if bool_decide (args_target a = "wheel-win") then
      verify_windows (args_target a) (args_nccl_assets a) (args_cuda a) (args_python a)
        (args_dist a) (args_test a)
    else
      verify_linux (args_target a) (args_nccl_assets a) (args_cuda a) (args_python a)
        (args_dist a) (args_test a)
  else ret tt.

End Run.

End Dist.

(* ===================================================================== *)
(** * Part II: the properties                                             *)
(* ===================================================================== *)

Module RuntimeHeadersSpec.
Import RuntimeHeaders.

Example shlex_join_pip :
  shlex_join ["python3"; "-m"; "pip"; "install"; "--user"; cu12_requirement 4]
  = "python3 -m pip install --user 'nvidia-cuda-runtime-cu12==12.4.*'".
Proof. reflexivity. Qed.

(** C10.  The runtime-headers setup returns without running anything when the
    runtime is HIP; otherwise, with [(major, minor)] the detected NVRTC
    version, it returns without running anything when [major = 11] or when
    [major = 12] and [minor < 2]; it runs exactly one command,
    [pip install --user nvidia-cuda-runtime-cu12==12.minor.*], when
    [major = 12] and [2 <= minor] (ending as that command ends); and it
    raises [AssertionError], running nothing, for any other major version.
    So a command is run exactly when the runtime is not HIP and the version
    is 12.2 or a later 12.x. *)
Theorem C10_runtime_headers_setup (h : host) (major minor : Z) :
  nvrtc_getVersion h = Return (major, minor) →
  (is_hip h = true → main h = ([], Return tt)) ∧
  (is_hip h = false → major = 11 → main h = ([], Return tt)) ∧
  (is_hip h = false → major = 12 → minor < 2 → main h = ([], Return tt)) ∧
  (is_hip h = false → major = 12 → 2 ≤ minor →
     ran_commands (main h).1
       = [[sys_executable h; "-m"; "pip"; "install"; "--user";
           cu12_requirement minor]] ∧
     (main h).2
       = subprocess_run h [sys_executable h; "-m"; "pip"; "install"; "--user";
                           cu12_requirement minor]) ∧
  (is_hip h = false → major ≠ 11 → major ≠ 12 →
     (main h).1 = [] ∧ raised_class (main h).2 = Some AssertionError) ∧
  (ran_commands (main h).1 ≠ [] ↔ is_hip h = false ∧ major = 12 ∧ 2 ≤ minor).
Proof.
  intros Hv. unfold main. rewrite Hv.
  destruct (is_hip h) eqn:Hhip; [by repeat split; intros; try done; naive_solver |].
  destruct (Z.eqb_spec major 11) as [-> | H11];
    [by repeat split; intros; try done; try lia; naive_solver lia |].
  destruct (Z.eqb_spec major 12) as [-> | H12].
  - destruct (Z.ltb_spec minor 2) as [Hlt | Hge];
      repeat split; intros; try done; try lia; naive_solver lia.
  - repeat split; intros; try done; try lia; naive_solver lia.
Qed.

Definition cuda_12_4_host : host :=
  {| is_hip := false;
     nvrtc_getVersion := Return (12, 4);
     sys_executable := "/usr/bin/python3";
     subprocess_run := λ _, Return tt |}.

Lemma C10_runtime_headers_setup_witness :
  ran_commands (main cuda_12_4_host).1
    = [["/usr/bin/python3"; "-m"; "pip"; "install"; "--user";
        "nvidia-cuda-runtime-cu12==12.4.*"]]
  ∧ (main cuda_12_4_host).2 = Return tt.
Proof.
  destruct (C10_runtime_headers_setup cuda_12_4_host 12 4 eq_refl)
    as (_ & _ & _ & H & _).
  apply H; [reflexivity | reflexivity | lia].
Defined.

End RuntimeHeadersSpec.

(** ** The file system: looking up after writing *)

Module FsFacts.
Import Fs.

(** Two paths are apart when neither lies at or below the other. *)
Definition apart (p q : path) : Prop := ¬ p `prefix_of` q ∧ ¬ q `prefix_of` p.

(** [t'] differs from [t] at or below [p] only (and so, also in what the
    directories above [p] hold at or below [p]). *)
Definition unchanged_apart (p : path) (t t' : node) : Prop :=
  ∀ q, apart p q → lookup q t' = lookup q t.

(** Nothing of [t] is gone in [t']: every path of [t] still leads to a node
    of the same kind. *)
Definition preserved (t t' : node) : Prop :=
  ∀ q n, lookup q t = Some n →
         ∃ n', lookup q t' = Some n' ∧ is_dir_node n' = is_dir_node n.

#[global] Instance apart_symm : Symmetric apart.
Proof. intros p q [??]; by split. Qed.

Lemma apart_cons_ne a b (p q : path) : a ≠ b → apart (a :: p) (b :: q).
Proof. intros Hne; split; intros [k Hk]; simplify_eq/=. Qed.

Lemma apart_cons a (p q : path) : apart (a :: p) (a :: q) ↔ apart p q.
Proof.
  unfold apart. split; intros [H1 H2]; split; intros [k Hk];
    [apply H1 | apply H2 | apply H1 | apply H2]; simplify_eq/=;
    try (by eexists); by apply prefix_cons, prefix_app_r.
Qed.

Lemma apart_app (b p q : path) : apart (b ++ p) (b ++ q) ↔ apart p q.
Proof. induction b as [|a b IH]; [done|]. simpl. by rewrite apart_cons. Qed.

Lemma apart_nil_l (q : path) : ¬ apart [] q.
Proof. intros [H _]. apply H, prefix_nil. Qed.

Lemma apart_nil_r (q : path) : ¬ apart q [].
Proof. intros [_ H]. apply H, prefix_nil. Qed.

(** Extending both sides keeps paths apart. *)
Lemma apart_app_l (p q r : path) : apart p q → apart (p ++ r) q.
Proof.
  intros [H1 H2]. split.
  - intros [k ->]. apply H1. rewrite <-(assoc_L (++)). by apply prefix_app_r.
  - intros [k Hk]. destruct (prefix_weak_total p q (p ++ r)) as [?|?]; try done.
    + by apply prefix_app_r.
    + by exists k.
Qed.

Lemma apart_app_r (p q r : path) : apart p q → apart p (q ++ r).
Proof. intros. symmetry. by apply apart_app_l. Qed.

Lemma apart_snoc_ne (p : path) a b r r' : a ≠ b → apart (p ++ a :: r) (p ++ b :: r').
Proof. intros. apply apart_app. by apply apart_cons_ne. Qed.

Lemma unchanged_apart_refl p t : unchanged_apart p t t.
Proof. by intros q _. Qed.

Lemma unchanged_apart_trans p t1 t2 t3 :
  unchanged_apart p t1 t2 → unchanged_apart p t2 t3 → unchanged_apart p t1 t3.
Proof. intros H12 H23 q Hq. by rewrite H23, H12. Qed.

Lemma unchanged_apart_weaken p r t t' :
  unchanged_apart (p ++ r) t t' → unchanged_apart p t t'.
Proof. intros H q Hq. apply H. by apply apart_app_l. Qed.

Lemma preserved_refl t : preserved t t.
Proof. intros q n Hq. eauto. Qed.

Lemma preserved_trans t1 t2 t3 : preserved t1 t2 → preserved t2 t3 → preserved t1 t3.
Proof.
  intros H12 H23 q n Hq.
  destruct (H12 q n Hq) as (n2 & Hq2 & Hk2).
  destruct (H23 q n2 Hq2) as (n3 & Hq3 & Hk3).
  exists n3. split; [done | congruence].
Qed.

Lemma lookup_app (p r : path) t : lookup (p ++ r) t = lookup p t ≫= lookup r.
Proof.
  revert t. induction p as [|a p IH]; intros t; simpl; [done|].
  destruct t as [|es]; [done|]. destruct (es !! a) as [c|]; simpl; [apply IH | done].
Qed.

Lemma lookup_file_inv (p : path) data n : lookup p (File data) = Some n → p = [] ∧ n = File data.
Proof. destruct p; simpl; [|done]. by intros [= <-]. Qed.

(** *** [put] *)

Lemma put_snoc_is_Some (q : path) a x t es :
  lookup q t = Some (Dir es) → is_Some (put (q ++ [a]) x (Some t)).
Proof.
  revert t. induction q as [|b q IH]; intros t; simpl.
  { intros [= ->]. by eexists. }
  destruct t as [|es']; [done|].
  destruct (es' !! b) as [c|]; simpl; [|done].
  intros Hq. destruct (IH _ Hq) as [c' ->]. by eexists.
Qed.

Lemma path_snoc (p : path) : p ≠ [] → p = parent p ++ [name_of p].
Proof. intros. by apply app_removelast_last. Qed.

Lemma parent_snoc (p : path) a : parent (p ++ [a]) = p.
Proof. apply removelast_last. Qed.

Lemma name_of_snoc (p : path) a : name_of (p ++ [a]) = a.
Proof. apply last_last. Qed.

Lemma lookup_put_eq (p : path) x o t' : put p x o = Some t' → lookup p t' = Some x.
Proof.
  revert o t'. induction p as [|a p IH]; intros o t'; simpl.
  { by intros [= ->]. }
  destruct o as [[|es]|]; try done.
  destruct (put p x (es !! a)) as [c|] eqn:Hc; simpl; [|done].
  intros [= <-]. rewrite lookup_insert_eq. simpl. eauto.
Qed.

Lemma lookup_put_apart (p q : path) x o t' :
  put p x o = Some t' → apart p q → lookup q t' = o ≫= lookup q.
Proof.
  revert q o t'. induction p as [|a p IH]; intros q o t'; simpl.
  { intros _ H. by apply apart_nil_l in H. }
  destruct o as [[|es]|]; try done.
  destruct (put p x (es !! a)) as [c|] eqn:Hc; simpl; [|done].
  intros [= <-] Hpq. destruct q as [|b q]; [by apply apart_nil_r in Hpq|].
  simpl. destruct (decide (a = b)) as [<-|Hne].
  - rewrite lookup_insert_eq. simpl. apply apart_cons in Hpq.
    by rewrite (IH _ _ _ Hc Hpq).
  - by rewrite lookup_insert_ne.
Qed.

Lemma lookup_put_below (p r : path) x o t' :
  put p x o = Some t' → lookup (p ++ r) t' = lookup r x.
Proof. intros H. by rewrite lookup_app, (lookup_put_eq _ _ _ _ H). Qed.

(** Above the place written, a directory stays a directory. *)
Lemma lookup_put_above (p r : path) x t t' :
  put (p ++ r) x (Some t) = Some t' → r ≠ [] →
  ∃ es es', lookup p t = Some (Dir es) ∧ lookup p t' = Some (Dir es').
Proof.
  revert t t'. induction p as [|a p IH]; intros t t'; simpl.
  { destruct r as [|b r]; [done|]. simpl. destruct t as [|es]; [done|].
    destruct (put r x (es !! b)); simpl; [|done]. intros [= <-] _. eauto. }
  destruct t as [|es]; [done|].
  destruct (es !! a) as [c|] eqn:Hc; simpl.
  - destruct (put (p ++ r) x (Some c)) as [c'|] eqn:Hc'; simpl; [|done].
    intros [= <-] Hr. rewrite lookup_insert_eq. simpl. eauto.
  - destruct p as [|b p]; simpl; [|done]. destruct r; done.
Qed.

(** Writing what is there already changes nothing. *)
Lemma put_id (p : path) x t : lookup p t = Some x → put p x (Some t) = Some t.
Proof.
  revert t. induction p as [|a p IH]; intros t; simpl.
  { by intros [= ->]. }
  destruct t as [|es]; [done|].
  destruct (es !! a) as [c|] eqn:Hc; simpl; [|done].
  intros Hx. rewrite (IH _ Hx). simpl. by rewrite insert_id.
Qed.

Lemma put_unchanged_apart (p : path) x t t' :
  put p x (Some t) = Some t' → unchanged_apart p t t'.
Proof. intros H q Hq. by rewrite (lookup_put_apart _ _ _ _ _ H Hq). Qed.

Lemma path_trichotomy (p q : path) :
  apart p q ∨ (∃ r, q = p ++ r) ∨ (∃ r, p = q ++ r ∧ r ≠ []).
Proof.
  destruct (decide (p `prefix_of` q)) as [[r ->]|Hpq]; [right; left; by eexists|].
  destruct (decide (q `prefix_of` p)) as [[r ->]|Hqp]; [|by left].
  right; right. exists r. split; [done|]. intros ->. apply Hpq.
  by rewrite (right_id_L [] (++)).
Qed.

(** Creating an entry, or replacing a regular file by a regular file, loses
    nothing. *)
Lemma put_preserved (p : path) x t t' :
  put p x (Some t) = Some t' →
  match lookup p t with
  | None => True
  | Some old => is_dir_node old = false ∧ is_dir_node x = false
  end →
  preserved t t'.
Proof.
  intros Hput Hold q n Hq.
  destruct (path_trichotomy p q) as [Hap | [[r ->] | (r & -> & Hr)]].
  - exists n. by rewrite (lookup_put_apart _ _ _ _ _ Hput Hap).
  - rewrite lookup_app in Hq. destruct (lookup p t) as [old|] eqn:Hp; [|done].
    simpl in Hq. destruct Hold as [Hold Hx]. destruct old as [data|]; [|done].
    apply lookup_file_inv in Hq as [-> ->].
    exists x. by rewrite (lookup_put_below _ _ _ _ _ Hput).
  - destruct (lookup_put_above _ _ _ _ _ Hput Hr) as (es & es' & H1 & H2).
    exists (Dir es'). split; [done|]. by simplify_eq.
Qed.

End FsFacts.

(** ** builder/setup_cuda_opt_lib.py: the vendor tree *)

Module OptLibSpec.
Import Fs FsFacts OptLib.

(** The names a directory holds, in listing order; [None] for what is no
    directory. *)
Definition children (p : path) (t : node) : option (list string) :=
  match lookup p t with
  | Some (Dir es) => Some (map_to_list es).*1
  | _ => None
  end.

(** The state a call leaves when it printed [lines] and wrote nothing. *)
Definition printed (st : state) (lines : list string) : state :=
  {| fs := fs st; stdout := stdout st ++ lines |}.

Definition assertion_error : exn := Exn AssertionError "".

Lemma bind_run {A B} (m : M A) (k : A → M B) (st : state) :
  (m ≫= k) st
  = match m st with
    | Some (st', Return a) => k a st'
    | Some (st', Raise e) => Some (st', Raise e)
    | None => None
    end.
Proof. reflexivity. Qed.

Lemma iterdir_children (p : path) (st : state) l :
  children p (fs st) = Some l →
  iterdir p st = Some (st, Return ((λ name, p ++ [name]) <$> l)).
Proof.
  unfold children, iterdir. destruct (lookup p (fs st)) as [[|es]|]; try done.
  by intros [= <-].
Qed.

Lemma _child_one (p : path) (st : state) v :
  children p (fs st) = Some [v] → _child p st = Some (st, Return (p ++ [v])).
Proof.
  intros H. unfold _child. rewrite bind_run, (iterdir_children _ _ _ H). done.
Qed.

Lemma _child_not_one (p : path) (st : state) l :
  children p (fs st) = Some l → length l ≠ 1%nat →
  _child p st = Some (st, Raise assertion_error).
Proof.
  intros H Hl. unfold _child. rewrite bind_run, (iterdir_children _ _ _ H).
  rewrite bind_run. unfold assert_. rewrite length_fmap.
  by rewrite bool_decide_eq_false_2.
Qed.

Lemma path_exists_run (p : path) (st : state) :
  path_exists p st = Some (st, Return (bool_decide (is_Some (lookup p (fs st))))).
Proof. reflexivity. Qed.

(** The library directory exists below the only child of the source root. *)
Lemma _install_library_descend fuel name (src_dir dst_dir : path) install_map st v :
  children src_dir (fs st) = Some [v] →
  is_Some (lookup (src_dir ++ [v; name]) (fs st)) →
  _install_library fuel name src_dir dst_dir install_map st
  = (src_dir' ← _child (src_dir ++ [v; name]);
     children ← iterdir src_dir';
     for_each children (install_entry fuel dst_dir install_map)) st.
Proof.
  intros Hv Hname. unfold _install_library.
  rewrite bind_run, (_child_one _ _ _ Hv), bind_run, path_exists_run.
  rewrite <-(assoc_L (++)). simpl. by rewrite bool_decide_eq_true_2.
Qed.

(** C6 (as amended).  When the source root holds exactly one entry [v]
    (the version-scoped top level): where [v] holds nothing named after the
    library, [_install_library] returns normally, having only printed that
    it skips the library; the file system, the destination included, is as
    before.  Where [v] holds a regular file of that name, the library
    counts as present ([exists()] is true), listing it raises
    [NotADirectoryError], and nothing is printed or written. *)
Theorem C6_missing_library_is_skipped
    fuel name (src_dir dst_dir : path) install_map (st : state) v :
  children src_dir (fs st) = Some [v] →
  (lookup (src_dir ++ [v; name]) (fs st) = None →
   _install_library fuel name src_dir dst_dir install_map st
   = Some (printed st ["Skip installing " +:+ name +:+ " (unavailable)"], Return tt))
  ∧ (∀ data,
       lookup (src_dir ++ [v; name]) (fs st) = Some (File data) →
       ∃ msg,
         _install_library fuel name src_dir dst_dir install_map st
         = Some (st, Raise (Exn NotADirectoryError msg))).
Proof.
  intros Hv. split.
  - intros Hname. unfold _install_library.
    rewrite bind_run, (_child_one _ _ _ Hv), bind_run, path_exists_run.
    rewrite <-(assoc_L (++)). simpl. rewrite Hname.
    by rewrite bool_decide_eq_false_2 by (by intros [??]).
  - intros data Hname.
    rewrite (_install_library_descend _ _ _ _ _ _ v) by (by rewrite ?Hname; eauto).
    rewrite bind_run. unfold _child. rewrite bind_run. unfold iterdir.
    rewrite Hname. simpl. by eexists.
Qed.

(** C9.  [_install_library] wants exactly one child at each version-scoped
    level.  A source root that is an empty directory makes it raise
    [AssertionError]; so does a library directory that exists and is empty.
    Neither is taken for the skip of a library that is not there: the call
    does not return, prints nothing and writes nothing. *)
Theorem C9_empty_level_is_an_assertion_error
    fuel name (src_dir dst_dir : path) install_map (st : state) :
  (children src_dir (fs st) = Some [] →
   _install_library fuel name src_dir dst_dir install_map st
   = Some (st, Raise assertion_error)) ∧
  (∀ v, children src_dir (fs st) = Some [v] →
        children (src_dir ++ [v; name]) (fs st) = Some [] →
        _install_library fuel name src_dir dst_dir install_map st
        = Some (st, Raise assertion_error)).
Proof.
  split.
  - intros H. unfold _install_library.
    by rewrite bind_run, (_child_not_one _ _ _ H).
  - intros v Hv H. rewrite (_install_library_descend _ _ _ _ _ _ v); [|done|].
    + by rewrite bind_run, (_child_not_one _ _ _ H).
    + unfold children in H. destruct (lookup _ _); [by eexists | done].
Qed.

End OptLibSpec.

(** ** builder/setup_cuda_opt_lib.py: merging directories *)

Module MergeSpec.
Import Fs FsFacts OptLib OptLibSpec.

(** A computation is confined to [T] when, however it ends, it has written
    at or below [T] only and nothing that was there is gone. *)
Definition confined {A} (T : path) (m : M A) : Prop :=
  ∀ st st' r, m st = Some (st', r) →
              unchanged_apart T (fs st) (fs st') ∧ preserved (fs st) (fs st').

(** A computation that leaves the file system alone. *)
Definition read_only {A} (m : M A) : Prop :=
  ∀ st st' r, m st = Some (st', r) → fs st' = fs st.

Lemma read_only_confined {A} T (m : M A) : read_only m → confined T m.
Proof.
  intros H st st' r Hm. rewrite (H _ _ _ Hm).
  split; [apply unchanged_apart_refl | apply preserved_refl].
Qed.

Lemma confined_weaken {A} (T r : path) (m : M A) : confined (T ++ r) m → confined T m.
Proof.
  intros H st st' res Hm. destruct (H _ _ _ Hm) as [H1 H2].
  split; [by eapply unchanged_apart_weaken | done].
Qed.

Lemma confined_bind {A B} T (m : M A) (k : A → M B) :
  confined T m → (∀ a, confined T (k a)) → confined T (m ≫= k).
Proof.
  intros Hm Hk st st' r. rewrite bind_run.
  destruct (m st) as [[st1 [a|e]]|] eqn:Hm1; [| |done].
  - intros Hk1. destruct (Hm _ _ _ Hm1) as [? ?], (Hk _ _ _ _ Hk1) as [? ?].
    split; [by eapply unchanged_apart_trans | by eapply preserved_trans].
  - intros [= <- <-]. by eapply Hm.
Qed.

Lemma confined_for_each {A} T (l : list A) (body : A → M unit) :
  (∀ a, a ∈ l → confined T (body a)) → confined T (for_each l body).
Proof.
  induction l as [|a l IH]; intros Hbody; simpl.
  - apply read_only_confined. by intros st st' r [= <- _].
  - apply confined_bind; [apply Hbody; by left|].
    intros _. apply IH. intros a' Ha'. apply Hbody. by right.
Qed.

Lemma read_only_ret {A} (a : A) : read_only (ret a).
Proof. by intros st st' r [= <- _]. Qed.
Lemma read_only_raise {A} c msg : read_only (@raise A c msg).
Proof. by intros st st' r [= <- _]. Qed.
Lemma read_only_print line : read_only (print line).
Proof. by intros st st' r [= <- _]. Qed.
Lemma read_only_path_exists p : read_only (path_exists p).
Proof. by intros st st' r [= <- _]. Qed.
Lemma read_only_is_dir p : read_only (is_dir p).
Proof. by intros st st' r [= <- _]. Qed.
Lemma read_only_read_file p : read_only (read_file p).
Proof.
  intros st st' r. unfold read_file.
  destruct (lookup p (fs st)) as [[|]|]; by intros [= <- _].
Qed.

(** Setting the node at [p], below an existing directory, where nothing or
    a regular file was. *)
Lemma set_node_confined (p : path) x (st st' : state) r es :
  lookup (parent p) (fs st) = Some (Dir es) → p ≠ [] →
  match lookup p (fs st) with
  | None => True
  | Some old => is_dir_node old = false ∧ is_dir_node x = false
  end →
  set_node p x st = Some (st', r) →
  put p x (Some (fs st)) = Some (fs st') ∧
  unchanged_apart p (fs st) (fs st') ∧ preserved (fs st) (fs st').
Proof.
  intros Hpar Hp Hold [= <- <-]. simpl.
  destruct (put_snoc_is_Some (parent p) (name_of p) x _ _ Hpar) as [t' Ht'].
  rewrite <-path_snoc in Ht' by done. rewrite Ht'. simpl.
  split_and!; [done | by eapply put_unchanged_apart | by eapply put_preserved].
Qed.

Lemma in_directory_inv (p : path) (k : M unit) (st st' : state) r :
  in_directory p k st = Some (st', r) →
  (∃ es, lookup (parent p) (fs st) = Some (Dir es) ∧ k st = Some (st', r))
  ∨ (st' = st ∧ returned r = false).
Proof.
  unfold in_directory. destruct (lookup (parent p) (fs st)) as [[|es]|].
  - intros [= <- <-]. by right.
  - intros Hk. left. eauto.
  - intros [= <- <-]. by right.
Qed.

Lemma lookup_None_ne_nil (p : path) t : lookup p t = None → p ≠ [].
Proof. by intros H ->. Qed.

Lemma mkdir_confined p : confined p (mkdir p).
Proof.
  intros st st' r. unfold mkdir.
  destruct (lookup p (fs st)) as [n|] eqn:Hp.
  { intros [= <- _]. split; [apply unchanged_apart_refl | apply preserved_refl]. }
  intros [(es & Hpar & Hk) | [-> _]]%in_directory_inv.
  - eapply set_node_confined in Hk as (_ & ? & ?); eauto using lookup_None_ne_nil.
    by rewrite Hp.
  - split; [apply unchanged_apart_refl | apply preserved_refl].
Qed.

Lemma write_file_confined p data : confined p (write_file p data).
Proof.
  intros st st' r. unfold write_file.
  destruct (lookup p (fs st)) as [[d|es]|] eqn:Hp.
  - intros [(es & Hpar & Hk) | [-> _]]%in_directory_inv.
    + eapply set_node_confined in Hk as (_ & ? & ?); eauto.
      * intros ->. unfold parent in *. simpl in *. congruence.
      * by rewrite Hp.
    + split; [apply unchanged_apart_refl | apply preserved_refl].
  - intros [= <- _]. split; [apply unchanged_apart_refl | apply preserved_refl].
  - intros [(es & Hpar & Hk) | [-> _]]%in_directory_inv.
    + eapply set_node_confined in Hk as (_ & ? & ?); eauto using lookup_None_ne_nil.
      by rewrite Hp.
    + split; [apply unchanged_apart_refl | apply preserved_refl].
Qed.

Lemma copy2_confined src dst : confined dst (copy2 src dst).
Proof.
  unfold copy2. apply confined_bind; [apply read_only_confined, read_only_is_dir|].
  intros d. apply confined_bind; [apply read_only_confined, read_only_path_exists|].
  intros e. destruct (_ && _); [apply read_only_confined, read_only_raise|].
  apply confined_bind; [apply read_only_confined, read_only_read_file|].
  intros data. destruct d; [|apply write_file_confined].
  apply confined_weaken with (r := [name_of src]), write_file_confined.
Qed.

Lemma relative_to_app (base rel : path) : relative_to (base ++ rel) base = Some rel.
Proof. induction base as [|b base IH]; simpl; [done|]. by rewrite decide_True. Qed.

Lemma merge_step_confined (src_dir dst_dir rel : path) files :
  confined (dst_dir ++ rel) (merge_step src_dir dst_dir (src_dir ++ rel) files).
Proof.
  unfold merge_step. rewrite relative_to_app.
  apply confined_bind; [apply read_only_confined, read_only_path_exists|].
  intros e. apply confined_bind.
  { destruct e; [apply read_only_confined, read_only_ret|].
    apply confined_bind; [apply read_only_confined, read_only_print|].
    intros _. apply mkdir_confined. }
  intros _. apply confined_for_each. intros f _.
  apply confined_bind; [apply read_only_confined, read_only_print|].
  intros _. apply confined_weaken with (r := [f]), copy2_confined.
Qed.

Lemma walk_merge_confined fuel (src_dir dst_dir rel : path) :
  confined (dst_dir ++ rel)
    (walk fuel (src_dir ++ rel) (merge_step src_dir dst_dir)).
Proof.
  revert rel. induction fuel as [|fuel IH]; intros rel; simpl; [by intros ???|].
  intros st st' r.
  destruct (lookup (src_dir ++ rel) (fs st)) as [[|es]|] eqn:Htop;
    try (intros [= <- _]; split; [apply unchanged_apart_refl | apply preserved_refl]).
  apply (confined_bind (dst_dir ++ rel)
           (merge_step src_dir dst_dir (src_dir ++ rel) (nondirs es))
           (λ _, for_each (subdirs es)
              (λ d, walk fuel ((src_dir ++ rel) ++ [d]) (merge_step src_dir dst_dir))));
    [apply merge_step_confined|].
  intros _. apply confined_for_each. intros d _.
  rewrite <-(assoc_L (++)). apply confined_weaken with (r := [d]).
  rewrite <-(assoc_L (++)). apply IH.
Qed.

(** Whatever the two directories and however it ends, [merge_directory]
    writes at or below the destination only, and nothing that was in the
    file system before is gone after. *)
Lemma merge_directory_confined fuel (src_dir dst_dir : path) :
  confined dst_dir (merge_directory fuel src_dir dst_dir).
Proof.
  unfold merge_directory.
  rewrite <-(right_id_L [] (++) src_dir) at 1.
  rewrite <-(right_id_L [] (++) dst_dir) at 1.
  apply walk_merge_confined.
Qed.

(** *** Inverting a run that returned *)

Lemma bind_Return_inv {A B} (m : M A) (k : A → M B) st st' b :
  (m ≫= k) st = Some (st', Return b) →
  ∃ st1 a, m st = Some (st1, Return a) ∧ k a st1 = Some (st', Return b).
Proof.
  rewrite bind_run. destruct (m st) as [[st1 [a|e]]|]; [|done|done]. eauto.
Qed.

Lemma for_each_cons_inv {A} (a : A) l (body : A → M unit) st st' :
  for_each (a :: l) body st = Some (st', Return tt) →
  ∃ st1, body a st = Some (st1, Return tt)
         ∧ for_each l body st1 = Some (st', Return tt).
Proof. simpl. intros (st1 & [] & ? & ?)%bind_Return_inv. eauto. Qed.

Lemma for_each_confined_run {A} T (l : list A) (body : A → M unit) st st' r :
  (∀ a, a ∈ l → confined T (body a)) →
  for_each l body st = Some (st', r) →
  unchanged_apart T (fs st) (fs st') ∧ preserved (fs st) (fs st').
Proof. intros H. by apply (confined_for_each T l body H). Qed.

Lemma for_each_ext {A} (l : list A) (body body' : A → M unit) st :
  (∀ a, body a = body' a) → for_each l body st = for_each l body' st.
Proof.
  intros H. revert st. induction l as [|a l IH]; intros st; simpl; [done|].
  rewrite !bind_run, H. by destruct (body' a st) as [[st1 [[]|e]]|].
Qed.

(** A loop whose every round returns and leaves the file system as it was. *)
Lemma for_each_same_fs {A} (l : list A) (body : A → M unit) st :
  (∀ a st1, a ∈ l → fs st1 = fs st →
            ∃ st2, body a st1 = Some (st2, Return tt) ∧ fs st2 = fs st) →
  ∃ st', for_each l body st = Some (st', Return tt) ∧ fs st' = fs st.
Proof.
  intros Hbody. cut (∀ st1, fs st1 = fs st →
    ∃ st', for_each l body st1 = Some (st', Return tt) ∧ fs st' = fs st);
    [by eauto|].
  induction l as [|a l IH]; intros st1 Hst1; simpl; [by eauto|].
  destruct (Hbody a st1) as (st2 & H2 & Hfs2); [by left | done |].
  rewrite bind_run, H2. apply IH; [|done].
  intros a' st3 Ha'. apply Hbody. by right.
Qed.

(** *** The listing of a directory *)

Lemma elem_of_subdirs (es : gmap string node) d :
  d ∈ subdirs es ↔ ∃ es', es !! d = Some (Dir es').
Proof.
  unfold subdirs. rewrite list_elem_of_omap. split.
  - intros ([name n] & Hin%elem_of_map_to_list & Hd). simpl in Hd.
    destruct n as [|es']; simplify_eq/=. eauto.
  - intros [es' Hd]. exists (d, Dir es'). by rewrite elem_of_map_to_list.
Qed.

Lemma elem_of_nondirs (es : gmap string node) f :
  f ∈ nondirs es ↔ ∃ data, es !! f = Some (File data).
Proof.
  unfold nondirs. rewrite list_elem_of_omap. split.
  - intros ([name n] & Hin%elem_of_map_to_list & Hf). simpl in Hf.
    destruct n as [data|]; simplify_eq/=. eauto.
  - intros [data Hf]. exists (f, File data). by rewrite elem_of_map_to_list.
Qed.

Lemma omap_fst_sublist {A B} (f : A * B → option A) (l : list (A * B)) :
  (∀ e y, f e = Some y → y = e.1) → omap f l `sublist_of` l.*1.
Proof.
  intros Hf. induction l as [|e l IH]; simpl; [done|].
  destruct (f e) as [y|] eqn:He; [|by constructor].
  rewrite (Hf _ _ He). by constructor.
Qed.

Lemma NoDup_subdirs (es : gmap string node) : NoDup (subdirs es).
Proof.
  eapply sublist_NoDup; [apply (NoDup_fst_map_to_list es)|].
  apply omap_fst_sublist. intros e y. by destruct (is_dir_node e.2); intros [= <-].
Qed.

Lemma NoDup_nondirs (es : gmap string node) : NoDup (nondirs es).
Proof.
  eapply sublist_NoDup; [apply (NoDup_fst_map_to_list es)|].
  apply omap_fst_sublist. intros e y. by destruct (is_dir_node e.2); intros [= <-].
Qed.

(** *** One file copied *)

(** The file [f] with contents [data] has been copied to [T]: [T] is that
    file, or [T] is a directory holding it under the name [f]. *)
Definition copied (t : node) (T : path) (f : string) (data : string) : Prop :=
  lookup T t = Some (File data)
  ∨ ∃ es, lookup T t = Some (Dir es) ∧ es !! f = Some (File data).

Lemma lookup_snoc_parent (q : path) a t n :
  lookup (q ++ [a]) t = Some n → ∃ es, lookup q t = Some (Dir es) ∧ es !! a = Some n.
Proof.
  rewrite lookup_app. destruct (lookup q t) as [[|es]|]; simpl; try done.
  destruct (es !! a) eqn:Ha; simpl; [|done]. intros [= ->]. eauto.
Qed.

Lemma write_file_Return (p : path) data st st' :
  write_file p data st = Some (st', Return tt) →
  lookup p (fs st') = Some (File data).
Proof.
  unfold write_file.
  assert (in_directory p (set_node p (File data)) st = Some (st', Return tt) →
          lookup p (fs st) ≠ None ∨ p ≠ [] →
          (∀ es, lookup p (fs st) ≠ Some (Dir es)) →
          lookup p (fs st') = Some (File data)) as Hin.
  { intros [(es & Hpar & Hk) | [_ ?]]%in_directory_inv Hp Hold; [|done].
    assert (p ≠ []) as Hnil.
    { intros ->. unfold parent in Hpar. simpl in *. by apply (Hold es). }
    eapply set_node_confined in Hk as (Hput & _); eauto.
    - by eapply lookup_put_eq.
    - destruct (lookup p (fs st)) as [[|es']|]; try done. by destruct (Hold es'). }
  destruct (lookup p (fs st)) as [[d|es]|] eqn:Hp; [|done|].
  - intros H. apply Hin; [done | by left | done].
  - intros H. apply Hin; [done | | done]. right. by eapply lookup_None_ne_nil.
Qed.

Lemma mkdir_Return (p : path) st st' :
  mkdir p st = Some (st', Return tt) → lookup p (fs st') = Some (Dir ∅).
Proof.
  unfold mkdir. destruct (lookup p (fs st)) as [n|] eqn:Hp; [done|].
  intros [(es & Hpar & Hk) | [_ ?]]%in_directory_inv; [|done].
  eapply set_node_confined in Hk as (Hput & _); eauto using lookup_None_ne_nil.
  - by eapply lookup_put_eq.
  - by rewrite Hp.
Qed.

(** A copy that returned has read a regular file and left it copied. *)
Lemma copy2_Return (src T : path) st st' :
  copy2 src T st = Some (st', Return tt) →
  ∃ data, lookup src (fs st) = Some (File data)
          ∧ copied (fs st') T (name_of src) data.
Proof.
  unfold copy2. rewrite bind_run. simpl. rewrite bind_run. simpl.
  destruct (bool_decide _ && _); [done|].
  rewrite bind_run. unfold read_file at 1.
  destruct (lookup src (fs st)) as [[data|]|] eqn:Hsrc; try done. simpl.
  intros Hw. exists data. split; [done|].
  pose proof (write_file_Return _ _ _ _ Hw) as Hnew.
  destruct (lookup T (fs st)) as [[|]|]; simpl in *; try by left.
  right. by apply lookup_snoc_parent in Hnew.
Qed.

(** Copying a file that is copied already returns and changes nothing. *)
Lemma copy2_again (src T : path) f data st :
  lookup src (fs st) = Some (File data) →
  copied (fs st) (T ++ [f]) (name_of src) data →
  apart src (T ++ [f]) →
  ∃ st', copy2 src (T ++ [f]) st = Some (st', Return tt) ∧ fs st' = fs st.
Proof.
  intros Hsrc Hcp Hap. unfold copy2. rewrite bind_run. simpl.
  rewrite bind_run. simpl.
  set (dst := if from_option is_dir_node false (lookup (T ++ [f]) (fs st))
              then (T ++ [f]) ++ [name_of src] else T ++ [f]).
  assert (lookup dst (fs st) = Some (File data) ∧ ∃ q a, dst = q ++ [a]) as [Hdst (q & a & Hq)].
  { unfold dst. destruct Hcp as [HT | (es & HT & Hf)]; rewrite HT; simpl.
    - eauto.
    - split; [|by eauto]. rewrite lookup_app, HT. simpl. by rewrite Hf. }
  assert (src ≠ dst) as Hne.
  { intros Heq. destruct Hap as [H1 H2]. unfold dst in Heq.
    destruct (from_option _ _ _).
    - apply H2. by exists [name_of src].
    - apply H1. exists []. by rewrite (right_id_L [] (++)). }
  rewrite bool_decide_eq_false_2 by done. simpl.
  rewrite bind_run. unfold read_file at 1. rewrite Hsrc. simpl.
  unfold write_file. rewrite Hdst. unfold in_directory.
  rewrite Hq, parent_snoc. rewrite Hq in Hdst.
  destruct (lookup_snoc_parent _ _ _ _ Hdst) as (es & -> & _).
  unfold set_node. rewrite (put_id _ _ _ Hdst). simpl. eauto.
Qed.

Lemma copied_unchanged (t t' : node) (P T : path) f data :
  unchanged_apart P t t' → apart P T → copied t T f data → copied t' T f data.
Proof. intros H Hap. unfold copied. by rewrite (H _ Hap). Qed.

(** A loop leaves alone what lies apart from where each round writes. *)
Lemma for_each_unchanged_at {A} (T : A → path) (q : path) (l : list A)
    (body : A → M unit) st st' r :
  (∀ a, a ∈ l → confined (T a) (body a)) →
  (∀ a, a ∈ l → apart (T a) q) →
  for_each l body st = Some (st', r) →
  lookup q (fs st') = lookup q (fs st).
Proof.
  revert st. induction l as [|a l IH]; intros st Hc Hq; simpl.
  { by intros [= <- _]. }
  assert (a ∈ a :: l) as Hin by left.
  rewrite bind_run. destruct (body a st) as [[st1 [[]|e]]|] eqn:Ha; [| |done].
  - intros Hl. destruct (Hc a Hin _ _ _ Ha) as [Hu _].
    transitivity (lookup q (fs st1)); [|by apply Hu, Hq].
    apply IH; [| |done]; intros a' Ha'; [apply Hc | apply Hq]; by right.
  - intros [= <- _]. destruct (Hc a Hin _ _ _ Ha) as [Hu _]. by apply Hu, Hq.
Qed.

(** *** Merging a second time *)

Section Merge.

Context (src_dir dst_dir : path).

(** The two directories are apart: neither lies in the other. *)
Hypothesis src_dst_apart : apart src_dir dst_dir.

Lemma src_apart_dst (r r' : path) : apart (dst_dir ++ r) (src_dir ++ r').
Proof. apply apart_app_l, apart_app_r. by symmetry. Qed.

(** The destination holds, at [rel], what a merge of the source at [rel]
    leaves there, down to depth [n]: it exists, every file of the source
    directory is copied into it, and so on for the sub-directories. *)
Fixpoint merged (n : nat) (t : node) (rel : path) : Prop :=
  match n with
  | O => False
  | S n' =>
      ∀ es, lookup (src_dir ++ rel) t = Some (Dir es) →
        is_Some (lookup (dst_dir ++ rel) t)
        ∧ (∀ f data, es !! f = Some (File data) →
                     copied t ((dst_dir ++ rel) ++ [f]) f data)
        ∧ (∀ d es', es !! d = Some (Dir es') → merged n' t (rel ++ [d]))
  end.

Lemma merged_unchanged n (t t' : node) (rel : path) :
  merged n t rel →
  (∀ q, lookup (src_dir ++ rel ++ q) t' = lookup (src_dir ++ rel ++ q) t) →
  (∀ q, lookup (dst_dir ++ rel ++ q) t' = lookup (dst_dir ++ rel ++ q) t) →
  merged n t' rel.
Proof.
  revert rel. induction n as [|n IH]; intros rel; simpl; [done|].
  intros Hm Hsrc Hdst es Hes.
  pose proof (Hsrc []) as Hs0. pose proof (Hdst []) as Hd0.
  rewrite !(right_id_L [] (++)) in Hs0, Hd0.
  rewrite Hs0 in Hes. destruct (Hm es Hes) as (Hex & Hfiles & Hdirs).
  split_and!.
  - by rewrite Hd0.
  - intros f data Hf. specialize (Hfiles f data Hf). unfold copied in *.
    rewrite <-(assoc_L (++)) in *. by rewrite Hdst.
  - intros d es' Hd. apply IH; [by eapply Hdirs | |].
    + intros q. rewrite <-(assoc_L (++) rel). apply Hsrc.
    + intros q. rewrite <-(assoc_L (++) rel). apply Hdst.
Qed.

(** The rounds of [merge_step] over the files of one directory. *)
Definition copy_file (rel : path) (f : string) : M unit :=
  print ("Copying: " +:+ show ((dst_dir ++ rel) ++ [f]) +:+ " <- "
           +:+ show ((src_dir ++ rel) ++ [f]));;
  copy2 ((src_dir ++ rel) ++ [f]) ((dst_dir ++ rel) ++ [f]).

Lemma copy_file_confined rel f : confined ((dst_dir ++ rel) ++ [f]) (copy_file rel f).
Proof.
  apply confined_bind; [apply read_only_confined, read_only_print|].
  intros _. apply copy2_confined.
Qed.

Lemma copy_files_Return (rel : path) files st st' :
  NoDup files →
  for_each files (copy_file rel) st = Some (st', Return tt) →
  ∀ f, f ∈ files →
    ∃ data, lookup ((src_dir ++ rel) ++ [f]) (fs st) = Some (File data)
            ∧ copied (fs st') ((dst_dir ++ rel) ++ [f]) f data.
Proof.
  revert st. induction files as [|f0 files IH]; intros st Hnd Hrun f Hf.
  { by apply elem_of_nil in Hf. }
  apply NoDup_cons in Hnd as [Hf0 Hnd].
  apply for_each_cons_inv in Hrun as (st1 & H0 & Hrest).
  pose proof (copy_file_confined rel f0 _ _ _ H0) as [Hu0 _].
  apply bind_Return_inv in H0 as (stp & [] & [= <-] & Hcp).
  apply copy2_Return in Hcp as (data0 & Hsrc0 & Hcp0). simpl in Hsrc0.
  rewrite name_of_snoc in Hcp0.
  apply elem_of_cons in Hf as [-> | Hf].
  - exists data0. split; [done|].
    unfold copied.
    assert (lookup ((dst_dir ++ rel) ++ [f0]) (fs st')
            = lookup ((dst_dir ++ rel) ++ [f0]) (fs st1)) as ->; [|done].
    eapply (for_each_unchanged_at (λ f', (dst_dir ++ rel) ++ [f'])); [| |done].
    + intros f' _. apply copy_file_confined.
    + intros f' Hf'. apply apart_snoc_ne. by intros ->.
  - destruct (IH st1 Hnd Hrest f Hf) as (data & Hsrc & Hcp).
    exists data. split; [|done]. rewrite <-Hsrc. symmetry. apply Hu0.
    rewrite <-!(assoc_L (++)). apply src_apart_dst.
Qed.

Lemma merge_step_eq (rel : path) files :
  merge_step src_dir dst_dir (src_dir ++ rel) files
  = (e ← path_exists (dst_dir ++ rel);
     (if e : bool then ret tt
      else print ("Creating directory: " +:+ show (dst_dir ++ rel));;
           mkdir (dst_dir ++ rel));;
     for_each files (copy_file rel)).
Proof. unfold merge_step. by rewrite relative_to_app. Qed.

(** After a round of [merge_step] that returned, the destination directory
    exists and the files are copied. *)
Lemma merge_step_Return (rel : path) files st st' :
  NoDup files →
  merge_step src_dir dst_dir (src_dir ++ rel) files st = Some (st', Return tt) →
  is_Some (lookup (dst_dir ++ rel) (fs st'))
  ∧ ∀ f, f ∈ files →
      ∃ data, lookup ((src_dir ++ rel) ++ [f]) (fs st) = Some (File data)
              ∧ copied (fs st') ((dst_dir ++ rel) ++ [f]) f data.
Proof.
  intros Hnd. rewrite merge_step_eq.
  intros (st0 & e & [= <- <-] & (sta & [] & Hmk & Hfiles)%bind_Return_inv)%bind_Return_inv.
  assert (is_Some (lookup (dst_dir ++ rel) (fs sta))
          ∧ ∀ q, lookup (src_dir ++ q) (fs sta) = lookup (src_dir ++ q) (fs st))
    as [Hex Hsrc].
  { case_bool_decide as He.
    - injection Hmk as <-. done.
    - apply bind_Return_inv in Hmk as (stp & [] & [= <-] & Hmk).
      split; [by rewrite (mkdir_Return _ _ _ Hmk)|].
      intros q. destruct (mkdir_confined _ _ _ _ Hmk) as [Hu _].
      apply Hu, src_apart_dst. }
  split.
  - destruct Hex as [n Hn].
    destruct (for_each_confined_run (dst_dir ++ rel) files (copy_file rel) _ _ _
                (λ f _, confined_weaken _ [f] _ (copy_file_confined rel f)) Hfiles)
      as [_ Hp].
    destruct (Hp _ _ Hn) as (n' & -> & _). by eexists.
  - intros f Hf.
    destruct (copy_files_Return rel files _ _ Hnd Hfiles f Hf) as (data & Hs & Hc).
    exists data. split; [|done]. by rewrite <-(assoc_L (++)), <-Hsrc, (assoc_L (++)).
Qed.

Definition walk_merge (n : nat) (rel : path) : M unit :=
  walk n (src_dir ++ rel) (merge_step src_dir dst_dir).

Lemma walk_merge_S n (rel : path) st :
  walk_merge (S n) rel st
  = match lookup (src_dir ++ rel) (fs st) with
    | Some (Dir es) =>
        (merge_step src_dir dst_dir (src_dir ++ rel) (nondirs es);;
         for_each (subdirs es) (λ d, walk_merge n (rel ++ [d]))) st
    | _ => Some (st, Return tt)
    end.
Proof.
  unfold walk_merge. simpl.
  destruct (lookup (src_dir ++ rel) (fs st)) as [[|es]|]; try done.
  rewrite !bind_run. destruct (merge_step _ _ _ _ st) as [[st1 [[]|e]]|]; try done.
  apply for_each_ext. intros d. by rewrite <-(assoc_L (++)).
Qed.

Lemma walk_merge_confined' n rel : confined (dst_dir ++ rel) (walk_merge n rel).
Proof. apply walk_merge_confined. Qed.

(** The walks into the sub-directories, once each has left its own part
    merged. *)
Lemma walk_subdirs_Return n (rel : path) dirs st st' :
  (∀ rel st st', walk_merge n rel st = Some (st', Return tt) →
                 merged n (fs st') rel) →
  NoDup dirs →
  for_each dirs (λ d, walk_merge n (rel ++ [d])) st = Some (st', Return tt) →
  ∀ d, d ∈ dirs → merged n (fs st') (rel ++ [d]).
Proof.
  intros IHn. revert st. induction dirs as [|d0 dirs IH]; intros st Hnd Hrun d Hd.
  { by apply elem_of_nil in Hd. }
  apply NoDup_cons in Hnd as [Hd0 Hnd].
  apply for_each_cons_inv in Hrun as (st1 & H0 & Hrest).
  apply elem_of_cons in Hd as [-> | Hd]; [|by eapply IH].
  apply IHn in H0. eapply merged_unchanged; [done| |]; intros q.
  - eapply (for_each_unchanged_at (λ d', dst_dir ++ rel ++ [d'])); [| |done].
    + intros d' _. apply walk_merge_confined'.
    + intros d' _. apply src_apart_dst.
  - eapply (for_each_unchanged_at (λ d', dst_dir ++ rel ++ [d'])); [| |done].
    + intros d' _. apply walk_merge_confined'.
    + intros d' Hd'. rewrite <-!(assoc_L (++)). rewrite !(assoc_L (++) dst_dir).
      apply apart_snoc_ne. by intros ->.
Qed.

(** A merge that returned leaves the destination merged. *)
Lemma walk_merge_Return n (rel : path) st st' :
  walk_merge n rel st = Some (st', Return tt) → merged n (fs st') rel.
Proof.
  revert rel st st'. induction n as [|n IHn]; intros rel st st'; [done|].
  rewrite walk_merge_S.
  destruct (lookup (src_dir ++ rel) (fs st)) as [[data|es]|] eqn:Htop.
  - intros [= <-] es Hes. congruence.
  - intros (st1 & [] & Hstep & Hdirs)%bind_Return_inv.
    destruct (merge_step_Return rel _ _ _ (NoDup_nondirs es) Hstep) as [Hex Hfiles].
    pose proof (merge_step_confined src_dir dst_dir rel _ _ _ _ Hstep) as [Hu1 _].
    pose proof (for_each_confined_run (dst_dir ++ rel) _ _ _ _ _
                  (λ d _, confined_weaken _ [d] _
                            (eq_rect _ (λ p, confined p _)
                               (walk_merge_confined' n (rel ++ [d])) _
                               (assoc_L (++) _ _ _))) Hdirs) as [Hu2 Hp2].
    intros es0 Hes0.
    rewrite (Hu2 _ (src_apart_dst _ _)), (Hu1 _ (src_apart_dst _ _)), Htop in Hes0.
    injection Hes0 as <-. split_and!.
    + destruct Hex as [x Hx]. destruct (Hp2 _ _ Hx) as (x' & -> & _). by eexists.
    + intros f data Hf.
      destruct (Hfiles f) as (data' & Hsrc & Hcp); [apply elem_of_nondirs; eauto|].
      rewrite lookup_app, Htop in Hsrc. simpl in Hsrc. rewrite Hf in Hsrc.
      injection Hsrc as <-.
      unfold copied.
      assert (lookup ((dst_dir ++ rel) ++ [f]) (fs st')
              = lookup ((dst_dir ++ rel) ++ [f]) (fs st1)) as ->; [|done].
      eapply (for_each_unchanged_at (λ d', dst_dir ++ rel ++ [d'])); [| |done].
      * intros d' _. apply walk_merge_confined'.
      * intros d' [es' Hd']%elem_of_subdirs. rewrite (assoc_L (++)).
        apply apart_snoc_ne. intros ->. congruence.
    + intros d es' Hd. eapply walk_subdirs_Return; [apply IHn| |done|].
      * apply NoDup_subdirs.
      * apply elem_of_subdirs. eauto.
  - intros [= <-] es Hes. congruence.
Qed.

(** On a destination that is merged, the merge returns and changes nothing. *)
Lemma walk_merge_again n (rel : path) st :
  merged n (fs st) rel →
  ∃ st', walk_merge n rel st = Some (st', Return tt) ∧ fs st' = fs st.
Proof.
  revert rel st. induction n as [|n IHn]; intros rel st; [done|].
  intros Hm. rewrite walk_merge_S.
  destruct (lookup (src_dir ++ rel) (fs st)) as [[data|es]|] eqn:Htop; [by eauto| |by eauto].
  destruct (Hm es Htop) as (Hex & Hfiles & Hdirs).
  rewrite bind_run, merge_step_eq, bind_run. simpl.
  rewrite bool_decide_eq_true_2 by done. rewrite bind_run. simpl.
  destruct (for_each_same_fs (nondirs es) (copy_file rel) st) as (st1 & -> & Hfs1).
  { intros f sta [data Hf]%elem_of_nondirs Hsta.
    unfold copy_file. rewrite bind_run. simpl.
    edestruct (copy2_again ((src_dir ++ rel) ++ [f]) (dst_dir ++ rel) f data)
      as (stb & Hb & Hfsb); last first.
    + exists stb. split; [exact Hb|]. by rewrite Hfsb.
    + rewrite <-!(assoc_L (++)). symmetry. apply src_apart_dst.
    + simpl. rewrite Hsta, name_of_snoc. by apply Hfiles.
    + simpl. rewrite Hsta, lookup_app, Htop. simpl. by rewrite Hf. }
  destruct (for_each_same_fs (subdirs es) (λ d, walk_merge n (rel ++ [d])) st1)
    as (st2 & -> & Hfs2).
  { intros d sta [es' Hd]%elem_of_subdirs Hsta.
    destruct (IHn (rel ++ [d]) sta) as (stb & Hb & Hfsb).
    - rewrite Hsta, Hfs1. by eapply Hdirs.
    - exists stb. split; [done | congruence]. }
  exists st2. split; [done | congruence].
Qed.

(** Merging is idempotent for directories that are apart. *)
Lemma merge_directory_again fuel st st1 :
  merge_directory fuel src_dir dst_dir st = Some (st1, Return tt) →
  ∃ st2, merge_directory fuel src_dir dst_dir st1 = Some (st2, Return tt)
         ∧ fs st2 = fs st1.
Proof.
  assert (merge_directory fuel src_dir dst_dir = walk_merge fuel []) as ->.
  { unfold merge_directory, walk_merge. by rewrite (right_id_L [] (++)). }
  intros H. by apply walk_merge_again, (walk_merge_Return _ _ st).
Qed.

End Merge.

(** What [merged] says of the files, path by path. *)
Lemma merged_files (src_dir dst_dir : path) n (t : node) (rel q : path) f data :
  merged src_dir dst_dir n t rel →
  lookup (src_dir ++ rel ++ q ++ [f]) t = Some (File data) →
  copied t (dst_dir ++ rel ++ q ++ [f]) f data.
Proof.
  revert n rel. induction q as [|d q IH]; intros n rel Hm Hf.
  - destruct n as [|n]; [done|]. simpl in *.
    rewrite (assoc_L (++)) in Hf. rewrite (assoc_L (++)).
    destruct (lookup_snoc_parent _ _ _ _ Hf) as (es & Hes & Hfile).
    destruct (Hm es Hes) as (_ & Hfiles & _). by apply Hfiles.
  - destruct n as [|n]; [done|]. simpl in Hm.
    assert (∃ es es', lookup (src_dir ++ rel) t = Some (Dir es)
                      ∧ es !! d = Some (Dir es')) as (es & es' & Hes & Hd).
    { rewrite (assoc_L (++)), lookup_app in Hf.
      destruct (lookup (src_dir ++ rel) t) as [[|es]|]; simpl in Hf; try done.
      destruct (es !! d) as [[|es']|] eqn:Hd; simpl in Hf; try done.
      - by destruct q.
      - eauto. }
    destruct (Hm es Hes) as (_ & _ & Hdirs).
    specialize (IH n (rel ++ [d]) (Hdirs d es' Hd)).
    rewrite <-!(assoc_L (++)) in IH. simpl in IH. by apply IH.
Qed.

End MergeSpec.

(** ** builder/setup_cuda_opt_lib.py: when merging succeeds *)

Module MergeSuccess.
Import Fs FsFacts OptLib OptLibSpec MergeSpec.

(** The directory [p] is there, or can be made by one [mkdir]: nothing is
    at [p] and the directory it lies in exists. *)
Definition creatable (t : node) (p : path) : Prop :=
  match lookup p t with
  | Some (Dir _) => True
  | Some (File _) => False
  | None => ∃ ds, lookup (parent p) t = Some (Dir ds)
  end.

(** The source node [s] can be merged onto what the destination holds at
    the same place ([d]; [None] for nothing): the source is less than [n]
    directories deep, where it has a directory the destination has no
    regular file, and where it has a regular file the destination has no
    directory. *)
Fixpoint fits (n : nat) (s : node) (d : option node) : bool :=
  match n with
  | O => false
  | S n' =>
      match s with
      | File _ => true
      | Dir es =>
          match d with
          | Some (File _) => false
          | _ =>
              forallb (λ e : string * node,
                         match e.2 with
                         | File _ =>
                             negb (from_option is_dir_node false (d ≫= lookup [e.1]))
                         | Dir _ => fits n' e.2 (d ≫= lookup [e.1])
                         end)
                      (map_to_list es)
          end
      end
  end.

Lemma fits_entry n es d name x :
  fits (S n) (Dir es) d = true → es !! name = Some x →
  match x with
  | File _ => from_option is_dir_node false (d ≫= lookup [name]) = false
  | Dir _ => fits n x (d ≫= lookup [name]) = true
  end.
Proof.
  intros Hfits Hx.
  assert (forallb (λ e : string * node,
                     match e.2 with
                     | File _ => negb (from_option is_dir_node false (d ≫= lookup [e.1]))
                     | Dir _ => fits n e.2 (d ≫= lookup [e.1])
                     end) (map_to_list es) = true) as Hall.
  { simpl in Hfits. by destruct d as [[|]|]. }
  rewrite forallb_forall in Hall.
  specialize (Hall (name, x)). simpl in Hall.
  destruct x; [apply negb_true_iff|]; apply Hall, list_elem_of_In;
    by apply elem_of_map_to_list.
Qed.

Lemma fits_creatable n es t (p : path) :
  fits n (Dir es) (lookup p t) = true →
  (∃ ds, lookup (parent p) t = Some (Dir ds)) →
  creatable t p.
Proof.
  unfold creatable. destruct n; [done|]. simpl.
  by destruct (lookup p t) as [[|]|].
Qed.

Lemma creatable_transfer (t t' : node) (p : path) :
  lookup p t' = lookup p t →
  (∀ ds, lookup (parent p) t = Some (Dir ds) →
         ∃ ds', lookup (parent p) t' = Some (Dir ds')) →
  creatable t p → creatable t' p.
Proof.
  unfold creatable. intros -> Hpar. destruct (lookup p t) as [[|]|]; try done.
  intros [ds Hds]. eauto.
Qed.

Lemma preserved_dir (t t' : node) (p : path) ds :
  preserved t t' → lookup p t = Some (Dir ds) → ∃ ds', lookup p t' = Some (Dir ds').
Proof.
  intros Hp Hds. destruct (Hp _ _ Hds) as ([|ds'] & Hn & Hk); [done|]. eauto.
Qed.

(** A loop returns when each round returns where its own condition holds,
    and a round keeps the conditions of the others. *)
Lemma for_each_succeeds {A} (Pre : A → node → Prop) (l : list A) (body : A → M unit) st :
  NoDup l →
  (∀ a, a ∈ l → Pre a (fs st)) →
  (∀ a st1, a ∈ l → Pre a (fs st1) → ∃ st2, body a st1 = Some (st2, Return tt)) →
  (∀ a b st1 st2, a ∈ l → b ∈ l → a ≠ b → Pre a (fs st1) → Pre b (fs st1) →
                  body a st1 = Some (st2, Return tt) → Pre b (fs st2)) →
  ∃ st', for_each l body st = Some (st', Return tt).
Proof.
  intros Hnd Hinit Hbody Hkeep. revert st Hinit.
  induction l as [|a l IH]; intros st Hinit; simpl; [by eauto|].
  apply NoDup_cons in Hnd as [Ha Hnd].
  destruct (Hbody a st) as [st2 H2]; [by left | apply Hinit; by left |].
  rewrite bind_run, H2. apply IH; [done | | |].
  - intros a' st1 Ha'. apply Hbody. by right.
  - intros a' b st1 st3 Ha' Hb. apply Hkeep; by right.
  - intros b Hb. apply (Hkeep a b st st2); try done.
    + by left.
    + by right.
    + by intros ->.
    + apply Hinit. by left.
    + apply Hinit. by right.
Qed.

(** The destination directory of a round is there when the round starts
    copying: it was there, or [mkdir] made it. *)
Lemma ensure_directory (p : path) st :
  creatable (fs st) p →
  ∃ sta,
    (if bool_decide (is_Some (lookup p (fs st))) then ret tt
     else print ("Creating directory: " +:+ show p);; mkdir p) st
    = Some (sta, Return tt)
    ∧ (∃ ds, lookup p (fs sta) = Some (Dir ds))
    ∧ (∀ q, q ≠ [] → lookup (p ++ q) (fs sta) = lookup (p ++ q) (fs st))
    ∧ unchanged_apart p (fs st) (fs sta).
Proof.
  unfold creatable. destruct (lookup p (fs st)) as [[|ds]|] eqn:Hp; [done | |].
  - intros _. rewrite bool_decide_eq_true_2 by done. exists st.
    split_and!; [done | by eauto | done | apply unchanged_apart_refl].
  - intros [ds Hpar]. rewrite bool_decide_eq_false_2 by (by intros [??]).
    rewrite bind_run. simpl. unfold mkdir. simpl. rewrite Hp.
    unfold in_directory. simpl. rewrite Hpar. unfold set_node. simpl.
    destruct (put_snoc_is_Some (parent p) (name_of p) (Dir ∅) _ _ Hpar) as [t' Ht'].
    rewrite <-path_snoc in Ht' by (by eapply lookup_None_ne_nil).
    rewrite Ht'. simpl. eexists. split; [reflexivity|]. simpl. split_and!.
    + exists ∅. by eapply lookup_put_eq.
    + intros q Hq. rewrite (lookup_put_below _ _ _ _ _ Ht'), lookup_app, Hp.
      destruct q as [|a q]; [done|]. simpl. by rewrite lookup_empty.
    + by eapply put_unchanged_apart.
Qed.

(** Copying a regular file into an existing directory, to a place where no
    directory is. *)
Lemma copy2_succeeds (src T : path) f data ds st :
  lookup src (fs st) = Some (File data) →
  lookup T (fs st) = Some (Dir ds) →
  from_option is_dir_node false (lookup (T ++ [f]) (fs st)) = false →
  src ≠ T ++ [f] →
  ∃ st', copy2 src (T ++ [f]) st = Some (st', Return tt).
Proof.
  intros Hsrc HT Hf Hne. unfold copy2. rewrite bind_run. simpl. rewrite Hf.
  rewrite bind_run. simpl. rewrite bool_decide_eq_false_2 by done. simpl.
  rewrite bind_run. unfold read_file at 1. rewrite Hsrc. simpl.
  unfold write_file, in_directory. rewrite parent_snoc, HT.
  destruct (lookup (T ++ [f]) (fs st)) as [[|]|]; try done; unfold set_node; eauto.
Qed.

Section Succeeds.

Context (src_dir dst_dir : path).

Hypothesis src_dst_apart : apart src_dir dst_dir.

Lemma dst_apart_src (r r' : path) : apart (dst_dir ++ r) (src_dir ++ r').
Proof. by apply src_apart_dst. Qed.

(** One round of the merge returns, and leaves the destination directory
    in place, the source as it was, and below the destination directory
    everything but the files copied as it was. *)
Lemma merge_step_succeeds (rel : path) es st :
  lookup (src_dir ++ rel) (fs st) = Some (Dir es) →
  creatable (fs st) (dst_dir ++ rel) →
  (∀ f data, es !! f = Some (File data) →
     from_option is_dir_node false (lookup ((dst_dir ++ rel) ++ [f]) (fs st)) = false) →
  ∃ st1,
    merge_step src_dir dst_dir (src_dir ++ rel) (nondirs es) st = Some (st1, Return tt)
    ∧ (∃ ds, lookup (dst_dir ++ rel) (fs st1) = Some (Dir ds))
    ∧ (∀ d q, d ∉ nondirs es →
              lookup ((dst_dir ++ rel) ++ d :: q) (fs st1)
              = lookup ((dst_dir ++ rel) ++ d :: q) (fs st))
    ∧ (∀ q, lookup (src_dir ++ q) (fs st1) = lookup (src_dir ++ q) (fs st)).
Proof.
  intros Hsrc Hcr Hfiles. rewrite merge_step_eq, bind_run, path_exists_run.
  cbv beta iota. rewrite bind_run.
  destruct (ensure_directory (dst_dir ++ rel) st Hcr)
    as (sta & -> & [ds Hds] & Hbelow & Hapart).
  set (Pre := λ (f : string) (t : node),
         (∃ data, lookup ((src_dir ++ rel) ++ [f]) t = Some (File data))
         ∧ (∃ ds, lookup (dst_dir ++ rel) t = Some (Dir ds))
         ∧ from_option is_dir_node false (lookup ((dst_dir ++ rel) ++ [f]) t) = false).
  destruct (for_each_succeeds Pre (nondirs es) (copy_file src_dir dst_dir rel) sta)
    as [st1 Hloop].
  - apply NoDup_nondirs.
  - intros f [data Hf]%elem_of_nondirs. split_and!.
    + exists data. rewrite Hapart.
      * by rewrite lookup_app, Hsrc; simpl; rewrite Hf.
      * rewrite <-(assoc_L (++)). apply dst_apart_src.
    + eauto.
    + rewrite Hbelow by done. by eapply Hfiles.
  - intros f st1 _ ([data Hf] & [ds1 Hd] & Hnd). unfold copy_file.
    rewrite bind_run. simpl.
    apply (copy2_succeeds _ _ _ data ds1); try done.
    intros Heq. destruct (dst_apart_src (rel ++ [f]) (rel ++ [f])) as [H1 _].
    apply H1. rewrite !(assoc_L (++)), Heq. done.
  - intros a b st1 st2 _ _ Hab _ ([data Hf] & [ds1 Hd] & Hnd) Hrun.
    destruct (copy_file_confined src_dir dst_dir rel a _ _ _ Hrun) as [Hu Hp].
    split_and!.
    + exists data. rewrite Hu; [done|].
      rewrite <-!(assoc_L (++)). apply dst_apart_src.
    + by eapply preserved_dir.
    + rewrite Hu; [done|]. by apply apart_snoc_ne.
  - rewrite Hloop. exists st1. split; [done|].
    destruct (for_each_confined_run (dst_dir ++ rel) _ _ _ _ _
                (λ f _, confined_weaken _ [f] _ (copy_file_confined src_dir dst_dir rel f))
                Hloop) as [Hu Hp].
    split_and!.
    + by eapply preserved_dir.
    + intros d q Hd. rewrite <-Hbelow by done.
      eapply (for_each_unchanged_at (λ f, (dst_dir ++ rel) ++ [f])); [| |exact Hloop].
      * intros f _. apply copy_file_confined.
      * intros f Hf. apply apart_snoc_ne. by intros ->.
    + intros q. rewrite <-Hapart by apply (dst_apart_src rel q).
      apply Hu, dst_apart_src.
Qed.

(** The walk returns: with enough fuel for the depth of the source, and a
    destination that has no entry of the other kind where the source has
    one. *)
Lemma walk_merge_succeeds n (rel : path) st s :
  lookup (src_dir ++ rel) (fs st) = Some s →
  fits n s (lookup (dst_dir ++ rel) (fs st)) = true →
  creatable (fs st) (dst_dir ++ rel) →
  ∃ st', walk_merge src_dir dst_dir n rel st = Some (st', Return tt).
Proof.
  revert rel st s. induction n as [|n IH]; intros rel st s Hs Hfits Hcr; [done|].
  rewrite walk_merge_S, Hs. destruct s as [data|es]; [by eauto|].
  destruct (merge_step_succeeds rel es st Hs Hcr)
    as (st1 & Hstep & [ds Hds] & Hbelow & Hsrc).
  { intros f data Hf. rewrite lookup_app.
    apply (fits_entry _ _ _ _ _ Hfits Hf). }
  rewrite bind_run, Hstep.
  set (Pre := λ (d : string) (t : node),
         (∃ s', lookup (src_dir ++ rel ++ [d]) t = Some s'
                ∧ fits n s' (lookup (dst_dir ++ rel ++ [d]) t) = true)
         ∧ creatable t (dst_dir ++ rel ++ [d])).
  apply (for_each_succeeds Pre).
  - apply NoDup_subdirs.
  - intros d [es' Hd]%elem_of_subdirs.
    assert (d ∉ nondirs es) as Hnf.
    { intros [data Hf]%elem_of_nondirs. congruence. }
    assert (fits n (Dir es') (lookup (dst_dir ++ rel ++ [d]) (fs st1)) = true) as Hfd.
    { rewrite (assoc_L (++)), Hbelow, lookup_app by done.
      apply (fits_entry _ _ _ _ _ Hfits Hd). }
    split.
    + exists (Dir es'). split; [|done].
      rewrite Hsrc, (assoc_L (++)), lookup_app, Hs. simpl. by rewrite Hd.
    + eapply fits_creatable; [exact Hfd|].
      rewrite (assoc_L (++)), parent_snoc. eauto.
  - intros d st2 _ [(s' & Hs' & Hf') Hc']. by eapply IH.
  - intros a b st2 st3 _ _ Hab _ [(s' & Hs' & Hf') Hc'] Hrun.
    destruct (walk_merge_confined' src_dir dst_dir n (rel ++ [a]) _ _ _ Hrun)
      as [Hu Hp].
    assert (lookup (dst_dir ++ rel ++ [b]) (fs st3)
            = lookup (dst_dir ++ rel ++ [b]) (fs st2)) as Hdb.
    { apply Hu. rewrite !(assoc_L (++)). by apply apart_snoc_ne. }
    split.
    + exists s'. rewrite Hdb. split; [|done].
      rewrite Hu; [done|]. apply dst_apart_src.
    + eapply creatable_transfer; [exact Hdb | | exact Hc'].
      intros ds' Hds'. by eapply preserved_dir.
Qed.

Lemma merge_directory_succeeds fuel st s :
  lookup src_dir (fs st) = Some s →
  fits fuel s (lookup dst_dir (fs st)) = true →
  creatable (fs st) dst_dir →
  ∃ st', merge_directory fuel src_dir dst_dir st = Some (st', Return tt).
Proof.
  intros Hs Hfits Hcr.
  assert (merge_directory fuel src_dir dst_dir = walk_merge src_dir dst_dir fuel [])
    as ->.
  { unfold merge_directory, walk_merge. by rewrite (right_id_L [] (++)). }
  apply (walk_merge_succeeds fuel [] st s); by rewrite (right_id_L [] (++)).
Qed.

End Succeeds.

End MergeSuccess.

(** ** builder/setup_cuda_opt_lib.py: the claims on merging and installing *)

Module OptLibClaims.
Import Fs FsFacts OptLib OptLibSpec MergeSpec MergeSuccess.

(** *** Example trees *)

(** A source directory [/a] holding one file, to be merged into [/a/b]. *)
Definition nested0 : node := Dir {[ "a" := Dir {[ "f" := File "x" ]} ]}.
Definition nested1 : node :=
  Dir {[ "a" := Dir {[ "f" := File "x"; "b" := Dir {[ "f" := File "x" ]} ]} ]}.
Definition nested2 : node :=
  Dir {[ "a" := Dir {[ "f" := File "x";
                       "b" := Dir {[ "f" := File "x";
                                     "b" := Dir {[ "f" := File "x" ]} ]} ]} ]}.

(** A vendor tree [/vendor/11.2/cudnn/8.1.0] with two directories, and a CUDA
    installation at [/opt/cuda]. *)
Definition cudnn_payload : node :=
  Dir {[ "lib64" := Dir {[ "libcudnn.so" := File "ELF" ]};
         "include" := Dir {[ "cudnn.h" := File "#pragma once" ]} ]}.

Definition vendor (library version : string) (payload : node) : node :=
  Dir {[ "11.2" := Dir {[ library := Dir {[ version := payload ]} ]} ]}.

Definition host_with (vendor_tree : node) (opt : gmap string node) : node :=
  Dir {[ "vendor" := vendor_tree; "opt" := Dir opt ]}.

Definition cudnn_map : gmap string string :=
  {[ "lib64" := "lib64"; "include" := "include" ]}.

Definition cutensor_map : gmap string string :=
  {[ "lib" := "lib64"; "include" := "include" ]}.

Lemma apart_vendor_cuda :
  apart ["vendor"; "11.2"; "cudnn"; "8.1.0"; "lib64"] ["opt"; "cuda"; "lib64"].
Proof. by apply apart_cons_ne. Qed.

(** *** C4 *)

(** C4 (as amended).  For a source and a destination directory that are
    apart (neither lies in the other) and on which [merge_directory]
    returned, merging a second time returns too and leaves the file system,
    so the destination, exactly as the first merge left it.  And for any two
    directories, however the merge ends, every path that led to a file or
    directory before still leads to one of the same kind after: nothing is
    deleted. *)
Theorem C4_merge_twice_is_merge_once_when_apart
    fuel (src_dir dst_dir : path) (st st1 : state) r :
  merge_directory fuel src_dir dst_dir st = Some (st1, r) →
  preserved (fs st) (fs st1)
  ∧ (apart src_dir dst_dir → r = Return tt →
     ∃ st2, merge_directory fuel src_dir dst_dir st1 = Some (st2, Return tt)
            ∧ fs st2 = fs st1).
Proof.
  intros Hrun. split.
  - by destruct (merge_directory_confined fuel src_dir dst_dir _ _ _ Hrun).
  - intros Hap ->. by eapply merge_directory_again.
Qed.

Definition cudnn_host : node :=
  host_with (vendor "cudnn" "8.1.0" cudnn_payload) {[ "cuda" := Dir ∅ ]}.

Lemma C4_merge_twice_is_merge_once_when_apart_witness :
  ∃ st1,
    merge_directory 8 ["vendor"; "11.2"; "cudnn"; "8.1.0"; "lib64"]
      ["opt"; "cuda"; "lib64"] (State cudnn_host []) = Some (st1, Return tt)
    ∧ lookup ["opt"; "cuda"; "lib64"; "libcudnn.so"] (fs st1) = Some (File "ELF")
    ∧ preserved cudnn_host (fs st1)
    ∧ ∃ st2,
        merge_directory 8 ["vendor"; "11.2"; "cudnn"; "8.1.0"; "lib64"]
          ["opt"; "cuda"; "lib64"] st1 = Some (st2, Return tt)
        ∧ fs st2 = fs st1.
Proof.
  eexists. split; [vm_compute; reflexivity|]. split; [vm_compute; reflexivity|].
  match goal with
  | |- preserved _ (fs ?s1) ∧ _ =>
      destruct (C4_merge_twice_is_merge_once_when_apart 8
                  ["vendor"; "11.2"; "cudnn"; "8.1.0"; "lib64"]
                  ["opt"; "cuda"; "lib64"] (State cudnn_host []) s1 (Return tt))
        as [Hp Hi]
  end.
  - vm_compute; reflexivity.
  - split; [exact Hp|]. exact (Hi apart_vendor_cuda eq_refl).
Defined.

(** C4 as stated fails when the destination lies inside the source: merging
    [/a] (holding the file [f]) into [/a/b] returns and creates [/a/b/f];
    merging again returns as well, and now also walks [/a/b], which it
    copies to [/a/b/b].  The destination after two merges differs from the
    destination after one. *)
Lemma C4_merge_twice_differs_when_nested :
  merge_directory 8 ["a"] ["a"; "b"] (State nested0 [])
    = Some (State nested1 ["Creating directory: /a/b"; "Copying: /a/b/f <- /a/f"],
            Return tt)
  ∧ merge_directory 8 ["a"] ["a"; "b"] (State nested1 [])
    = Some (State nested2 ["Copying: /a/b/f <- /a/f"; "Creating directory: /a/b/b";
                           "Copying: /a/b/b/f <- /a/b/f"],
            Return tt)
  ∧ lookup ["a"; "b"] nested1 = Some (Dir {[ "f" := File "x" ]})
  ∧ lookup ["a"; "b"] nested2
    = Some (Dir {[ "f" := File "x"; "b" := Dir {[ "f" := File "x" ]} ]}).
Proof. split_and!; vm_compute; reflexivity. Qed.

(** *** C5 *)

(** The payload directory, below the only child [v] of the source root and
    the only child [lv] of the library directory. *)
Definition payload_dir (src_dir : path) (v name lv : string) : path :=
  src_dir ++ [v; name; lv].

(** The loop of [_install_library] over the payload. *)
Definition install_payload (fuel : nat) (payload dst_dir : path)
    (install_map : gmap string string) : M unit :=
  children ← iterdir payload;
  for_each children (install_entry fuel dst_dir install_map).

Lemma is_Some_children (p : path) t l : children p t = Some l → is_Some (lookup p t).
Proof. unfold children. destruct (lookup p t); [by eexists | done]. Qed.

(** The name an entry of the payload is installed under:
    [install_map.get(child.name, child.name)]. *)
Definition dest_name (install_map : gmap string string) (name : string) : string :=
  default name (install_map !! name).

(** The payload can be installed into [dst_dir]: the destination is an
    existing directory, every entry of the payload is a directory that
    fits what the destination holds under the entry's mapped name (with
    [fuel] for its depth), and no two entries have the same mapped name. *)
Definition installable (fuel : nat) (install_map : gmap string string)
    (payload : node) (dst_dir : path) (t : node) : bool :=
  match payload, lookup dst_dir t with
  | Dir es, Some (Dir _) =>
      forallb (λ e : string * node,
                 is_dir_node e.2
                 && fits fuel e.2 (lookup (dst_dir ++ [dest_name install_map e.1]) t))
              (map_to_list es)
      && bool_decide (NoDup (dest_name install_map <$> (map_to_list es).*1))
  | _, _ => false
  end.

Lemma NoDup_fmap_inj_on {A B} (f : A → B) (l : list A) a b :
  NoDup (f <$> l) → a ∈ l → b ∈ l → f a = f b → a = b.
Proof.
  induction l as [|x l IH]; simpl; [by intros _ ?%elem_of_nil|].
  intros [Hx Hnd]%NoDup_cons [->|Ha]%elem_of_cons [->|Hb]%elem_of_cons Hf; try done.
  - destruct Hx. rewrite Hf. by apply list_elem_of_fmap_2.
  - destruct Hx. rewrite <-Hf. by apply list_elem_of_fmap_2.
  - by apply IH.
Qed.

(** The loop over the payload returns. *)
Lemma install_payload_succeeds fuel (payload dst_dir : path) install_map st es :
  lookup payload (fs st) = Some (Dir es) →
  apart payload dst_dir →
  installable fuel install_map (Dir es) dst_dir (fs st) = true →
  ∃ st', install_payload fuel payload dst_dir install_map st = Some (st', Return tt).
Proof.
  intros Hpayload Hap Hinst. unfold install_payload. rewrite bind_run.
  unfold iterdir. rewrite Hpayload. simpl.
  unfold installable in Hinst.
  destruct (lookup dst_dir (fs st)) as [[|ds]|] eqn:Hdst; try done.
  apply andb_true_iff in Hinst as [Hall Hnames].
  apply bool_decide_eq_true in Hnames. rewrite forallb_forall in Hall.
  set (Pre := λ (child : path) (t : node),
         ∃ name x,
           child = payload ++ [name] ∧ es !! name = Some x
           ∧ lookup child t = Some x ∧ is_dir_node x = true
           ∧ fits fuel x (lookup (dst_dir ++ [dest_name install_map name]) t) = true
           ∧ ∃ ds, lookup dst_dir t = Some (Dir ds)).
  assert (∀ name name' : string, payload ++ [name] = payload ++ [name'] → name = name')
    as Hinj.
  { intros name name' H. apply app_inv_head in H. by injection H. }
  apply (for_each_succeeds Pre).
  - apply NoDup_fmap_2; [|apply NoDup_fst_map_to_list].
    intros name name'. apply Hinj.
  - intros child (name & -> & Hname)%list_elem_of_fmap.
    apply list_elem_of_fmap in Hname as ([name' x] & -> & Hx). simpl.
    pose proof Hx as Hin. apply elem_of_map_to_list in Hx.
    specialize (Hall (name', x)). simpl in Hall.
    apply list_elem_of_In, Hall, andb_true_iff in Hin as [Hdir Hfits].
    exists name', x. split_and!; try done; [|by eauto].
    rewrite lookup_app, Hpayload. simpl. by rewrite Hx.
  - intros child st1 _ (name & x & -> & Hx & Hchild & Hdir & Hfits & [ds1 Hd1]).
    unfold install_entry. rewrite bind_run. simpl. rewrite Hchild. simpl.
    rewrite Hdir, name_of_snoc. fold (dest_name install_map name).
    destruct x as [|es']; [done|].
    apply (merge_directory_succeeds _ _ (apart_app_l _ _ _ (apart_app_r _ _ _ Hap))
             fuel st1 (Dir es')); [done | done |].
    eapply fits_creatable; [exact Hfits|]. rewrite parent_snoc. eauto.
  - intros a b st1 st2 Ha Hb Hab
      (na & xa & -> & Hxa & Hcha & Hdira & _)
      (nb & xb & -> & Hxb & Hchb & Hdirb & Hfitsb & [ds1 Hd1]) Hrun.
    assert (dest_name install_map na ≠ dest_name install_map nb) as Hne.
    { intros Heq. apply Hab. f_equal. f_equal.
      apply (NoDup_fmap_inj_on _ _ _ _ Hnames); [| |done];
        apply list_elem_of_fmap; [exists (na, xa) | exists (nb, xb)];
        (split; [done | by apply elem_of_map_to_list]). }
    unfold install_entry in Hrun. rewrite bind_run in Hrun. simpl in Hrun.
    rewrite Hcha in Hrun. simpl in Hrun. rewrite Hdira, name_of_snoc in Hrun.
    fold (dest_name install_map na) in Hrun.
    destruct (merge_directory_confined _ _ _ _ _ _ Hrun) as [Hu Hp].
    exists nb, xb. split_and!; try done.
    + rewrite Hu; [done|]. symmetry. by apply apart_app_l, apart_app_r.
    + rewrite Hu; [done|]. by apply apart_snoc_ne.
    + by eapply preserved_dir.
Qed.

(** A loop that returned keeps what each of its rounds keeps. *)
Lemma for_each_keeps {A} (Inv Q : node → Prop) (l : list A) (body : A → M unit) st st' :
  for_each l body st = Some (st', Return tt) →
  (∀ a st1 st2, a ∈ l → Inv (fs st1) → body a st1 = Some (st2, Return tt) →
                Inv (fs st2)) →
  (∀ a st1 st2, a ∈ l → Inv (fs st1) → Q (fs st1) →
                body a st1 = Some (st2, Return tt) → Q (fs st2)) →
  Inv (fs st) → Q (fs st) → Inv (fs st') ∧ Q (fs st').
Proof.
  revert st. induction l as [|a l IH]; intros st Hrun Hinv Hkeep Hi Hq.
  { by injection Hrun as <-. }
  apply for_each_cons_inv in Hrun as (st1 & H1 & Hrest).
  apply (IH st1 Hrest).
  - intros a' s1 s2 Ha'. apply Hinv. by right.
  - intros a' s1 s2 Ha'. apply Hkeep. by right.
  - eapply Hinv; [by left | done | done].
  - eapply Hkeep; [by left | done | done | done].
Qed.

(** What a loop that returned leaves: what each round left, where the
    other rounds keep it. *)
Lemma for_each_Return_post {A} (Inv : node → Prop) (Post : A → node → Prop)
    (l : list A) (body : A → M unit) st st' :
  NoDup l →
  for_each l body st = Some (st', Return tt) →
  Inv (fs st) →
  (∀ a st1 st2, a ∈ l → Inv (fs st1) → body a st1 = Some (st2, Return tt) →
                Inv (fs st2) ∧ Post a (fs st2)) →
  (∀ a b st1 st2, a ∈ l → b ∈ l → a ≠ b → Inv (fs st1) → Post b (fs st1) →
                  body a st1 = Some (st2, Return tt) → Post b (fs st2)) →
  ∀ b, b ∈ l → Post b (fs st').
Proof.
  intros Hnd. revert st. induction l as [|a l IH]; intros st Hrun Hinv Hbody Hkeep b Hb.
  { by apply elem_of_nil in Hb. }
  apply NoDup_cons in Hnd as [Ha Hnd].
  apply for_each_cons_inv in Hrun as (st1 & H1 & Hrest).
  destruct (Hbody a st st1) as [Hinv1 Hpost1]; [by left | done | done |].
  apply elem_of_cons in Hb as [-> | Hb].
  - apply (for_each_keeps Inv (Post a) l body st1 st' Hrest); [| |done|done].
    + intros a' s1 s2 Ha' Hi Hr. eapply Hbody; [by right | done | done].
    + intros a' s1 s2 Ha' Hi Hq Hr.
      apply (Hkeep a' a s1 s2); try done; [by right | by left | by intros ->].
  - apply (IH Hnd st1 Hrest Hinv1); [| |done].
    + intros a' s1 s2 Ha'. apply Hbody. by right.
    + intros a' b' s1 s2 Ha' Hb'. apply Hkeep; by right.
Qed.

(** A loop over the payload that returned has installed every file of the
    payload, under the mapped name of the entry it lies in. *)
Lemma install_payload_Return fuel (payload dst_dir : path) install_map st st' es :
  lookup payload (fs st) = Some (Dir es) →
  apart payload dst_dir →
  NoDup (dest_name install_map <$> (map_to_list es).*1) →
  install_payload fuel payload dst_dir install_map st = Some (st', Return tt) →
  ∀ name rel f data,
    lookup (payload ++ [name] ++ rel ++ [f]) (fs st) = Some (File data) →
    copied (fs st') (dst_dir ++ [dest_name install_map name] ++ rel ++ [f]) f data.
Proof.
  intros Hpayload Hap Hnames. unfold install_payload. rewrite bind_run.
  unfold iterdir. rewrite Hpayload. intros Hrun name rel f data Hf. simpl in Hrun.
  assert (is_Some (es !! name)) as [x Hx].
  { rewrite (assoc_L (++)), lookup_app, lookup_app, Hpayload in Hf. simpl in Hf.
    destruct (es !! name); [by eexists | done]. }
  set (Inv := λ t : node, ∀ q, lookup (payload ++ q) t = lookup (payload ++ q) (fs st)).
  set (Post := λ (child : path) (t : node),
         ∀ rel f data,
           lookup (child ++ rel ++ [f]) (fs st) = Some (File data) →
           copied t (dst_dir ++ [dest_name install_map (name_of child)] ++ rel ++ [f])
             f data).
  assert (∀ n n' : string, payload ++ [n] = payload ++ [n'] → n = n') as Hinj.
  { intros n n' H. apply app_inv_head in H. by injection H. }
  assert (Post (payload ++ [name]) (fs st')) as Hpost; last first.
  { specialize (Hpost rel f data). rewrite name_of_snoc in Hpost.
    apply Hpost. by rewrite <-(assoc_L (++)). }
  eapply (for_each_Return_post Inv Post); [| exact Hrun | done | | |].
  - apply NoDup_fmap_2; [|apply NoDup_fst_map_to_list].
    intros n n'. apply Hinj.
  - intros child st1 st2 (n & -> & Hn)%list_elem_of_fmap Hinv1 Hbody.
    unfold install_entry in Hbody. rewrite bind_run in Hbody. simpl in Hbody.
    destruct (from_option is_dir_node false (lookup (payload ++ [n]) (fs st1)));
      [|done].
    rewrite name_of_snoc in Hbody. fold (dest_name install_map n) in Hbody.
    assert (apart (payload ++ [n]) (dst_dir ++ [dest_name install_map n])) as Hap'.
    { by apply apart_app_l, apart_app_r. }
    destruct (merge_directory_confined _ _ _ _ _ _ Hbody) as [Hu _].
    assert (Inv (fs st2)) as Hinv2.
    { intros q. rewrite <-Hinv1. apply Hu. symmetry. by apply apart_app_l, apart_app_r. }
    split; [done|]. intros rel' f' data' Hf'. rewrite name_of_snoc.
    assert (merge_directory fuel (payload ++ [n]) (dst_dir ++ [dest_name install_map n])
            = walk_merge (payload ++ [n]) (dst_dir ++ [dest_name install_map n]) fuel [])
      as Heq.
    { unfold merge_directory, walk_merge. by rewrite (right_id_L [] (++)). }
    rewrite Heq in Hbody. apply (walk_merge_Return _ _ Hap') in Hbody.
    rewrite (assoc_L (++) dst_dir).
    apply (merged_files _ _ fuel (fs st2) [] rel' f' data' Hbody). simpl.
    rewrite <-Hf', <-!(assoc_L (++)). apply Hinv2.
  - intros a b st1 st2 (na & -> & Hna)%list_elem_of_fmap (nb & -> & Hnb)%list_elem_of_fmap
      Hab _ Hpostb Hbody.
    unfold install_entry in Hbody. rewrite bind_run in Hbody. simpl in Hbody.
    destruct (from_option is_dir_node false (lookup (payload ++ [na]) (fs st1)));
      [|done].
    rewrite name_of_snoc in Hbody. fold (dest_name install_map na) in Hbody.
    destruct (merge_directory_confined _ _ _ _ _ _ Hbody) as [Hu _].
    assert (dest_name install_map na ≠ dest_name install_map nb) as Hne.
    { intros Heq. apply Hab. f_equal. f_equal.
      by apply (NoDup_fmap_inj_on _ _ _ _ Hnames). }
    intros rel' f' data' Hf'. specialize (Hpostb rel' f' data' Hf').
    rewrite name_of_snoc in *.
    eapply copied_unchanged; [exact Hu | | exact Hpostb].
    by apply apart_snoc_ne.
  - apply list_elem_of_fmap. exists name. split; [done|].
    apply list_elem_of_fmap. exists (name, x). split; [done|].
    by apply elem_of_map_to_list.
Qed.

Lemma _install_library_unique_levels fuel name (src_dir dst_dir : path) install_map st
    v lv :
  children src_dir (fs st) = Some [v] →
  children (src_dir ++ [v; name]) (fs st) = Some [lv] →
  _install_library fuel name src_dir dst_dir install_map st
  = install_payload fuel (payload_dir src_dir v name lv) dst_dir install_map st.
Proof.
  intros Hv Hlv.
  rewrite (_install_library_descend _ _ _ _ _ _ v) by eauto using is_Some_children.
  rewrite bind_run, (_child_one _ _ _ Hlv). unfold payload_dir.
  by rewrite <-(assoc_L (++)).
Qed.

Lemma installable_names fuel install_map es (dst_dir : path) t :
  installable fuel install_map (Dir es) dst_dir t = true →
  NoDup (dest_name install_map <$> (map_to_list es).*1).
Proof.
  unfold installable. destruct (lookup dst_dir t) as [[|]|]; try done.
  intros [_ H]%andb_true_iff. by apply bool_decide_eq_true in H.
Qed.

(** C5 (as amended).  With exactly one child [v] in the source root and
    exactly one child [lv] in the library directory, [_install_library]
    returns when the payload [src_dir/v/name/lv] can be installed: the
    vendor tree and the destination are apart, the destination is an
    existing directory, every entry of the payload is a directory (of a
    depth below [fuel]) that meets no entry of the other kind in the
    destination, and the entries have distinct mapped names.  Every file
    of the payload is then in the destination, below the mapped name of
    its entry.  With two or more children in the source root, or in the
    library directory, it raises [AssertionError] and the state is the one
    it started from: nothing was written, in the destination or
    elsewhere. *)
Theorem C5_unique_levels_install_into_a_fitting_destination_ambiguous_levels_fail
    fuel name (src_dir dst_dir : path) install_map (st : state) :
  (∀ v lv payload,
     children src_dir (fs st) = Some [v] →
     children (src_dir ++ [v; name]) (fs st) = Some [lv] →
     lookup (payload_dir src_dir v name lv) (fs st) = Some payload →
     apart src_dir dst_dir →
     installable fuel install_map payload dst_dir (fs st) = true →
     ∃ st',
       _install_library fuel name src_dir dst_dir install_map st
       = Some (st', Return tt)
       ∧ ∀ entry rel f data,
           lookup (payload_dir src_dir v name lv ++ [entry] ++ rel ++ [f]) (fs st)
             = Some (File data) →
           copied (fs st') (dst_dir ++ [dest_name install_map entry] ++ rel ++ [f])
             f data)
  ∧ (∀ l,
       children src_dir (fs st) = Some l → (2 ≤ length l)%nat →
       _install_library fuel name src_dir dst_dir install_map st
       = Some (st, Raise assertion_error))
  ∧ (∀ v l,
       children src_dir (fs st) = Some [v] →
       children (src_dir ++ [v; name]) (fs st) = Some l → (2 ≤ length l)%nat →
       _install_library fuel name src_dir dst_dir install_map st
       = Some (st, Raise assertion_error)).
Proof.
  split_and!.
  - intros v lv payload Hv Hlv Hpayload Hap Hinst.
    rewrite (_install_library_unique_levels _ _ _ _ _ _ v lv) by done.
    destruct payload as [|es]; [done|].
    assert (apart (payload_dir src_dir v name lv) dst_dir) as Hap'.
    { unfold payload_dir. by apply apart_app_l. }
    destruct (install_payload_succeeds _ _ _ _ _ es Hpayload Hap' Hinst) as [st' Hrun].
    exists st'. split; [done|].
    by eapply install_payload_Return; eauto using installable_names.
  - intros l Hl Hlen. unfold _install_library.
    rewrite bind_run, (_child_not_one _ _ _ Hl); [done | lia].
  - intros v l Hv Hl Hlen.
    rewrite (_install_library_descend _ _ _ _ _ _ v) by eauto using is_Some_children.
    rewrite bind_run, (_child_not_one _ _ _ Hl); [done | lia].
Qed.

(** A vendor tree with two cuDNN versions side by side. *)
Definition two_versions_host : node :=
  host_with
    (Dir {[ "11.2" := Dir {[ "cudnn" := Dir {[ "8.1.0" := cudnn_payload;
                                               "8.2.0" := cudnn_payload ]} ]} ]})
    {[ "cuda" := Dir ∅ ]}.

(** A CUDA installation that has a [lib64] with a library in it already. *)
Definition cuda_with_lib64 : node :=
  host_with (vendor "cudnn" "8.1.0" cudnn_payload)
    {[ "cuda" := Dir {[ "lib64" := Dir {[ "libcudart.so" := File "ELF" ]} ]} ]}.

Lemma C5_unique_levels_install_into_a_fitting_destination_ambiguous_levels_fail_witness :
  (∃ st1,
     _install_library 8 "cudnn" ["vendor"] ["opt"; "cuda"] cudnn_map
       (State cuda_with_lib64 []) = Some (st1, Return tt)
     ∧ copied (fs st1)
         (["opt"; "cuda"] ++ [dest_name cudnn_map "lib64"] ++ [] ++ ["libcudnn.so"])
         "libcudnn.so" "ELF"
     ∧ copied (fs st1)
         (["opt"; "cuda"] ++ [dest_name cudnn_map "include"] ++ [] ++ ["cudnn.h"])
         "cudnn.h" "#pragma once")
  ∧ _install_library 8 "cudnn" ["vendor"] ["opt"; "cuda"] cudnn_map
      (State two_versions_host [])
    = Some (State two_versions_host [], Raise assertion_error).
Proof.
  split.
  - destruct (C5_unique_levels_install_into_a_fitting_destination_ambiguous_levels_fail
                8 "cudnn" ["vendor"] ["opt"; "cuda"] cudnn_map (State cuda_with_lib64 []))
      as (H & _ & _).
    destruct (H "11.2" "8.1.0" cudnn_payload) as (st1 & Hrun & Hfiles);
      [vm_compute; reflexivity | vm_compute; reflexivity | vm_compute; reflexivity
      | by apply apart_cons_ne | vm_compute; reflexivity |].
    exists st1. split_and!; [exact Hrun | |].
    + apply (Hfiles "lib64" [] "libcudnn.so" "ELF"). vm_compute; reflexivity.
    + apply (Hfiles "include" [] "cudnn.h" "#pragma once"). vm_compute; reflexivity.
  - destruct (C5_unique_levels_install_into_a_fitting_destination_ambiguous_levels_fail
                8 "cudnn" ["vendor"] ["opt"; "cuda"] cudnn_map
                (State two_versions_host [])) as (_ & _ & H).
    apply (H "11.2" ["8.1.0"; "8.2.0"]); [vm_compute; reflexivity.. | simpl; lia].
Defined.

(** C5 as stated fails: with exactly one child at both levels the call need
    not succeed.  Installed into [/opt/cuda] on a host that has no such
    directory, the first [mkdir] of the merge raises [FileNotFoundError]
    ([Path.mkdir()] creates no parents), and the file system is as it
    was. *)
Lemma C5_unique_levels_yet_failure :
  children ["vendor"] (host_with (vendor "cudnn" "8.1.0" cudnn_payload) ∅)
    = Some ["11.2"]
  ∧ children ["vendor"; "11.2"; "cudnn"]
      (host_with (vendor "cudnn" "8.1.0" cudnn_payload) ∅) = Some ["8.1.0"]
  ∧ ∃ st1 r,
      _install_library 8 "cudnn" ["vendor"] ["opt"; "cuda"] cudnn_map
        (State (host_with (vendor "cudnn" "8.1.0" cudnn_payload) ∅) [])
      = Some (st1, r)
      ∧ raised_class r = Some FileNotFoundError
      ∧ fs st1 = host_with (vendor "cudnn" "8.1.0" cudnn_payload) ∅.
Proof.
  split_and!; [vm_compute; reflexivity.. |].
  eexists _, _. split_and!; vm_compute; reflexivity.
Qed.

(** *** C2 *)

(** For an entry of the payload that is a regular file, the body of the loop
    raises [NameError] before it copies anything. *)
Lemma install_entry_regular_file fuel (dst_dir child : path) install_map st data :
  lookup child (fs st) = Some (File data) →
  install_entry fuel dst_dir install_map child st
  = Some (st, Raise (Exn NameError "name 'dst_name' is not defined")).
Proof. intros H. unfold install_entry. rewrite bind_run. simpl. by rewrite H. Qed.

(** A cuTENSOR payload whose top level holds a regular file. *)
Definition cutensor_host : node :=
  host_with (vendor "cutensor" "1.3.0" (Dir {[ "LICENSE" := File "license" ]}))
            {[ "cuda" := Dir ∅ ]}.

(** C2, at a payload holding the regular file [LICENSE]: [_install_library]
    reaches the payload, raises [NameError], and the file system is as it
    was, with no [LICENSE] in the destination. *)
Theorem C2_regular_file_entry_raises_NameError :
  children (payload_dir ["vendor"] "11.2" "cutensor" "1.3.0") cutensor_host
    = Some ["LICENSE"]
  ∧ lookup (payload_dir ["vendor"] "11.2" "cutensor" "1.3.0" ++ ["LICENSE"])
      cutensor_host = Some (File "license")
  ∧ _install_library 8 "cutensor" ["vendor"] ["opt"; "cuda"] cutensor_map
      (State cutensor_host [])
    = Some (State cutensor_host [],
            Raise (Exn NameError "name 'dst_name' is not defined"))
  ∧ lookup ["opt"; "cuda"; "LICENSE"] cutensor_host = None.
Proof. split_and!; vm_compute; reflexivity. Qed.

End OptLibClaims.

(** ** dist.py: running the pipelines *)

Module DistSpec.
Import Dist.

Section Run.

Context (cfg : config) (w : world).

Lemma run_bind {A B} (m : M A) (k : A → M B) (tr : trace) :
  (m ≫= k) tr
  = match m tr with
    | (tr', Return a) => k a tr'
    | (tr', Raise e) => (tr', Raise e)
    end.
Proof. reflexivity. Qed.

Lemma run_bind_Return_inv {A B} (m : M A) (k : A → M B) tr tr' b :
  (m ≫= k) tr = (tr', Return b) →
  ∃ tr1 a, m tr = (tr1, Return a) ∧ k a tr1 = (tr', Return b).
Proof. rewrite run_bind. destruct (m tr) as [tr1 [a|e]]; [eauto | done]. Qed.

Lemma try_finally_run {A} (body : M A) (final : M unit) tr :
  try_finally body final tr
  = ((final (body tr).1).1,
     match (final (body tr).1).2 with
     | Return _ => (body tr).2
     | Raise e => Raise e
     end).
Proof.
  unfold try_finally. destruct (body tr) as [tr1 r1]. simpl.
  by destruct (final tr1) as [tr2 r2].
Qed.

Lemma perform__run (c : call) tr :
  perform_ w c tr
  = (tr ++ [c], match respond w tr c with Return _ => Return tt | Raise e => Raise e end).
Proof. unfold perform_. rewrite run_bind. simpl. by destruct (respond w tr c). Qed.

(** *** The [finally] blocks *)

Definition removing (workdir : string) : call :=
  Log ("Removing working directory: " +:+ workdir).

(** The unguarded removal: made however the [try] block ended; when it
    raises, its error is the outcome. *)
Lemma remove_workdir_run {A} (body : M A) workdir tr :
  try_finally body (remove_workdir w workdir) tr
  = ((body tr).1 ++ [removing workdir; Rmtree workdir],
     match respond w ((body tr).1 ++ [removing workdir]) (Rmtree workdir) with
     | Return _ => (body tr).2
     | Raise e => Raise e
     end).
Proof.
  rewrite try_finally_run. unfold remove_workdir. rewrite run_bind. simpl.
  rewrite perform__run. simpl. rewrite <-(assoc_L (++)). simpl.
  by destruct (respond w _ _).
Qed.



(** *** The working directory of a pipeline *)

(** The shape the four pipelines end with: the working directory is
    created, the [try] block runs in it, the [finally] block follows. *)
Definition with_workdir (try_block final : string → M unit) : M unit :=
  workdir ← perform w (Mkdtemp "cupy-dist-");
  try_finally (try_block workdir) (final workdir).


Lemma with_workdir_unguarded try_block tr workdir :
  respond w tr (Mkdtemp "cupy-dist-") = Return workdir →
  with_workdir try_block (remove_workdir w) tr
  = let out := try_block workdir (tr ++ [Mkdtemp "cupy-dist-"]) in
    (out.1 ++ [removing workdir; Rmtree workdir],
     match respond w (out.1 ++ [removing workdir]) (Rmtree workdir) with
     | Return _ => out.2
     | Raise e => Raise e
     end).
Proof.
  intros H. unfold with_workdir. rewrite run_bind. simpl. rewrite H.
  apply remove_workdir_run.
Qed.




(** *** C1 *)


(** *** What a computation may call *)

(** [m] only adds calls to the run, and each call it adds passes [p]. *)
Definition emits (p : call → bool) {A} (m : M A) : Prop :=
  ∀ tr, ∃ evs, (m tr).1 = tr ++ evs ∧ forallb p evs = true.

Section Emits.

Context (p : call → bool).

Lemma emits_quiet {A} (m : M A) : (∀ tr, (m tr).1 = tr) → emits p m.
Proof. intros H tr. exists []. by rewrite H, (right_id_L [] (++)). Qed.

Lemma emits_ret {A} (a : A) : emits p (ret a).
Proof. by apply emits_quiet. Qed.

Lemma emits_raise {A} c msg : emits p (@raise A c msg).
Proof. by apply emits_quiet. Qed.

Lemma emits_lift {A} (r : result A) : emits p (lift r).
Proof. by apply emits_quiet. Qed.

Lemma emits_ask {A} (f : trace → A) : emits p (ask f).
Proof. by apply emits_quiet. Qed.

Lemma emits_getitem {V} (d : gmap string V) key : emits p (getitem d key).
Proof. apply emits_quiet. intros tr. unfold getitem. by destruct (d !! key). Qed.

Lemma emits_getitem_opt {V} (d : gmap string V) key : emits p (getitem_opt d key).
Proof. destruct key; [apply emits_getitem | apply emits_raise]. Qed.

Lemma emits_log msg : p (Log msg) = true → emits p (log msg).
Proof. intros H tr. exists [Log msg]. simpl. by rewrite H. Qed.

Lemma emits_perform c : p c = true → emits p (perform w c).
Proof. intros H tr. exists [c]. simpl. by rewrite H. Qed.

Lemma emits_bind {A B} (m : M A) (k : A → M B) :
  emits p m → (∀ a, emits p (k a)) → emits p (m ≫= k).
Proof.
  intros Hm Hk tr. rewrite run_bind. destruct (Hm tr) as (evs & Hevs & Hp).
  destruct (m tr) as [tr1 [a|e]]; simpl in *; [|by eauto].
  destruct (Hk a tr1) as (evs' & Hevs' & Hp'). exists (evs ++ evs').
  rewrite Hevs', Hevs, (assoc_L (++)), forallb_app, Hp, Hp'. done.
Qed.

(** The same, using what [m] is known to return. *)
Lemma emits_bind_post {A B} (Q : A → Prop) (m : M A) (k : A → M B) :
  emits p m → (∀ tr tr' a, m tr = (tr', Return a) → Q a) →
  (∀ a, Q a → emits p (k a)) → emits p (m ≫= k).
Proof.
  intros Hm HQ Hk tr. rewrite run_bind. destruct (Hm tr) as (evs & Hevs & Hp).
  destruct (m tr) as [tr1 [a|e]] eqn:Hrun; simpl in *; [|by eauto].
  destruct (Hk a (HQ _ _ _ Hrun) tr1) as (evs' & Hevs' & Hp'). exists (evs ++ evs').
  rewrite Hevs', Hevs, (assoc_L (++)), forallb_app, Hp, Hp'. done.
Qed.

Lemma emits_perform_ c : p c = true → emits p (perform_ w c).
Proof. intros H. apply emits_bind; [by apply emits_perform | intros; apply emits_ret]. Qed.

Lemma emits_for_each {A} (l : list A) (body : A → M unit) :
  (∀ a, emits p (body a)) → emits p (for_each l body).
Proof.
  intros H. induction l as [|a l IH]; simpl; [apply emits_ret|].
  apply emits_bind; [apply H | by intros _].
Qed.

Lemma emits_try_finally {A} (body : M A) (final : M unit) :
  emits p body → emits p final → emits p (try_finally body final).
Proof.
  intros Hb Hf tr. rewrite try_finally_run. simpl.
  destruct (Hb tr) as (evs & -> & Hp), (Hf (tr ++ evs)) as (evs' & -> & Hp').
  exists (evs ++ evs'). by rewrite (assoc_L (++)), forallb_app, Hp, Hp'.
Qed.

Lemma emits_try_except_OSError {A} (body : M A) (handler : exn → M A) :
  emits p body → (∀ e, emits p (handler e)) → emits p (try_except_OSError body handler).
Proof.
  intros Hb Hh tr. unfold try_except_OSError.
  destruct (Hb tr) as (evs & Hevs & Hp).
  destruct (body tr) as [tr1 [a|e]]; simpl in *; [by eauto|].
  destruct (is_OSError _); [|by eauto].
  destruct (Hh e tr1) as (evs' & -> & Hp'). exists (evs ++ evs').
  by rewrite Hevs, (assoc_L (++)), forallb_app, Hp, Hp'.
Qed.

End Emits.

(** What [m] added to the run passes [p]: a read of [emits] on one run. *)
Lemma emits_run (p : call → bool) {A} (m : M A) tr :
  emits p m → ∃ evs, (m tr).1 = tr ++ evs ∧ Forall (λ c, p c = true) evs.
Proof.
  intros H. destruct (H tr) as (evs & Hevs & Hp). exists evs. split; [done|].
  apply Forall_forall. intros c Hc. rewrite forallb_forall in Hp.
  by apply Hp, list_elem_of_In.
Qed.

End Run.

(** Taking a computation apart down to its calls; what is left are the
    goals [p c = true] for the calls [c] it can make. *)
Ltac emits_step :=
  first
    [ apply emits_bind; [|intros ?]
    | apply emits_ret | apply emits_raise | apply emits_lift | apply emits_ask
    | apply emits_getitem | apply emits_getitem_opt
    | apply emits_log | apply emits_perform_ | apply emits_perform
    | apply emits_for_each; intros ?
    | apply emits_try_finally | apply emits_try_except_OSError; [|intros ?]
    | match goal with |- emits _ (if ?b then _ else _) => destruct b end
    | match goal with |- emits _ (match ?o with _ => _ end) => destruct o end
    | progress unfold run_command, run_command_output, extract_nccl_archive,
        get_cudnn_record, download_extract_cudnn_archive, with_temporary_directory,
        install_cudnn_windows, _create_builder_linux, _create_verifier_linux,
        _run_container, remove_workdir, build_windows_finally, with_workdir ].

Ltac emits_go := repeat emits_step.

Section Pipelines.

Context (cfg : config) (w : world).

(** The calls that are not a step of NCCL or cuDNN staging: no query of
    the cuDNN table, no [dpkg], [tar] or [curl], no unpacking or moving,
    no temporary directory. *)
Definition no_staging (c : call) : bool :=
  match c with
  | CheckOutput _ | Move _ _ | UnpackArchive _ _
  | TemporaryDirectory | TemporaryDirectoryCleanup _ => false
  | CheckCall (prog :: _) _ =>
      negb (bool_decide (prog ∈ ["dpkg"; "tar"; "curl"]))
  | _ => true
  end.

(** Any call at all. *)
Definition any_call (c : call) : bool := true.

Lemma find_cudnn_record_emits p records cuda_version platform :
  emits p (find_cudnn_record records cuda_version platform).
Proof. induction records as [|r records IH]; simpl; emits_go. apply IH. Qed.

Lemma wheel_lib_args_emits p libs : emits p (wheel_lib_args w libs).
Proof. induction libs as [|l libs IH]; simpl; emits_go. apply IH. Qed.

Lemma _check_windows_environment_emits p cuda_version python_version :
  (∀ msg, p (Log msg) = true) →
  emits p (_check_windows_environment cfg w cuda_version python_version).
Proof. intros Hlog. unfold _check_windows_environment. emits_go; apply Hlog. Qed.

(** *** C3 *)

(** ['.'.join(map(str, sys.version_info[0:3]))] *)
Definition current_python_version : string :=
  let '(major, minor, micro) := sys_version_info w in
  join "." [pretty major; pretty minor; pretty micro].

(** What the check logs when the requested Python is not the running one. *)
Definition python_note (python_version : string) : list call :=
  if bool_decide (python_version ≠ current_python_version) then
    [Log ("Note: Building wheel for Python " +:+ python_version +:+ " using Python "
            +:+ current_python_version)]
  else [].

(** How the CUDA runtime check of [_check_windows_environment] ends. *)
Definition cuda_runtime_check (cuda_version : string) (c : windows_config)
  : result unit :=
  match get_system_cuda_version w (wc_cudart_lib c) with
  | Raise e => Raise e
  | Return None =>
      Raise (Exn RuntimeError "Cannot build wheel without CUDA Runtime installed")
  | Return (Some current) =>
      if wc_check_version c current then Return tt
      else Raise (Exn RuntimeError
                    ("Cannot build wheel for CUDA " +:+ cuda_version +:+ " using CUDA "
                       +:+ pretty current))
  end.

Lemma _check_windows_environment_not_windows cuda_version python_version tr :
  String.prefix "win32" (sys_platform w) = false →
  _check_windows_environment cfg w cuda_version python_version tr
  = (tr, Raise (Exn RuntimeError
                  ("you are on non-Windows system: " +:+ sys_platform w))).
Proof. intros H. unfold _check_windows_environment. rewrite run_bind. by rewrite H. Qed.

Lemma _check_windows_environment_windows cuda_version c python_version tr :
  String.prefix "win32" (sys_platform w) = true →
  WHEEL_WINDOWS_CONFIGS cfg !! cuda_version = Some c →
  _check_windows_environment cfg w (Some cuda_version) python_version tr
  = (tr ++ python_note python_version, cuda_runtime_check cuda_version c).
Proof.
  intros Hwin Hc. unfold _check_windows_environment, python_note, cuda_runtime_check,
    current_python_version.
  rewrite run_bind, Hwin. simpl. rewrite run_bind.
  destruct (sys_version_info w) as [[major minor] micro].
  assert (∀ tr', (getitem_opt (WHEEL_WINDOWS_CONFIGS cfg) (Some cuda_version)
                    ≫= λ config,
                      lift (get_system_cuda_version w (wc_cudart_lib config))
                      ≫= λ current,
                        match current with
                        | Some current =>
                            if negb (wc_check_version config current)
                            then raise RuntimeError
                                   ("Cannot build wheel for CUDA "
                                      +:+ str_opt (Some cuda_version) +:+ " using CUDA "
                                      +:+ pretty current)
                            else ret ()
                        | None =>
                            raise RuntimeError
                              "Cannot build wheel without CUDA Runtime installed"
                        end) tr'
                 = (tr', match get_system_cuda_version w (wc_cudart_lib c) with
                         | Raise e => Raise e
                         | Return None =>
                             Raise (Exn RuntimeError
                                      "Cannot build wheel without CUDA Runtime installed")
                         | Return (Some current) =>
                             if wc_check_version c current then Return tt
                             else Raise (Exn RuntimeError
                                           ("Cannot build wheel for CUDA " +:+ cuda_version
                                              +:+ " using CUDA " +:+ pretty current))
                         end)) as Hrest.
  { intros tr'. rewrite run_bind. simpl. unfold getitem. rewrite Hc. simpl.
    rewrite run_bind. simpl.
    destruct (get_system_cuda_version w (wc_cudart_lib c)) as [[v|]|e]; try done.
    simpl. by destruct (wc_check_version c v). }
  case_bool_decide; simpl; rewrite Hrest; [done|]. by rewrite (right_id_L [] (++)).
Qed.

(** C3 (as amended).  On Windows, [build_windows] and [verify_windows]
    start with the check of the host, before anything else.  Off Windows
    the check raises [RuntimeError] and the run is as it was.  On Windows,
    for a CUDA version of the table, a requested Python version that is not
    the running one is only logged as a note; the check then ends as the
    CUDA runtime check ends: it raises [RuntimeError] when no CUDA runtime
    is found or when the one found does not pass [check_version], and
    returns otherwise.  When the check raises, the pipeline raises the same
    error and has done nothing but the check (at most the note is logged):
    no working directory was created. *)
Theorem C3_windows_check_cuda_raises_python_is_noted :
  (∀ cuda_version python_version tr,
     String.prefix "win32" (sys_platform w) = false →
     _check_windows_environment cfg w cuda_version python_version tr
     = (tr, Raise (Exn RuntimeError
                     ("you are on non-Windows system: " +:+ sys_platform w))))
  ∧ (∀ cuda_version c python_version tr,
       String.prefix "win32" (sys_platform w) = true →
       WHEEL_WINDOWS_CONFIGS cfg !! cuda_version = Some c →
       _check_windows_environment cfg w (Some cuda_version) python_version tr
       = (tr ++ python_note python_version, cuda_runtime_check cuda_version c))
  ∧ (∀ cuda_version python_version tr tr' e,
       _check_windows_environment cfg w cuda_version python_version tr
         = (tr', Raise e) →
       (∀ target nccl_assets source output,
          build_windows cfg w target nccl_assets cuda_version python_version
            source output tr = (tr', Raise e))
       ∧ (∀ target nccl_assets dist tests,
            verify_windows cfg w target nccl_assets cuda_version python_version
              dist tests tr = (tr', Raise e))).
Proof.
  split_and!.
  - apply _check_windows_environment_not_windows.
  - apply _check_windows_environment_windows.
  - intros cuda_version python_version tr tr' e Hcheck. split; intros.
    + unfold build_windows, build_windows_setup. by rewrite !run_bind, Hcheck.
    + unfold verify_windows, verify_windows_setup. by rewrite !run_bind, Hcheck.
Qed.

(** *** C7 *)

(** The metadata [{'cuda': cuda_version}], with no other key. *)
Definition cuda_only_metadata (cuda_version : string) : json :=
  JObj [("cuda", JStr cuda_version)].

Definition is_cuda_only (cuda_version : string) (obj : json) : bool :=
  match obj with
  | JObj [(key, JStr v)] => bool_decide (key = "cuda" ∧ v = cuda_version)
  | _ => false
  end.

(** The calls of a ROCm wheel build: none of NCCL or cuDNN staging, and any
    metadata written holds the key ['cuda'] and nothing else. *)
Definition rocm_call (cuda_version : string) (c : call) : bool :=
  no_staging c
  && match c with JsonDump _ obj => is_cuda_only cuda_version obj | _ => true end.

Lemma is_cuda_only_spec cuda_version obj :
  is_cuda_only cuda_version obj = true → obj = cuda_only_metadata cuda_version.
Proof.
  destruct obj as [| |[|[key [| v |]] [|]]]; simpl; try done.
  by intros [-> ->]%bool_decide_eq_true.
Qed.

Lemma rocm_call_spec cuda_version c :
  rocm_call cuda_version c = true →
  no_staging c = true
  ∧ ∀ path obj, c = JsonDump path obj → obj = cuda_only_metadata cuda_version.
Proof.
  unfold rocm_call. intros [H1 H2]%andb_true_iff. split; [done|].
  intros path obj ->. by apply is_cuda_only_spec.
Qed.

(** The calls that prepare the working directory. *)
Definition prepares (c : call) : bool :=
  match c with
  | Mkdtemp _ | Copytree _ _ | WriteText _ _ | Mkdir _ => true
  | _ => false
  end.

Lemma log_then {B} msg (k : unit → M B) tr :
  (log msg ≫= k) tr = k tt (tr ++ [Log msg]).
Proof. reflexivity. Qed.

Lemma perform__then {B} c (k : unit → M B) tr :
  returned (respond w tr c) = true →
  (perform_ w c ≫= k) tr = k tt (tr ++ [c]).
Proof. intros H. rewrite run_bind, perform__run. by destruct (respond w tr c). Qed.

Lemma _run_container_emits p image_tag kind workdir agent_args :
  (∀ msg, p (Log msg) = true) →
  (∀ args, p (CheckCall ("nvidia-docker" :: "run" :: args) None) = true) →
  (∀ args, p (CheckCall ("docker" :: "run" :: args) None) = true) →
  emits p (_run_container w image_tag kind workdir agent_args).
Proof.
  intros Hlog Hnv Hdocker. unfold _run_container.
  apply emits_bind; [apply emits_log, Hlog | intros _].
  repeat case_bool_decide.
  - apply (emits_bind p _ (λ _, perform_ w (CheckCall _ None)));
      [apply emits_log, Hlog | intros _; apply emits_perform_, Hnv].
  - apply (emits_bind p _ (λ _, perform_ w (CheckCall _ None)));
      [apply emits_log, Hlog | intros _; apply emits_perform_, Hdocker].
  - apply emits_raise.
Qed.

Lemma build_linux_config_rocm cuda_version c python_version source version tr :
  WHEEL_LINUX_CONFIGS cfg !! cuda_version = Some c →
  lc_kind c = "rocm" →
  ∃ b, build_linux_config cfg w "wheel-linux" (Some cuda_version) python_version
         source version tr
       = (tr ++ [Log ("Starting wheel-linux build from " +:+ source +:+ " (version "
                        +:+ version +:+ ", for CUDA " +:+ cuda_version
                        +:+ " + Python " +:+ python_version +:+ ")")],
          Return b)
       ∧ lb_nccl_config b = None ∧ lb_cudnn b = None.
Proof.
  intros Hc Hkind. unfold build_linux_config.
  rewrite bool_decide_eq_true_2 by done. rewrite log_then.
  rewrite run_bind. unfold getitem. rewrite Hc. simpl. rewrite Hkind.
  eexists. split; [reflexivity | done].
Qed.

Lemma build_linux_try_rocm_emits cuda_version nccl_assets source output b agent_args
    workdir :
  lb_nccl_config b = None → lb_cudnn b = None →
  emits (rocm_call cuda_version)
    (build_linux_try cfg w "wheel-linux" nccl_assets (Some cuda_version) source
       output b agent_args workdir).
Proof.
  intros Hn Hc. unfold build_linux_try. rewrite Hn, Hc.
  repeat first
    [ apply _run_container_emits; [done..]
    | emits_step ]; try done.
  unfold rocm_call, wheel_metadata. simpl. by rewrite bool_decide_eq_true_2.
Qed.

Lemma build_linux_rocm_emits cuda_version c nccl_assets python_version source output :
  WHEEL_LINUX_CONFIGS cfg !! cuda_version = Some c →
  lc_kind c = "rocm" →
  emits (rocm_call cuda_version)
    (build_linux cfg w "wheel-linux" nccl_assets (Some cuda_version) python_version
       source output).
Proof.
  intros Hc Hkind. unfold build_linux.
  apply (emits_bind_post _ (λ s, lb_nccl_config s.1 = None ∧ lb_cudnn s.1 = None)).
  - unfold build_linux_setup. apply emits_bind; [apply emits_lift | intros version].
    apply emits_bind.
    + intros tr.
      destruct (build_linux_config_rocm cuda_version c python_version source version
                  tr Hc Hkind) as (b & -> & _).
      by eexists.
    + intros b. unfold build_linux_agent_args. emits_go.
  - intros tr tr' [b agent_args]. unfold build_linux_setup.
    rewrite run_bind. simpl.
    destruct (get_version_from_source_tree w source) as [version|]; [|done].
    rewrite run_bind.
    destruct (build_linux_config_rocm cuda_version c python_version source version
                tr Hc Hkind) as (b' & -> & Hb').
    intros (? & ? & _ & [= _ <- _])%run_bind_Return_inv. done.
  - intros [b agent_args] [Hn Hcu]. simpl.
    apply emits_bind; [by apply emits_perform | intros workdir].
    apply emits_try_finally; [by apply build_linux_try_rocm_emits|].
    unfold remove_workdir. emits_go; done.
Qed.

(** What the ROCm build does between the copy of the builder directory and
    the image build: the two placeholder directories, with nothing staged
    into them, then the metadata. *)
Definition rocm_placeholders_and_metadata (cuda_version workdir : string) : list call :=
  [ Log "Creating nccl directory under builder directory";
    Mkdir ((workdir +:+ "/builder") +:+ "/nccl");
    Log "NCCL is not installed for this build";
    Mkdir ((workdir +:+ "/builder") +:+ "/cudnn");
    Log "cuDNN is not installed for this build";
    Log "Writing wheel metadata";
    JsonDump (workdir +:+ "/_wheel.json") (cuda_only_metadata cuda_version) ].

Lemma emits_extends {A} (m : M A) tr : emits any_call m → ∃ evs, (m tr).1 = tr ++ evs.
Proof. intros H. destruct (H tr) as (evs & ? & _). eauto. Qed.

Lemma build_linux_try_rocm_run cuda_version nccl_assets source output b agent_args
    workdir tr :
  lb_nccl_config b = None → lb_cudnn b = None →
  (∀ tr c, prepares c = true → returned (respond w tr c) = true) →
  ∃ pre post,
    (build_linux_try cfg w "wheel-linux" nccl_assets (Some cuda_version) source
       output b agent_args workdir tr).1
    = (tr ++ pre) ++ rocm_placeholders_and_metadata cuda_version workdir ++ post.
Proof.
  intros Hn Hc Hprep. unfold build_linux_try. rewrite Hn, Hc.
  rewrite !log_then.
  rewrite perform__then by (by apply Hprep).
  rewrite perform__then by (by apply Hprep).
  rewrite log_then.
  rewrite perform__then by (by apply Hprep).
  rewrite log_then.
  rewrite perform__then by (by apply Hprep).
  rewrite log_then.
  rewrite perform__then by (by apply Hprep).
  rewrite log_then.
  rewrite bool_decide_eq_true_2 by done.
  rewrite run_bind, log_then. cbv beta. rewrite perform__run.
  match goal with
  | |- context [match respond w ?t ?c with _ => _ end] =>
      destruct (respond w t c) as [?|e]
  end; simpl.
  - match goal with
    | |- ∃ pre post, (?m ?t).1 = _ =>
        destruct (emits_extends m t) as (evs & ->)
    end.
    { repeat first [ apply _run_container_emits; [done..] | emits_step ]; done. }
    rewrite <-!(assoc_L (++)). simpl.
    eexists [_; _; _; _; _; _], evs. rewrite <-(assoc_L (++) tr). reflexivity.
  - rewrite <-!(assoc_L (++)). simpl.
    eexists [_; _; _; _; _; _], []. rewrite <-(assoc_L (++) tr). reflexivity.
Qed.

Lemma build_linux_setup_rocm cuda_version c python_version source tr :
  WHEEL_LINUX_CONFIGS cfg !! cuda_version = Some c →
  lc_kind c = "rocm" →
  is_Some (WHEEL_PYTHON_VERSIONS cfg !! python_version) →
  returned (get_version_from_source_tree w source) = true →
  ∃ b agent_args start,
    build_linux_setup cfg w "wheel-linux" (Some cuda_version) python_version source tr
    = (tr ++ [Log start], Return (b, agent_args))
    ∧ lb_nccl_config b = None ∧ lb_cudnn b = None.
Proof.
  intros Hc Hkind [requires Hpy] Hversion. unfold build_linux_setup.
  rewrite run_bind. unfold lift at 1.
  destruct (get_version_from_source_tree w source) as [version|]; [|done].
  rewrite run_bind.
  destruct (build_linux_config_rocm cuda_version c python_version source version
              tr Hc Hkind) as (b & -> & Hn & Hcu).
  rewrite run_bind. unfold build_linux_agent_args.
  rewrite bool_decide_eq_true_2 by done.
  rewrite run_bind. unfold getitem at 1. rewrite Hpy.
  unfold ret at 1. rewrite run_bind. unfold getitem_opt, getitem. rewrite Hc.
  by eexists b, _, _.
Qed.

Lemma with_workdir_rocm_run cuda_version nccl_assets source output b agent_args tr :
  lb_nccl_config b = None → lb_cudnn b = None →
  (∀ tr c, prepares c = true → returned (respond w tr c) = true) →
  ∃ workdir pre post,
    (with_workdir w
       (build_linux_try cfg w "wheel-linux" nccl_assets (Some cuda_version) source
          output b agent_args)
       (remove_workdir w) tr).1
    = pre ++ rocm_placeholders_and_metadata cuda_version workdir ++ post.
Proof.
  intros Hn Hcu Hprep.
  pose proof (Hprep tr (Mkdtemp "cupy-dist-") eq_refl) as Hmk.
  destruct (respond w tr (Mkdtemp "cupy-dist-")) as [workdir|] eqn:Hwd; [|done].
  rewrite (with_workdir_unguarded w _ _ workdir Hwd). cbv zeta. cbn [fst].
  destruct (build_linux_try_rocm_run cuda_version nccl_assets source output b
              agent_args workdir (tr ++ [Mkdtemp "cupy-dist-"]) Hn Hcu Hprep)
    as (pre & post & ->).
  exists workdir, ((tr ++ [Mkdtemp "cupy-dist-"]) ++ pre),
    (post ++ [removing workdir; Rmtree workdir]).
  by rewrite <-!(assoc_L (++)).
Qed.

(** C7.  For a wheel build on Linux whose configuration is of kind [rocm]:
    every call the pipeline makes is free of NCCL and cuDNN staging (the
    cuDNN table is not queried, nothing is extracted, downloaded, unpacked
    or moved), and any metadata it writes is [{'cuda': cuda_version}], with
    no ['cudnn'] key.  And when the set-up goes through (the version of the
    source tree is read, the Python version is in the table) on a host
    where preparing the working directory does not fail, the run holds, in
    a row, the creation of the two placeholder directories with nothing
    staged into them and the writing of that metadata to [_wheel.json]. *)
Theorem C7_rocm_build_stages_nothing_and_writes_cuda_metadata
    cuda_version c nccl_assets python_version source output tr :
  WHEEL_LINUX_CONFIGS cfg !! cuda_version = Some c →
  lc_kind c = "rocm" →
  let run := build_linux cfg w "wheel-linux" nccl_assets (Some cuda_version)
               python_version source output tr in
  (∃ evs, run.1 = tr ++ evs
          ∧ Forall (λ c, no_staging c = true
                         ∧ ∀ path obj, c = JsonDump path obj →
                                       obj = cuda_only_metadata cuda_version) evs)
  ∧ (is_Some (WHEEL_PYTHON_VERSIONS cfg !! python_version) →
     returned (get_version_from_source_tree w source) = true →
     (∀ tr c, prepares c = true → returned (respond w tr c) = true) →
     ∃ workdir pre post,
       run.1 = pre ++ rocm_placeholders_and_metadata cuda_version workdir ++ post).
Proof.
  intros Hc Hkind run. split.
  - destruct (emits_run (rocm_call cuda_version) _ tr
                (build_linux_rocm_emits cuda_version c nccl_assets python_version
                   source output Hc Hkind)) as (evs & Hevs & Hp).
    exists evs. split; [done|]. eapply Forall_impl; [done|].
    intros ?. apply rocm_call_spec.
  - intros Hpy Hversion Hprep. unfold run, build_linux.
    destruct (build_linux_setup_rocm cuda_version c python_version source tr
                Hc Hkind Hpy Hversion) as (b & agent_args & start & Hsetup & Hn & Hcu).
    rewrite run_bind, Hsetup. simpl.
    by apply with_workdir_rocm_run.
Qed.

(** *** C8 *)

(** The command of a call that runs a container: [nvidia-docker run ...] or
    [docker run ...]. *)
Definition container_run (c : call) : option (list string) :=
  match c with
  | CheckCall (prog :: verb :: args) _ =>
      if bool_decide (verb = "run" ∧ (prog = "nvidia-docker" ∨ prog = "docker"))
      then Some (prog :: verb :: args) else None
  | _ => None
  end.

(** The containers run, in order. *)
Definition container_runs (tr : trace) : list (list string) := omap container_run tr.

Definition no_container (c : call) : bool :=
  match container_run c with None => true | Some _ => false end.


Lemma container_runs_app tr evs :
  container_runs (tr ++ evs) = container_runs tr ++ container_runs evs.
Proof. apply omap_app. Qed.

Lemma container_runs_quiet evs :
  forallb no_container evs = true → container_runs evs = [].
Proof.
  induction evs as [|c evs IH]; simpl; [done|].
  intros [Hc Hevs]%andb_true_iff. unfold no_container in Hc.
  unfold container_runs. simpl. destruct (container_run c); [done|]. by apply IH.
Qed.


Lemma quiet_Return {A} (m : M A) tr tr' a :
  emits no_container m → m tr = (tr', Return a) →
  container_runs tr' = container_runs tr.
Proof.
  intros Hm Hrun. destruct (Hm tr) as (evs & Hevs & Hp). rewrite Hrun in Hevs.
  simpl in Hevs.
  by rewrite Hevs, container_runs_app, (container_runs_quiet _ Hp), (right_id_L [] (++)).
Qed.
















End Pipelines.

Section Verification.

Context (cfg : config) (w : world).

(** *** A container that fails *)


(** A container run that the host ends with an error ends the computation
    [m]: no container is run after it, and [m] raises that error; with
    [cleanup], [m] may instead raise the error of a removal that failed
    as the last call of the run. *)
Definition escalates (cleanup : bool) {A} (m : M A) : Prop :=
  ∀ tr, ∃ evs,
    (m tr).1 = tr ++ evs
    ∧ ∀ a c b e,
        evs = a ++ c :: b →
        is_Some (container_run c) →
        respond w (tr ++ a) c = Raise e →
        container_runs b = []
        ∧ ((m tr).2 = Raise e
           ∨ (cleanup = true
              ∧ ∃ a' workdir e',
                  b = a' ++ [Rmtree workdir]
                  ∧ respond w (tr ++ a ++ c :: a') (Rmtree workdir) = Raise e'
                  ∧ (m tr).2 = Raise e')).



Lemma escalates_weaken {A} (m : M A) : escalates false m → escalates true m.
Proof.
  intros Hm tr. destruct (Hm tr) as (evs & Hevs & H). exists evs. split; [done|].
  intros a c b e Heq Hc He. destruct (H a c b e Heq Hc He) as [Hb [Hr | [? _]]]; [|done].
  split; [done|]. by left.
Qed.




End Verification.


Section Verification.

Context (cfg : config) (w : world).




End Verification.

End DistSpec.

(** ** The claims at concrete inputs *)

Module Examples.
Import Fs FsFacts OptLib OptLibSpec OptLibClaims.

(** A vendor tree that has cuDNN but no NCCL, and one in which a regular
    file has the name of the library. *)
Definition nccl_file_host : node :=
  host_with (Dir {[ "11.2" := Dir {[ "nccl" := File "placeholder" ]} ]})
            {[ "cuda" := Dir ∅ ]}.

Lemma C6_missing_library_is_skipped_witness :
  _install_library 8 "nccl" ["vendor"] ["opt"; "cuda"] cutensor_map
    (State cudnn_host [])
  = Some (State cudnn_host ["Skip installing nccl (unavailable)"], Return tt)
  ∧ ∃ msg,
      _install_library 8 "nccl" ["vendor"] ["opt"; "cuda"] cutensor_map
        (State nccl_file_host [])
      = Some (State nccl_file_host [], Raise (Exn NotADirectoryError msg)).
Proof.
  split.
  - destruct (C6_missing_library_is_skipped 8 "nccl" ["vendor"] ["opt"; "cuda"]
                cutensor_map (State cudnn_host []) "11.2") as [H _];
      [vm_compute; reflexivity|].
    apply H. vm_compute; reflexivity.
  - destruct (C6_missing_library_is_skipped 8 "nccl" ["vendor"] ["opt"; "cuda"]
                cutensor_map (State nccl_file_host []) "11.2") as [_ H];
      [vm_compute; reflexivity|].
    apply (H "placeholder"). vm_compute; reflexivity.
Defined.

(** C6 as stated fails: the version directory holds no sub-directory named
    after the library, but a regular file of that name; the call does not
    skip the library, it raises [NotADirectoryError]. *)
Lemma C6_regular_file_named_after_the_library :
  children ["vendor"] nccl_file_host = Some ["11.2"]
  ∧ from_option is_dir_node false (lookup ["vendor"; "11.2"; "nccl"] nccl_file_host)
    = false
  ∧ ∃ r,
      _install_library 8 "nccl" ["vendor"] ["opt"; "cuda"] cutensor_map
        (State nccl_file_host []) = Some (State nccl_file_host [], r)
      ∧ raised_class r = Some NotADirectoryError.
Proof.
  split_and!; [vm_compute; reflexivity.. |].
  eexists. split; vm_compute; reflexivity.
Qed.

(** An empty source root, and a library directory with no version in it. *)
Definition empty_vendor_host : node := host_with (Dir ∅) {[ "cuda" := Dir ∅ ]}.
Definition empty_library_host : node :=
  host_with (Dir {[ "11.2" := Dir {[ "cudnn" := Dir ∅ ]} ]}) {[ "cuda" := Dir ∅ ]}.

Lemma C9_empty_level_is_an_assertion_error_witness :
  _install_library 8 "cudnn" ["vendor"] ["opt"; "cuda"] cudnn_map
    (State empty_vendor_host [])
  = Some (State empty_vendor_host [], Raise assertion_error)
  ∧ _install_library 8 "cudnn" ["vendor"] ["opt"; "cuda"] cudnn_map
      (State empty_library_host [])
    = Some (State empty_library_host [], Raise assertion_error).
Proof.
  split.
  - apply (C9_empty_level_is_an_assertion_error 8 "cudnn" ["vendor"] ["opt"; "cuda"]
             cudnn_map (State empty_vendor_host [])).
    vm_compute; reflexivity.
  - apply (C9_empty_level_is_an_assertion_error 8 "cudnn" ["vendor"] ["opt"; "cuda"]
             cudnn_map (State empty_library_host []) ) with (v := "11.2");
      vm_compute; reflexivity.
Defined.

End Examples.

Module DistExamples.
Import Dist DistSpec.

(** A configuration in the manner of [dist_config.py]: one CUDA and one ROCm
    wheel for Linux, one wheel for Windows. *)
Definition cuda_112 : linux_config :=
  {| lc_name := "cupy-cuda112";
     lc_kind := "cuda";
     lc_image := "nvidia/cuda:11.2.0-devel-centos7";
     lc_nccl := Some {| nccl_type := "v2-tar"; nccl_files := ["nccl_2.8.4.txz"] |};
     lc_libs := ["/usr/local/cuda/lib64/libnccl.so.2"];
     lc_includes := [];
     lc_verify_image := "nvidia/cuda:11.2.0-devel-";
     lc_verify_systems := ["ubuntu18.04"; "centos7"];
     lc_verify_preloads := ["nccl"; "cudnn"] |}.

Definition rocm_40 : linux_config :=
  {| lc_name := "cupy-rocm-4-0";
     lc_kind := "rocm";
     lc_image := "rocm/dev-centos-7:4.0";
     lc_nccl := None;
     lc_libs := [];
     lc_includes := [];
     lc_verify_image := "rocm/rocm-terminal:4.0";
     lc_verify_systems := ["default"];
     lc_verify_preloads := [] |}.

Definition example_config : config :=
  {| CYTHON_VERSION := "0.29.22";
     SDIST_CONFIG :=
       {| sc_image := "nvidia/cuda:10.2-devel-centos7";
          sc_verify_image := "nvidia/cuda:10.2-devel-";
          sc_verify_systems := ["ubuntu18.04"];
          sc_verify_preloads := [];
          sc_nccl := None |};
     SDIST_LONG_DESCRIPTION := "CuPy (source)";
     WHEEL_LINUX_CONFIGS := {[ "11.2" := cuda_112; "rocm-4.0" := rocm_40 ]};
     WHEEL_WINDOWS_CONFIGS :=
       {[ "11.2" := {| wc_name := "cupy-cuda112";
                       wc_libs := ["cudart64_110.dll"];
                       wc_cudart_lib := "cudart64_110";
                       wc_check_version := λ x, (11020 <=? x) && (x <? 11030) |} ]};
     WHEEL_PYTHON_VERSIONS := {[ "3.9.0" := ["setuptools<42"] ]};
     WHEEL_LONG_DESCRIPTION_format := λ cuda, "CuPy for CUDA " +:+ cuda;
     VERIFY_PYTHON_VERSIONS := ["3.9.0"];
     PYTHON_VERSIONS := ["3.9.0"];
     format_system := λ image system, image +:+ system;
     sdist_name := λ package version, package +:+ "-" +:+ version +:+ ".tar.gz";
     wheel_name := λ package version python platform,
       package +:+ "-" +:+ version +:+ "-cp39-cp39-" +:+ platform +:+ ".whl" |}.

(** A host on which every call returns; [mkdtemp] gives [/tmp/cupy-dist-0]. *)
Definition respond_ok (tr : trace) (c : call) : result string :=
  Return (match c with
          | Mkdtemp _ => "/tmp/cupy-dist-0"
          | TemporaryDirectory => "/tmp/tmp0"
          | _ => ""
          end).

Definition host_of (platform : string) (python : Z * Z * Z)
    (respond : trace → call → result string) : world :=
  {| sys_platform := platform;
     sys_version_info := python;
     sys_executable := "python";
     os_getuid := 1000;
     os_getgid := 1000;
     os_getcwd := "/tools";
     os_environ := {[ "CUDA_PATH" := "C:/CUDA/v11.2" ]};
     get_version_from_source_tree := λ _, Return "9.0.0";
     get_system_cuda_version := λ _, Return (Some 11020);
     find_file_in_path := λ lib, Some ("C:/CUDA/v11.2/bin/" +:+ lib);
     json_loads := λ _,
       Return [ {| rec_cuda := "11.2"; rec_cudnn := "8.1.1";
                   rec_assets :=
                     {[ "Linux" := {| asset_url := "https://example.org/cudnn-linux.tgz";
                                      asset_filename := "libcudnn.so.8.1.1" |};
                        "Windows" := {| asset_url := "https://example.org/cudnn-win.zip";
                                        asset_filename := "cudnn64_8.dll" |} ]} |} ];
     respond := respond;
     os_walk := λ _ _, [("", []); ("bin", ["cudnn64_8.dll"])];
     path_exists := λ _ _, true |}.

Definition linux_host : world := host_of "linux" (3, 9, 0) respond_ok.

(** The same host, where removing a directory is refused. *)
Definition respond_no_removal (tr : trace) (c : call) : result string :=
  match c with
  | Rmtree path => Raise (Exn PermissionError ("Permission denied: " +:+ path))
  | _ => respond_ok tr c
  end.

Definition linux_host_no_removal : world := host_of "linux" (3, 9, 0) respond_no_removal.


(** A Windows host running Python 3.8.5, with the CUDA 11.2 runtime. *)
Definition windows_host : world := host_of "win32" (3, 8, 5) respond_ok.

(** C3 as stated fails for the Python version: asked for a wheel for Python
    3.9.0 on a host running 3.8.5, the check logs a note and returns, and
    the build goes on to create its working directory and ends normally. *)
Lemma C3_python_mismatch_does_not_abort :
  _check_windows_environment example_config windows_host (Some "11.2") "3.9.0" []
    = ([Log "Note: Building wheel for Python 3.9.0 using Python 3.8.5"], Return tt)
  ∧ ∃ tr,
      build_windows example_config windows_host "wheel-win" None (Some "11.2")
        "3.9.0" "/src/cupy" "/out" [] = (tr, Return tt)
      ∧ tr !! 2%nat = Some (Mkdtemp "cupy-dist-").
Proof. split; [|eexists; split]; vm_compute; reflexivity. Qed.

Lemma respond_ok_prepares tr c :
  prepares c = true → returned (respond linux_host tr c) = true.
Proof. done. Qed.

Lemma C7_rocm_build_stages_nothing_and_writes_cuda_metadata_witness :
  (∃ evs,
     (build_linux example_config linux_host "wheel-linux" None (Some "rocm-4.0")
        "3.9.0" "/src/cupy" "/out" []).1 = [] ++ evs
     ∧ Forall (λ c, no_staging c = true
                    ∧ ∀ path obj, c = JsonDump path obj →
                                  obj = cuda_only_metadata "rocm-4.0") evs)
  ∧ ∃ workdir pre post,
      (build_linux example_config linux_host "wheel-linux" None (Some "rocm-4.0")
         "3.9.0" "/src/cupy" "/out" []).1
      = pre ++ rocm_placeholders_and_metadata "rocm-4.0" workdir ++ post.
Proof.
  destruct (C7_rocm_build_stages_nothing_and_writes_cuda_metadata example_config
              linux_host "rocm-4.0" rocm_40 None "3.9.0" "/src/cupy" "/out" [])
    as [H1 H2]; [vm_compute; reflexivity | reflexivity |].
  split; [exact H1|]. apply H2.
  - eexists. vm_compute. reflexivity.
  - reflexivity.
  - apply respond_ok_prepares.
Defined.









End DistExamples.

(* ===================================================================== *)
(** * Part III: further properties of the code                            *)
(* ===================================================================== *)

(** ** verifier/setup_cuda_runtime_headers.py *)

Module RuntimeHeadersEdges.
Import RuntimeHeaders.

(** X1.  On a HIP runtime [main] returns at once: the NVRTC version is not asked
    for, so the setup returns even where asking would raise.  Off HIP an
    error of [getVersion] is the outcome of [main], and nothing was printed
    or run. *)
Theorem main_asks_the_version_off_hip_only (h : host) :
  (is_hip h = true → main h = ([], Return tt))
  ∧ (∀ e, is_hip h = false → nvrtc_getVersion h = Raise e → main h = ([], Raise e)).
Proof.
  unfold main. split.
  - by intros ->.
  - by intros e -> ->.
Qed.

(** X2.  Whatever the host, [main] either prints and runs nothing, or prints one
    line and then runs one command: the line is [Running: ] followed by the
    command as [shlex.join] spells it, the command is a [pip install --user]
    by the running interpreter, and [main] ends as the command ends. *)
Theorem main_announces_the_command_it_runs (h : host) :
  (main h).1 = []
  ∨ ∃ requirement,
      let cmdline := [sys_executable h; "-m"; "pip"; "install"; "--user"; requirement] in
      (main h).1 = [Printed ("Running: " +:+ shlex_join cmdline); Ran cmdline]
      ∧ (main h).2 = subprocess_run h cmdline.
Proof.
  unfold main. destruct (is_hip h); [by left|].
  destruct (nvrtc_getVersion h) as [[major minor]|e]; [|by left].
  destruct (major =? 11); [by left|].
  destruct (major =? 12); [|by left].
  destruct (minor <? 2); [by left|].
  right. eexists. split; reflexivity.
Qed.

(** A HIP host on which NVRTC cannot be asked. *)
Definition hip_host : host :=
  {| is_hip := true;
     nvrtc_getVersion := Raise (Exn OtherException "nvrtc is not available");
     sys_executable := "/usr/bin/python3";
     subprocess_run := λ _, Return tt |}.

Lemma main_asks_the_version_off_hip_only_witness : main hip_host = ([], Return tt).
Proof.
  destruct (main_asks_the_version_off_hip_only hip_host) as [H _]. by apply H.
Defined.

End RuntimeHeadersEdges.

(** ** builder/setup_cuda_opt_lib.py *)

Module InstallSpec.
Import Fs FsFacts OptLib OptLibSpec MergeSpec OptLibClaims.

(** *** [merge_directory] *)

(** X3.  However it ends, [merge_directory] leaves alone whatever lies apart
    from the destination; with a source that is apart from the destination,
    the source tree is after the merge what it was before. *)
Theorem merge_directory_writes_below_the_destination_only
    fuel (src_dir dst_dir : path) (st st' : state) r :
  merge_directory fuel src_dir dst_dir st = Some (st', r) →
  (∀ q, apart dst_dir q → lookup q (fs st') = lookup q (fs st))
  ∧ (apart src_dir dst_dir → lookup src_dir (fs st') = lookup src_dir (fs st)).
Proof.
  intros Hrun.
  destruct (merge_directory_confined fuel src_dir dst_dir _ _ _ Hrun) as [Hu _].
  split; [exact Hu|]. intros Hap. apply Hu. by symmetry.
Qed.

Lemma merge_directory_writes_below_the_destination_only_witness :
  ∃ st',
    merge_directory 8 ["vendor"; "11.2"; "cudnn"; "8.1.0"; "lib64"]
      ["opt"; "cuda"; "lib64"] (State cudnn_host []) = Some (st', Return tt)
    ∧ (∀ q, apart ["opt"; "cuda"; "lib64"] q →
            lookup q (fs st') = lookup q cudnn_host)
    ∧ lookup ["vendor"; "11.2"; "cudnn"; "8.1.0"; "lib64"] (fs st')
      = lookup ["vendor"; "11.2"; "cudnn"; "8.1.0"; "lib64"] cudnn_host.
Proof.
  eexists. split; [vm_compute; reflexivity|].
  match goal with
  | |- (∀ q, _ → lookup q (fs ?s1) = _) ∧ _ =>
      destruct (merge_directory_writes_below_the_destination_only 8
                  ["vendor"; "11.2"; "cudnn"; "8.1.0"; "lib64"]
                  ["opt"; "cuda"; "lib64"] (State cudnn_host []) s1 (Return tt))
        as [H1 H2]
  end.
  - vm_compute; reflexivity.
  - split; [exact H1 | exact (H2 apart_vendor_cuda)].
Defined.

(** X4.  A merge that returned, of a source apart from the destination, has
    copied every file of the source tree: a file that was at [rel/f] below
    the source is, with the same contents, at [rel/f] below the destination
    (or inside a directory of that name, where the destination had one:
    [shutil.copy2] copies into a directory). *)
Theorem merge_directory_copies_every_file
    fuel (src_dir dst_dir : path) (st st' : state) (rel : path) f data :
  apart src_dir dst_dir →
  merge_directory fuel src_dir dst_dir st = Some (st', Return tt) →
  lookup (src_dir ++ rel ++ [f]) (fs st) = Some (File data) →
  copied (fs st') (dst_dir ++ rel ++ [f]) f data.
Proof.
  intros Hap Hrun Hf.
  destruct (merge_directory_confined fuel src_dir dst_dir _ _ _ Hrun) as [Hu _].
  assert (merge_directory fuel src_dir dst_dir = walk_merge src_dir dst_dir fuel [])
    as Heq.
  { unfold merge_directory, walk_merge. by rewrite (right_id_L [] (++)). }
  rewrite Heq in Hrun. apply (walk_merge_Return src_dir dst_dir Hap) in Hrun.
  apply (merged_files src_dir dst_dir fuel (fs st') [] rel f data Hrun).
  simpl. rewrite <-Hf. apply Hu. apply apart_app_r. by symmetry.
Qed.

Lemma merge_directory_copies_every_file_witness :
  ∃ st',
    merge_directory 8 ["vendor"] ["opt"; "cuda"] (State cudnn_host [])
      = Some (st', Return tt)
    ∧ copied (fs st')
        (["opt"; "cuda"] ++ ["11.2"; "cudnn"; "8.1.0"; "include"] ++ ["cudnn.h"])
        "cudnn.h" "#pragma once".
Proof.
  eexists. split; [vm_compute; reflexivity|].
  apply (merge_directory_copies_every_file 8 ["vendor"] ["opt"; "cuda"]
           (State cudnn_host []) _ ["11.2"; "cudnn"; "8.1.0"; "include"] "cudnn.h");
    [by apply apart_cons_ne | vm_compute; reflexivity | vm_compute; reflexivity].
Defined.

(** X5.  A source that is no directory (nothing there, or a regular file) is
    passed over: [os.walk] yields nothing, so the merge returns having
    printed nothing and created nothing, not even the destination. *)
Theorem merge_directory_of_no_directory_does_nothing
    fuel (src_dir dst_dir : path) (st : state) :
  from_option is_dir_node false (lookup src_dir (fs st)) = false →
  merge_directory (S fuel) src_dir dst_dir st = Some (st, Return tt).
Proof.
  unfold merge_directory. simpl.
  by destruct (lookup src_dir (fs st)) as [[|es]|].
Qed.

Lemma merge_directory_of_no_directory_does_nothing_witness :
  merge_directory 8 ["vendor"; "12.0"] ["opt"; "cuda"] (State cudnn_host [])
  = Some (State cudnn_host [], Return tt).
Proof.
  apply (merge_directory_of_no_directory_does_nothing 7 ["vendor"; "12.0"]
           ["opt"; "cuda"] (State cudnn_host [])).
  vm_compute; reflexivity.
Defined.

(** X6.  The merge creates the destination directory and none above it: for a
    source directory and a destination that does not exist and lies in no
    existing directory, the merge announces the creation, [mkdir] raises
    (there are no [parents]), and the file system is as it was. *)
Theorem merge_directory_creates_no_parents
    fuel (src_dir dst_dir : path) (st : state) es :
  lookup src_dir (fs st) = Some (Dir es) →
  lookup dst_dir (fs st) = None →
  lookup (parent dst_dir) (fs st) = None →
  merge_directory (S fuel) src_dir dst_dir st
  = Some (printed st ["Creating directory: " +:+ show dst_dir],
          Raise (Exn (missing_class (parent dst_dir) (fs st)) (show dst_dir))).
Proof.
  intros Hsrc Hdst Hpar. unfold merge_directory. simpl. rewrite Hsrc.
  pose proof (relative_to_app src_dir []) as Hrel.
  rewrite (right_id_L [] (++)) in Hrel.
  rewrite bind_run. unfold merge_step. rewrite Hrel.
  rewrite (right_id_L [] (++)). rewrite bind_run, path_exists_run, Hdst.
  rewrite bool_decide_eq_false_2 by (by intros [??]).
  rewrite bind_run, bind_run. simpl. unfold mkdir. simpl. rewrite Hdst.
  unfold in_directory. simpl. by rewrite Hpar.
Qed.

Lemma merge_directory_creates_no_parents_witness :
  merge_directory 8 ["vendor"] ["usr"; "local"; "cuda"] (State cudnn_host [])
  = Some (State cudnn_host ["Creating directory: /usr/local/cuda"],
          Raise (Exn FileNotFoundError "/usr/local/cuda")).
Proof.
  eapply (merge_directory_creates_no_parents 7 ["vendor"] ["usr"; "local"; "cuda"]
            (State cudnn_host [])); vm_compute; reflexivity.
Defined.

(** *** [_install_library] and [main] *)

Lemma _child_read_only (p : path) : read_only (_child p).
Proof.
  intros st st' r. unfold _child. rewrite bind_run. unfold iterdir.
  destruct (lookup p (fs st)) as [[|es]|]; simpl; try by intros [= <- _].
  rewrite bind_run. unfold assert_. case_bool_decide; simpl.
  - destruct (_ <$> _); by intros [= <- _].
  - by intros [= <- _].
Qed.

Lemma iterdir_read_only (p : path) : read_only (iterdir p).
Proof.
  intros st st' r. unfold iterdir.
  destruct (lookup p (fs st)) as [[|es]|]; by intros [= <- _].
Qed.

Lemma install_entry_confined fuel (dst_dir : path) install_map (child : path) :
  confined dst_dir (install_entry fuel dst_dir install_map child).
Proof.
  unfold install_entry.
  apply confined_bind; [apply read_only_confined, read_only_is_dir|].
  intros [|]; [|apply read_only_confined, read_only_raise].
  eapply confined_weaken, merge_directory_confined.
Qed.

Lemma _install_library_confined fuel name (src_dir dst_dir : path) install_map :
  confined dst_dir (_install_library fuel name src_dir dst_dir install_map).
Proof.
  unfold _install_library.
  apply confined_bind; [apply read_only_confined, _child_read_only|].
  intros v. apply confined_bind; [apply read_only_confined, read_only_path_exists|].
  intros [|]; simpl; [|apply read_only_confined, read_only_print].
  apply confined_bind; [apply read_only_confined, _child_read_only|].
  intros lv. apply confined_bind; [apply read_only_confined, iterdir_read_only|].
  intros children. apply confined_for_each. intros child _.
  apply install_entry_confined.
Qed.

(** X7.  However it ends, on either platform, the script writes at or below the
    destination directory only (a vendor tree that is apart from it is
    after the run what it was before) and deletes nothing: every path that
    led to a file or a directory still leads to one of the same kind. *)
Theorem main_writes_below_the_destination_only
    fuel sys_platform (src_dir dst_dir : path) (st st' : state) r :
  main fuel sys_platform src_dir dst_dir st = Some (st', r) →
  (∀ q, apart dst_dir q → lookup q (fs st') = lookup q (fs st))
  ∧ (apart src_dir dst_dir → lookup src_dir (fs st') = lookup src_dir (fs st))
  ∧ preserved (fs st) (fs st').
Proof.
  intros Hrun.
  assert (confined dst_dir (main fuel sys_platform src_dir dst_dir)) as Hc.
  { unfold main. repeat case_bool_decide.
    - repeat (apply confined_bind; [apply _install_library_confined | intros _]).
      apply _install_library_confined.
    - apply confined_bind; [apply _install_library_confined | intros _].
      apply _install_library_confined.
    - apply read_only_confined, read_only_raise. }
  destruct (Hc _ _ _ Hrun) as [Hu Hp].
  split_and!; [exact Hu | | exact Hp]. intros Hap. apply Hu. by symmetry.
Qed.

Lemma main_writes_below_the_destination_only_witness :
  ∃ st',
    main 8 "linux" ["vendor"] ["opt"; "cuda"] (State cudnn_host [])
      = Some (st', Return tt)
    ∧ lookup ["opt"; "cuda"; "lib64"; "libcudnn.so"] (fs st') = Some (File "ELF")
    ∧ (∀ q, apart ["opt"; "cuda"] q → lookup q (fs st') = lookup q cudnn_host)
    ∧ lookup ["vendor"] (fs st') = lookup ["vendor"] cudnn_host
    ∧ preserved cudnn_host (fs st').
Proof.
  eexists. split; [vm_compute; reflexivity|]. split; [vm_compute; reflexivity|].
  match goal with
  | |- (∀ q, _ → lookup q (fs ?s1) = _) ∧ _ =>
      destruct (main_writes_below_the_destination_only 8 "linux" ["vendor"]
                  ["opt"; "cuda"] (State cudnn_host []) s1 (Return tt))
        as (H1 & H2 & H3)
  end.
  - vm_compute; reflexivity.
  - split_and!; [exact H1 | apply H2; by apply apart_cons_ne | exact H3].
Defined.

Definition skip_line (name : string) : string :=
  "Skip installing " +:+ name +:+ " (unavailable)".

Lemma _install_library_skip fuel name (src_dir dst_dir : path) install_map st v lines :
  children src_dir (fs st) = Some [v] →
  lookup (src_dir ++ [v; name]) (fs st) = None →
  _install_library fuel name src_dir dst_dir install_map (printed st lines)
  = Some (printed st (lines ++ [skip_line name]), Return tt).
Proof.
  intros Hv Hname. unfold _install_library.
  rewrite bind_run, (_child_one _ _ v) by done.
  rewrite bind_run, path_exists_run. rewrite <-(assoc_L (++)). simpl.
  rewrite Hname. rewrite bool_decide_eq_false_2 by (by intros [??]). simpl.
  unfold print, printed. simpl. by rewrite <-(assoc_L (++)).
Qed.

(** X8.  A vendor tree with one version directory that holds none of the
    libraries: on Linux the script looks for cuTENSOR, NCCL and cuDNN, in
    this order, on Windows for cuTENSOR and cuDNN (never for NCCL); it
    prints a skip line for each, returns, and the file system is as it
    was. *)
Theorem main_skips_each_library_of_the_platform
    fuel (src_dir dst_dir : path) (st : state) v :
  children src_dir (fs st) = Some [v] →
  (∀ name, name ∈ ["cutensor"; "nccl"; "cudnn"] →
           lookup (src_dir ++ [v; name]) (fs st) = None) →
  main fuel "linux" src_dir dst_dir st
    = Some (printed st [skip_line "cutensor"; skip_line "nccl"; skip_line "cudnn"],
            Return tt)
  ∧ main fuel "win32" src_dir dst_dir st
    = Some (printed st [skip_line "cutensor"; skip_line "cudnn"], Return tt).
Proof.
  intros Hv Hnone.
  assert (st = printed st []) as Hst.
  { destruct st. unfold printed. simpl. by rewrite (right_id_L [] (++)). }
  split; unfold main; simpl.
  - rewrite bind_run. rewrite Hst at 1.
    rewrite (_install_library_skip _ _ _ _ _ _ v) by (try apply Hnone; set_solver).
    rewrite bind_run.
    rewrite (_install_library_skip _ _ _ _ _ _ v) by (try apply Hnone; set_solver).
    by rewrite (_install_library_skip _ _ _ _ _ _ v) by (try apply Hnone; set_solver).
  - rewrite bind_run. rewrite Hst at 1.
    rewrite (_install_library_skip _ _ _ _ _ _ v) by (try apply Hnone; set_solver).
    by rewrite (_install_library_skip _ _ _ _ _ _ v) by (try apply Hnone; set_solver).
Qed.

(** A vendor tree whose version directory is empty. *)
Definition bare_host : node := host_with (Dir {[ "11.2" := Dir ∅ ]}) {[ "cuda" := Dir ∅ ]}.

Lemma main_skips_each_library_of_the_platform_witness :
  main 8 "linux" ["vendor"] ["opt"; "cuda"] (State bare_host [])
    = Some (State bare_host
              [ "Skip installing cutensor (unavailable)";
                "Skip installing nccl (unavailable)";
                "Skip installing cudnn (unavailable)" ], Return tt)
  ∧ main 8 "win32" ["vendor"] ["opt"; "cuda"] (State bare_host [])
    = Some (State bare_host
              [ "Skip installing cutensor (unavailable)";
                "Skip installing cudnn (unavailable)" ], Return tt).
Proof.
  apply (main_skips_each_library_of_the_platform 8 ["vendor"] ["opt"; "cuda"]
           (State bare_host []) "11.2").
  - vm_compute; reflexivity.
  - intros name Hname. repeat (apply elem_of_cons in Hname as [-> | Hname]);
      [vm_compute; reflexivity.. | by apply elem_of_nil in Hname].
Defined.

(** X9.  On a platform that is neither [linux] nor [win32] the script raises
    [AssertionError] before it looks at the vendor tree: nothing is
    printed, nothing is written. *)
Theorem main_rejects_other_platforms
    fuel sys_platform (src_dir dst_dir : path) (st : state) :
  sys_platform ≠ "linux" → sys_platform ≠ "win32" →
  main fuel sys_platform src_dir dst_dir st = Some (st, Raise assertion_error).
Proof.
  intros H1 H2. unfold main. by rewrite !bool_decide_eq_false_2 by done.
Qed.

Lemma main_rejects_other_platforms_witness :
  main 8 "darwin" ["vendor"] ["opt"; "cuda"] (State cudnn_host [])
  = Some (State cudnn_host [], Raise assertion_error).
Proof.
  by apply (main_rejects_other_platforms 8 "darwin" ["vendor"] ["opt"; "cuda"]
              (State cudnn_host [])).
Defined.

(** X10.  A source root that is no directory is an error, not a skip: listing it
    raises ([FileNotFoundError] where nothing is there, [NotADirectoryError]
    for a regular file), and the call ends with that error, nothing printed
    and nothing written. *)
Theorem _install_library_source_root_is_no_directory
    fuel name (src_dir dst_dir : path) install_map (st : state) :
  from_option is_dir_node false (lookup src_dir (fs st)) = false →
  ∃ c, _install_library fuel name src_dir dst_dir install_map st
       = Some (st, Raise (Exn c (show src_dir)))
       ∧ c = match lookup src_dir (fs st) with
             | Some _ => NotADirectoryError
             | None => missing_class src_dir (fs st)
             end.
Proof.
  intros H. unfold _install_library, _child. rewrite !bind_run. unfold iterdir.
  destruct (lookup src_dir (fs st)) as [[|es]|]; simpl in *; try done; eauto.
Qed.

Lemma _install_library_source_root_is_no_directory_witness :
  ∃ c, _install_library 8 "cudnn" ["assets"] ["opt"; "cuda"] cudnn_map
         (State cudnn_host [])
       = Some (State cudnn_host [], Raise (Exn c "/assets"))
       ∧ c = FileNotFoundError.
Proof.
  destruct (_install_library_source_root_is_no_directory 8 "cudnn" ["assets"]
              ["opt"; "cuda"] cudnn_map (State cudnn_host [])) as (c & H1 & H2);
    [vm_compute; reflexivity|].
  exists c. split; [exact H1 | exact H2].
Defined.

End InstallSpec.

(** ** dist.py *)

Module DistEdges.
Import Dist DistSpec.

Section Edges.

Context (cfg : config) (w : world).

(** *** The helpers *)

(** X11.  An NCCL asset type that is neither [v1-deb] nor [v2-tar] is refused
    with [RuntimeError] once the extraction is logged: no command was run
    and nothing was moved. *)
Theorem extract_nccl_archive_unknown_type
    (n : nccl_config) (nccl_assets : option string) (dest_dir : string) (tr : trace) :
  nccl_type n ≠ "v1-deb" → nccl_type n ≠ "v2-tar" →
  extract_nccl_archive w n nccl_assets dest_dir tr
  = (tr ++ [Log ("Extracting NCCL assets from " +:+ str_opt nccl_assets +:+ " to "
                   +:+ dest_dir)],
     Raise (Exn RuntimeError ("unknown NCCL asset type: " +:+ nccl_type n))).
Proof.
  intros H1 H2. unfold extract_nccl_archive. rewrite log_then.
  by rewrite !bool_decide_eq_false_2 by done.
Qed.

(** X12.  The loop of [get_cudnn_record] stops at the first record of the CUDA
    version: it returns that record's cuDNN version and its asset for the
    platform, or raises [KeyError] when the record has no asset for the
    platform (later records of the same CUDA version are not looked at);
    with no record of the CUDA version it raises [RuntimeError]. *)
Theorem find_cudnn_record_takes_the_first_match
    (records : list cudnn_record) (cuda_version platform : string) (tr : trace) :
  (∀ pre r post,
     records = pre ++ r :: post →
     Forall (λ r', rec_cuda r' ≠ cuda_version) pre →
     rec_cuda r = cuda_version →
     find_cudnn_record records cuda_version platform tr
     = (tr, match rec_assets r !! platform with
            | Some asset => Return (rec_cudnn r, asset)
            | None => Raise (Exn KeyError (repr_str platform))
            end))
  ∧ (Forall (λ r', rec_cuda r' ≠ cuda_version) records →
     find_cudnn_record records cuda_version platform tr
     = (tr, Raise (Exn RuntimeError
                     ("CUDA " +:+ cuda_version
                        +:+ " not supported by install_library tool")))).
Proof.
  split.
  - intros pre r post -> Hpre Hr. induction Hpre as [|r' pre Hr' _ IH]; simpl.
    + rewrite bool_decide_eq_true_2 by done. rewrite run_bind. unfold getitem.
      by destruct (rec_assets r !! platform).
    + by rewrite bool_decide_eq_false_2.
  - intros Hall. induction Hall as [|r' l Hr' _ IH]; simpl; [done|].
    by rewrite bool_decide_eq_false_2.
Qed.

(** X13.  The libraries to bundle in a Windows wheel are looked up in order: with
    every library found the arguments are one [--cupy-wheel-lib] and the
    path found per library; the first library that is not found raises
    [RuntimeError] naming it.  No call is made on the host. *)
Theorem wheel_lib_args_stops_at_the_first_missing_library
    (libs : list string) (tr : trace) :
  (Forall (λ lib, is_Some (find_file_in_path w lib)) libs →
   wheel_lib_args w libs tr
   = (tr, Return (concat ((λ lib, ["--cupy-wheel-lib";
                                    default "" (find_file_in_path w lib)]) <$> libs))))
  ∧ (∀ pre lib post,
       libs = pre ++ lib :: post →
       Forall (λ lib, is_Some (find_file_in_path w lib)) pre →
       find_file_in_path w lib = None →
       wheel_lib_args w libs tr
       = (tr, Raise (Exn RuntimeError
                       ("Library " +:+ lib +:+ " could not be found in PATH")))).
Proof.
  split.
  - intros Hall. induction Hall as [|lib l [p Hp] _ IH]; simpl; [done|].
    rewrite Hp, run_bind, IH. done.
  - intros pre lib post -> Hpre Hlib.
    induction Hpre as [|lib' pre [p Hp] _ IH]; simpl.
    + by rewrite Hlib.
    + by rewrite Hp, run_bind, IH.
Qed.

(** X14.  The temporary directory of the cuDNN download is cleaned up however the
    download, the unpacking or the move ended: once it is created, the last
    call of [download_extract_cudnn_archive] is its clean-up.  When it
    cannot be created nothing else is attempted. *)
Theorem download_extract_cudnn_archive_cleans_up (url dest_dir : string) (tr : trace) :
  match respond w tr TemporaryDirectory with
  | Raise e =>
      download_extract_cudnn_archive w url dest_dir tr
      = (tr ++ [TemporaryDirectory], Raise e)
  | Return tmpdir =>
      ∃ calls,
        (download_extract_cudnn_archive w url dest_dir tr).1
        = tr ++ [TemporaryDirectory] ++ calls ++ [TemporaryDirectoryCleanup tmpdir]
  end.
Proof.
  unfold download_extract_cudnn_archive, with_temporary_directory.
  rewrite run_bind. simpl.
  destruct (respond w tr TemporaryDirectory) as [tmpdir|e]; [|done].
  rewrite try_finally_run, perform__run. simpl.
  match goal with
  | |- ∃ calls, (?body _).1 ++ _ = _ =>
      destruct (emits_extends body (tr ++ [TemporaryDirectory])) as [evs ->]
  end.
  - emits_go; done.
  - exists evs. by rewrite <-!(assoc_L (++)).
Qed.

(** *** [class Controller] *)

(** X15.  The Dockerfile template of the verifier image goes by the name of the
    base image: [rhel] or [centos] in it selects the RHEL template, also
    when [ubuntu] or [rocm] occur too; otherwise [ubuntu] or [rocm] selects
    the Debian template; a name with none of the four raises
    [RuntimeError] before anything is copied or built. *)
Theorem _create_verifier_linux_picks_the_template
    (image_tag base_image docker_ctx : string) (tr : trace) :
  let run := _create_verifier_linux cfg w image_tag base_image docker_ctx tr in
  let copy template :=
    Copy2 (docker_ctx +:+ "/Dockerfile." +:+ template) (docker_ctx +:+ "/Dockerfile") in
  (contains "rhel" base_image || contains "centos" base_image = true →
   ∃ rest, run.1 = tr ++ [Log "Using RHEL Dockerfile template"; copy "rhel"] ++ rest)
  ∧ (contains "rhel" base_image || contains "centos" base_image = false →
     contains "ubuntu" base_image || contains "rocm" base_image = true →
     ∃ rest, run.1 = tr ++ [Log "Using Debian Dockerfile template"; copy "debian"] ++ rest)
  ∧ (contains "rhel" base_image || contains "centos" base_image = false →
     contains "ubuntu" base_image || contains "rocm" base_image = false →
     run = (tr, Raise (Exn RuntimeError
                         ("cannot detect OS from image name: " +:+ base_image)))).
Proof.
  intros run copy. unfold run, _create_verifier_linux. split_and!.
  - intros ->. rewrite run_bind. simpl. rewrite run_bind, perform__run.
    destruct (respond w _ _) as [?|e]; simpl.
    + match goal with
      | |- ∃ rest, (?m ?t).1 = _ =>
          destruct (emits_extends m t) as [evs ->]; [emits_go; done|]
      end.
      exists evs. by rewrite <-!(assoc_L (++)).
    + exists []. by rewrite <-!(assoc_L (++)).
  - intros -> ->. rewrite run_bind. simpl. rewrite run_bind, perform__run.
    destruct (respond w _ _) as [?|e]; simpl.
    + match goal with
      | |- ∃ rest, (?m ?t).1 = _ =>
          destruct (emits_extends m t) as [evs ->]; [emits_go; done|]
      end.
      exists evs. by rewrite <-!(assoc_L (++)).
    + exists []. by rewrite <-!(assoc_L (++)).
  - by intros -> ->.
Qed.

(** X16.  A container is started through [nvidia-docker run] for the kind
    [cuda], through [docker run] with the GPU devices passed for the kind
    [rocm]; in both cases with the working directory mounted at [/work].
    Any other kind raises [AssertionError] once the start is logged, and no
    command is run. *)
Theorem _run_container_by_kind
    (image_tag kind workdir : string) (agent_args : list string) (tr : trace) :
  let announce :=
    Log ("Running docker container with image: " +:+ image_tag +:+ " (" +:+ kind
           +:+ ")") in
  let mount :=
    ["--rm"; "--volume"; workdir +:+ ":/work"; "--workdir"; "/work"; image_tag] in
  let started cmd :=
    _run_container w image_tag kind workdir agent_args tr
    = (tr ++ [announce; Log ("Running command: " +:+ str_tuple cmd); CheckCall cmd None],
       match respond w (tr ++ [announce; Log ("Running command: " +:+ str_tuple cmd)])
               (CheckCall cmd None) with
       | Return _ => Return tt
       | Raise e => Raise e
       end) in
  (kind = "cuda" → started (["nvidia-docker"; "run"] ++ mount ++ agent_args))
  ∧ (kind = "rocm" →
     started (["docker"; "run"; "--device=/dev/kfd"; "--device=/dev/dri";
               "--security-opt"; "seccomp=unconfined"; "--group-add"; "video";
               "--env"; "HCC_AMDGPU_TARGET"] ++ mount ++ agent_args))
  ∧ (kind ≠ "cuda" → kind ≠ "rocm" →
     _run_container w image_tag kind workdir agent_args tr
     = (tr ++ [announce], Raise (Exn AssertionError ""))).
Proof.
  intros announce mount started. unfold started, _run_container. split_and!.
  - intros ->. rewrite log_then. rewrite bool_decide_eq_true_2 by done.
    rewrite run_bind. unfold ret at 1. unfold run_command.
    rewrite log_then, perform__run. by rewrite <-!(assoc_L (++)).
  - intros ->. rewrite log_then. rewrite bool_decide_eq_false_2 by done.
    rewrite bool_decide_eq_true_2 by done.
    rewrite run_bind. unfold ret at 1. unfold run_command.
    rewrite log_then, perform__run. by rewrite <-!(assoc_L (++)).
  - intros H1 H2. rewrite log_then. by rewrite !bool_decide_eq_false_2 by done.
Qed.

Lemma build_linux_config_Raise target nccl_assets cuda_version python_version source
    output version tr tr' e :
  get_version_from_source_tree w source = Return version →
  build_linux_config cfg w target cuda_version python_version source version tr
    = (tr', Raise e) →
  build_linux cfg w target nccl_assets cuda_version python_version source output tr
  = (tr', Raise e).
Proof.
  intros Hv Hc. unfold build_linux, build_linux_setup.
  rewrite run_bind, run_bind. unfold lift at 1. rewrite Hv. by rewrite run_bind, Hc.
Qed.

(** X17.  [build_linux] reads the version of the source tree first, and an error
    of that is its outcome.  It then raises, before any call on the host
    apart from a log line, for a target that is neither [wheel-linux] nor
    [sdist] ([RuntimeError]), for [wheel-linux] without a CUDA version and
    for [sdist] with one ([AssertionError]), and for [wheel-linux] with a
    CUDA version that is not in the table ([KeyError], once the start is
    logged).  No working directory is created. *)
Theorem build_linux_rejects_bad_arguments
    (target : string) (nccl_assets cuda_version : option string)
    (python_version source output : string) (tr : trace) :
  let run := build_linux cfg w target nccl_assets cuda_version python_version
               source output tr in
  (∀ e, get_version_from_source_tree w source = Raise e → run = (tr, Raise e))
  ∧ (∀ version,
       get_version_from_source_tree w source = Return version →
       (target ≠ "wheel-linux" → target ≠ "sdist" →
        run = (tr, Raise (Exn RuntimeError "unknown target")))
       ∧ (target = "wheel-linux" → cuda_version = None →
          run = (tr, Raise (Exn AssertionError "")))
       ∧ (target = "sdist" → cuda_version ≠ None →
          run = (tr, Raise (Exn AssertionError "")))
       ∧ (∀ v, target = "wheel-linux" → cuda_version = Some v →
               WHEEL_LINUX_CONFIGS cfg !! v = None →
               run = (tr ++ [Log ("Starting wheel-linux build from " +:+ source
                                    +:+ " (version " +:+ version +:+ ", for CUDA "
                                    +:+ v +:+ " + Python " +:+ python_version +:+ ")")],
                      Raise (Exn KeyError (repr_str v))))).
Proof.
  intros run. unfold run. split.
  - intros e He. unfold build_linux, build_linux_setup.
    rewrite run_bind, run_bind. unfold lift at 1. by rewrite He.
  - intros version Hv. split_and!.
    + intros H1 H2. apply (build_linux_config_Raise _ _ _ _ _ _ version); [done|].
      unfold build_linux_config. by rewrite !bool_decide_eq_false_2 by done.
    + intros -> ->. by apply (build_linux_config_Raise _ _ _ _ _ _ version).
    + intros -> Hc. apply (build_linux_config_Raise _ _ _ _ _ _ version); [done|].
      by destruct cuda_version.
    + intros v -> -> Hnone. apply (build_linux_config_Raise _ _ _ _ _ _ version); [done|].
      unfold build_linux_config. rewrite bool_decide_eq_true_2 by done.
      rewrite log_then, run_bind. unfold getitem. by rewrite Hnone.
Qed.

(** X18.  [verify_linux] raises before any call on the host for a target that is
    neither [sdist] nor [wheel-linux] ([RuntimeError]), for [sdist] with a
    CUDA version or with preloads configured, for [wheel-linux] without a
    CUDA version ([AssertionError]), and for [wheel-linux] with a CUDA
    version that is not in the table ([KeyError]).  No container is run. *)
Theorem verify_linux_rejects_bad_arguments
    (target : string) (nccl_assets cuda_version : option string)
    (python_version dist : string) (tests : list string) (tr : trace) :
  let run := verify_linux cfg w target nccl_assets cuda_version python_version
               dist tests tr in
  (target ≠ "sdist" → target ≠ "wheel-linux" →
   run = (tr, Raise (Exn RuntimeError "unknown target")))
  ∧ (target = "sdist" → cuda_version ≠ None →
     run = (tr, Raise (Exn AssertionError "")))
  ∧ (target = "sdist" → cuda_version = None →
     sc_verify_preloads (SDIST_CONFIG cfg) ≠ [] →
     run = (tr, Raise (Exn AssertionError "")))
  ∧ (target = "wheel-linux" → cuda_version = None →
     run = (tr, Raise (Exn AssertionError "")))
  ∧ (∀ v, target = "wheel-linux" → cuda_version = Some v →
          WHEEL_LINUX_CONFIGS cfg !! v = None →
          run = (tr, Raise (Exn KeyError (repr_str v)))).
Proof.
  intros run. unfold run, verify_linux, verify_linux_config. split_and!.
  - intros H1 H2. rewrite run_bind. by rewrite !bool_decide_eq_false_2 by done.
  - intros -> Hc. rewrite run_bind. simpl. by destruct cuda_version.
  - intros -> -> Hp. rewrite run_bind. simpl.
    rewrite bool_decide_eq_false_2; [done|].
    by destruct (sc_verify_preloads (SDIST_CONFIG cfg)).
  - intros -> ->. by rewrite run_bind.
  - intros v -> -> Hnone. rewrite run_bind. simpl. rewrite run_bind. unfold getitem.
    by rewrite Hnone.
Qed.

(** X19.  Once the check of the Windows host has passed, [build_windows] and
    [verify_windows] refuse a target other than [wheel-win] with
    [ValueError], and then NCCL assets with [RuntimeError]; in both cases
    the run is the one of the check: nothing else was done, and no working
    directory was created. *)
Theorem windows_pipelines_reject_target_then_nccl
    (target : string) (nccl_assets cuda_version : option string)
    (python_version : string) (tr tr' : trace) :
  _check_windows_environment cfg w cuda_version python_version tr = (tr', Return tt) →
  (target ≠ "wheel-win" →
   (∀ source output,
      build_windows cfg w target nccl_assets cuda_version python_version source
        output tr = (tr', Raise (Exn ValueError "unknown target")))
   ∧ (∀ dist tests,
        verify_windows cfg w target nccl_assets cuda_version python_version dist
          tests tr = (tr', Raise (Exn ValueError "unknown target"))))
  ∧ (target = "wheel-win" → nccl_assets ≠ None →
     (∀ source output,
        build_windows cfg w target nccl_assets cuda_version python_version source
          output tr = (tr', Raise (Exn RuntimeError "NCCL not supported on Windows")))
     ∧ (∀ dist tests,
          verify_windows cfg w target nccl_assets cuda_version python_version dist
            tests tr = (tr', Raise (Exn RuntimeError "NCCL not supported on Windows")))).
Proof.
  intros Hcheck.
  assert (∀ {A} (k : unit → M A),
            (_check_windows_environment cfg w cuda_version python_version ≫= k) tr
            = k tt tr') as Hthen.
  { intros A k. by rewrite run_bind, Hcheck. }
  split.
  - intros Ht. split; intros.
    + unfold build_windows, build_windows_setup. rewrite run_bind, Hthen.
      rewrite run_bind. by rewrite bool_decide_eq_true_2.
    + unfold verify_windows, verify_windows_setup. rewrite run_bind, Hthen.
      rewrite run_bind. by rewrite bool_decide_eq_true_2.
  - intros -> Hn. split; intros.
    + unfold build_windows, build_windows_setup. rewrite run_bind, Hthen.
      rewrite run_bind. rewrite bool_decide_eq_false_2 by (by intros ?).
      unfold ret at 1. rewrite run_bind. by rewrite bool_decide_eq_true_2.
    + unfold verify_windows, verify_windows_setup. rewrite run_bind, Hthen.
      rewrite run_bind. rewrite bool_decide_eq_false_2 by (by intros ?).
      unfold ret at 1. rewrite run_bind. by rewrite bool_decide_eq_true_2.
Qed.

(** *** Before the working directory *)

(** A log line, or the query of the cuDNN table. *)
Definition logs_or_queries (c : call) : bool :=
  match c with Log _ | CheckOutput _ => true | _ => false end.

Definition only_logs (c : call) : bool :=
  match c with Log _ => true | _ => false end.

Definition no_call (c : call) : bool := false.

(** X20.  Before they create their working directory the pipelines write
    nothing: the set-up of [build_linux] only logs and, for a CUDA wheel,
    queries the cuDNN table; the set-ups of [build_windows] and
    [verify_windows] only log; the one of [verify_linux] makes no call at
    all. *)
Theorem set_up_only_logs_and_queries
    (target : string) (nccl_assets cuda_version : option string)
    (python_version source dist : string) :
  emits logs_or_queries (build_linux_setup cfg w target cuda_version python_version source)
  ∧ emits only_logs
      (build_windows_setup cfg w target nccl_assets cuda_version python_version source)
  ∧ emits only_logs
      (verify_windows_setup cfg w target nccl_assets cuda_version python_version dist)
  ∧ emits no_call (verify_linux_config cfg target cuda_version).
Proof.
  split_and!.
  - unfold build_linux_setup, build_linux_config, build_linux_agent_args.
    repeat first [ apply find_cudnn_record_emits | emits_step ]; done.
  - unfold build_windows_setup.
    repeat first [ apply _check_windows_environment_emits; done
                 | apply wheel_lib_args_emits | emits_step ]; done.
  - unfold verify_windows_setup.
    repeat first [ apply _check_windows_environment_emits; done | emits_step ]; done.
  - unfold verify_linux_config. emits_go.
Qed.

(** *** Source distributions *)

(** The calls of a source build: none of NCCL or cuDNN staging, and no
    metadata file. *)
Definition sdist_call (c : call) : bool :=
  no_staging c && match c with JsonDump _ _ => false | _ => true end.

Lemma build_linux_config_sdist cuda_version python_version source version tr tr' b :
  build_linux_config cfg w "sdist" cuda_version python_version source version tr
    = (tr', Return b) →
  lb_nccl_config b = None ∧ lb_cudnn b = None.
Proof.
  unfold build_linux_config. simpl. destruct cuda_version; [done|].
  rewrite log_then. by intros [= _ <-].
Qed.

(** X21.  A build of the target [sdist] stages neither NCCL nor cuDNN (no query
    of the cuDNN table, no [dpkg], [tar] or [curl], nothing unpacked or
    moved) and writes no wheel metadata, however it ends. *)
Theorem build_linux_sdist_stages_nothing_and_writes_no_metadata
    (nccl_assets cuda_version : option string) (python_version source output : string) :
  emits sdist_call
    (build_linux cfg w "sdist" nccl_assets cuda_version python_version source output).
Proof.
  unfold build_linux.
  apply (emits_bind_post _ (λ s, lb_nccl_config s.1 = None ∧ lb_cudnn s.1 = None)).
  - unfold build_linux_setup, build_linux_config, build_linux_agent_args. simpl.
    destruct cuda_version; emits_go; done.
  - intros tr tr' [b agent_args]. unfold build_linux_setup. rewrite run_bind. simpl.
    destruct (get_version_from_source_tree w source) as [version|]; [|done].
    rewrite run_bind.
    destruct (build_linux_config cfg w "sdist" cuda_version python_version source
                version tr) as [tr1 [b'|e]] eqn:Hb; [|done].
    intros (? & ? & _ & [= _ <- _])%run_bind_Return_inv.
    by eapply build_linux_config_sdist.
  - intros [b agent_args] [Hn Hc]. simpl in *.
    apply emits_bind; [by apply emits_perform | intros workdir].
    apply emits_try_finally.
    + unfold build_linux_try. rewrite Hn, Hc. simpl.
      repeat first [ apply _run_container_emits; [done..] | emits_step ]; done.
    + unfold remove_workdir. emits_go; done.
Qed.

(** *** The Windows verification *)

(** The one command of the Windows verification. *)
Definition windows_verifier_command (dist : string) : list string :=
  [sys_executable w; os_getcwd w +:+ "/verifier/agent.py"; "--dist"; dist; "tests"].

(** The calls the Windows verification may make once its working
    directory [workdir] is there: no staging call, and as a command only
    the verifier agent, run in [workdir]. *)
Definition windows_verify_call (dist workdir : string) (c : call) : bool :=
  match c with
  | CheckCall cmd cwd =>
      bool_decide (cmd = windows_verifier_command dist ∧ cwd = Some workdir)
  | CheckOutput _ | Move _ _ | UnpackArchive _ _ | WriteText _ _ | JsonDump _ _
  | TemporaryDirectory | TemporaryDirectoryCleanup _ => false
  | _ => true
  end.

(** X22.  The Windows verification runs no container and stages nothing.
    Up to the creation of its working directory it only logs, and when
    that set-up raises this is how it ends.  After it, the one command it
    can run is the verifier agent, by the running interpreter, with the
    directory [mkdtemp] returned as its working directory, and it is handed
    the path of the distribution as it was given on the command line. *)
Theorem verify_windows_runs_the_agent_only
    (target : string) (nccl_assets cuda_version : option string)
    (python_version dist : string) (tests : list string) (tr : trace) :
  let setup :=
    verify_windows_setup cfg w target nccl_assets cuda_version python_version dist tr in
  let run :=
    verify_windows cfg w target nccl_assets cuda_version python_version dist tests tr in
  (∃ notes, setup.1 = tr ++ notes ∧ Forall (λ c, only_logs c = true) notes)
  ∧ match setup.2 with
    | Raise e => run = (setup.1, Raise e)
    | Return _ =>
        match respond w setup.1 (Mkdtemp "cupy-dist-") with
        | Raise e => run = (setup.1 ++ [Mkdtemp "cupy-dist-"], Raise e)
        | Return workdir =>
            ∃ calls,
              run.1 = setup.1 ++ [Mkdtemp "cupy-dist-"] ++ calls
              ∧ Forall (λ c, windows_verify_call dist workdir c = true) calls
        end
    end.
Proof.
  intros setup run. split.
  - apply emits_run. unfold verify_windows_setup.
    repeat first [ apply _check_windows_environment_emits; done | emits_step ]; done.
  - unfold run, verify_windows. rewrite run_bind. fold setup.
    destruct setup as [tr1 [agent_args|e]] eqn:Hsetup; simpl; [|done].
    assert (agent_args = ["--dist"; dist; "tests"]) as ->.
    { unfold setup, verify_windows_setup in Hsetup.
      apply run_bind_Return_inv in Hsetup as (? & ? & _ & H).
      apply run_bind_Return_inv in H as (? & ? & _ & H).
      apply run_bind_Return_inv in H as (? & ? & _ & H).
      rewrite log_then in H. by injection H as _ <-. }
    rewrite run_bind. simpl.
    destruct (respond w tr1 (Mkdtemp "cupy-dist-")) as [workdir|e]; [|done].
    assert (emits (windows_verify_call dist workdir)
              (try_finally (verify_windows_try w dist tests ["--dist"; dist; "tests"]
                              workdir)
                 (remove_workdir w workdir))) as Hemits.
    { apply emits_try_finally.
      - unfold verify_windows_try. emits_go; try done.
        unfold windows_verify_call, windows_verifier_command. simpl.
        by rewrite bool_decide_eq_true_2.
      - unfold remove_workdir. emits_go; done. }
    destruct (emits_run _ _ (tr1 ++ [Mkdtemp "cupy-dist-"]) Hemits)
      as (calls & Hcalls & Hall).
    exists calls. by rewrite Hcalls, <-(assoc_L (++)).
Qed.

(** *** The command line *)

(** X23.  The target [wheel-win] selects the Windows pipelines whatever the host:
    asked to build or to verify it on a host that is not Windows, [main]
    raises the [RuntimeError] of the host check and does nothing else. *)
Theorem main_wheel_win_needs_a_windows_host (a : args) (tr : trace) :
  String.prefix "win32" (sys_platform w) = false →
  args_target a = "wheel-win" →
  args_action a = "build" ∨ args_action a = "verify" →
  main cfg w a tr
  = (tr, Raise (Exn RuntimeError
                  ("you are on non-Windows system: " +:+ sys_platform w))).
Proof.
  intros Hwin Ht Ha. unfold main. rewrite Ht. simpl.
  assert (∀ {A} (k : unit → M A),
            (_check_windows_environment cfg w (args_cuda a) (args_python a) ≫= k) tr
            = (tr, Raise (Exn RuntimeError
                            ("you are on non-Windows system: " +:+ sys_platform w))))
    as Hcheck.
  { intros A k.
    by rewrite run_bind, (_check_windows_environment_not_windows cfg w). }
  destruct Ha as [-> | ->]; simpl.
  - unfold build_windows, build_windows_setup. by rewrite run_bind, Hcheck.
  - unfold verify_windows, verify_windows_setup. by rewrite run_bind, Hcheck.
Qed.

(** *** Installing cuDNN on Windows *)

Definition installs (c : call) : bool :=
  match c with Log _ | Mkdir _ | Copy2 _ _ => true | _ => false end.

(** X24.  Installing the extracted cuDNN into [$CUDA_PATH] only creates
    directories and copies files (each copy logged): nothing is moved,
    removed or run, however it ends. *)
Theorem install_cudnn_windows_only_creates_and_copies (cudnn_workdir cuda_path : string) :
  emits installs (install_cudnn_windows w cudnn_workdir cuda_path).
Proof.
  unfold install_cudnn_windows.
  repeat first
    [ match goal with |- emits _ (let '(_, _) := ?x in _) => destruct x end
    | emits_step ]; done.
Qed.

(** *** The metadata of a CUDA wheel *)

(** The metadata [{'cuda': ..., 'cudnn': {'version': ..., 'filename': ...}}]. *)
Definition names_cudnn (cuda_version : string) (obj : json) : bool :=
  match obj with
  | JObj [(k1, JStr v); (k2, JObj [(k3, JStr _); (k4, JStr _)])] =>
      bool_decide (k1 = "cuda" ∧ v = cuda_version ∧ k2 = "cudnn" ∧ k3 = "version"
                   ∧ k4 = "filename")
  | _ => false
  end.

Definition cuda_wheel_call (cuda_version : string) (c : call) : bool :=
  match c with JsonDump _ obj => names_cudnn cuda_version obj | _ => true end.

Lemma build_linux_config_cuda cuda_version c python_version source version tr tr' b :
  WHEEL_LINUX_CONFIGS cfg !! cuda_version = Some c →
  lc_kind c = "cuda" →
  build_linux_config cfg w "wheel-linux" (Some cuda_version) python_version source
    version tr = (tr', Return b) →
  is_Some (lb_cudnn b).
Proof.
  intros Hc Hkind. unfold build_linux_config. simpl. rewrite log_then, run_bind.
  unfold getitem. rewrite Hc. simpl. rewrite Hkind. simpl.
  intros (tr1 & accel & Haccel & [= _ <-])%run_bind_Return_inv. simpl.
  apply run_bind_Return_inv in Haccel as (? & ? & _ & Haccel).
  apply run_bind_Return_inv in Haccel as (? & cudnn & _ & [= _ <-]). by eexists.
Qed.

(** X25.  A Linux wheel of the kind [cuda] and a Windows wheel carry the cuDNN
    they were built with: whenever the build writes the metadata file, the
    object written has the key ['cuda'], set to the CUDA version asked for,
    and the key ['cudnn'] with a version and a file name. *)
Theorem cuda_wheel_metadata_names_cudnn
    (nccl_assets : option string) (cuda_version python_version source output : string) :
  (∀ c, WHEEL_LINUX_CONFIGS cfg !! cuda_version = Some c → lc_kind c = "cuda" →
        emits (cuda_wheel_call cuda_version)
          (build_linux cfg w "wheel-linux" nccl_assets (Some cuda_version)
             python_version source output))
  ∧ emits (cuda_wheel_call cuda_version)
      (build_windows cfg w "wheel-win" nccl_assets (Some cuda_version) python_version
         source output).
Proof.
  split.
  - intros c Hc Hkind. unfold build_linux.
    apply (emits_bind_post _ (λ s, is_Some (lb_cudnn s.1))).
    + unfold build_linux_setup, build_linux_config, build_linux_agent_args.
      repeat first [ apply find_cudnn_record_emits | emits_step ]; done.
    + intros tr tr' [b agent_args]. unfold build_linux_setup. rewrite run_bind. simpl.
      destruct (get_version_from_source_tree w source) as [version|]; [|done].
      rewrite run_bind.
      destruct (build_linux_config cfg w "wheel-linux" (Some cuda_version)
                  python_version source version tr) as [tr1 [b'|e]] eqn:Hb; [|done].
      intros (? & ? & _ & [= _ <- _])%run_bind_Return_inv.
      by eapply build_linux_config_cuda.
    + intros [b agent_args] [[cudnn_version cudnn_assets] Hcudnn]. simpl in *.
      apply emits_bind; [by apply emits_perform | intros workdir].
      apply emits_try_finally.
      * unfold build_linux_try. rewrite Hcudnn. simpl.
        repeat first [ apply _run_container_emits; [done..] | emits_step ]; try done.
        simpl. by rewrite bool_decide_eq_true_2.
      * unfold remove_workdir. emits_go; done.
  - unfold build_windows.
    apply emits_bind.
    + unfold build_windows_setup.
      repeat first [ apply _check_windows_environment_emits; done
                   | apply wheel_lib_args_emits | emits_step ]; done.
    + intros b. apply emits_bind; [by apply emits_perform | intros workdir].
      apply emits_try_finally.
      * unfold build_windows_try.
        repeat first
          [ apply find_cudnn_record_emits
          | match goal with |- emits _ (let '(_, _) := ?x in _) => destruct x end
          | emits_step ]; try done.
        simpl. by rewrite bool_decide_eq_true_2.
      * unfold build_windows_finally. emits_go; done.
Qed.

(** *** The wheel that is handed out *)

Lemma build_linux_config_wheel cuda_version c python_version source version tr tr' b :
  WHEEL_LINUX_CONFIGS cfg !! cuda_version = Some c →
  build_linux_config cfg w "wheel-linux" (Some cuda_version) python_version source
    version tr = (tr', Return b) →
  lb_asset_name b = wheel_name cfg (lc_name c) version python_version "linux_x86_64"
  ∧ lb_asset_dest_name b
    = wheel_name cfg (lc_name c) version python_version "manylinux1_x86_64".
Proof.
  intros Hc. unfold build_linux_config. simpl. rewrite log_then, run_bind.
  unfold getitem. rewrite Hc. simpl.
  by intros (tr1 & accel & _ & [= _ <-])%run_bind_Return_inv.
Qed.

(** The last call of a [try] block of [build_linux] that returned is the
    copy of the asset to the output directory. *)
Lemma build_linux_try_Return target nccl_assets cuda_version source output b agent_args
    workdir tr tr' :
  build_linux_try cfg w target nccl_assets cuda_version source output b agent_args
    workdir tr = (tr', Return tt) →
  ∃ pre, tr' = pre ++ [Copy2 (workdir +:+ "/cupy/dist/" +:+ lb_asset_name b)
                             (output +:+ "/" +:+ lb_asset_dest_name b)].
Proof.
  unfold build_linux_try. intros H.
  repeat lazymatch type of H with
         | mbind _ _ _ = _ => apply run_bind_Return_inv in H as (? & ? & _ & H)
         end.
  rewrite perform__run in H. destruct (respond w _ _); [|done].
  injection H as <-. by eexists.
Qed.

(** X26.  A Linux wheel build that returned has handed out the wheel under its
    [manylinux1] name: the wheel the container built as [linux_x86_64] was
    copied to the output directory as [manylinux1_x86_64], after which the
    working directory was removed, and that was the last the build did. *)
Theorem build_linux_hands_out_a_manylinux1_wheel
    (nccl_assets : option string) (cuda_version : string) (c : linux_config)
    (python_version source output version : string) (tr tr' : trace) :
  WHEEL_LINUX_CONFIGS cfg !! cuda_version = Some c →
  get_version_from_source_tree w source = Return version →
  build_linux cfg w "wheel-linux" nccl_assets (Some cuda_version) python_version
    source output tr = (tr', Return tt) →
  ∃ pre workdir,
    tr' = pre ++ [ Copy2 (workdir +:+ "/cupy/dist/"
                            +:+ wheel_name cfg (lc_name c) version python_version
                                  "linux_x86_64")
                         (output +:+ "/"
                            +:+ wheel_name cfg (lc_name c) version python_version
                                  "manylinux1_x86_64");
                   removing workdir; Rmtree workdir ].
Proof.
  intros Hc Hv. unfold build_linux.
  intros (tr1 & [b agent_args] & Hsetup & Hrun)%run_bind_Return_inv.
  assert (lb_asset_name b
            = wheel_name cfg (lc_name c) version python_version "linux_x86_64"
          ∧ lb_asset_dest_name b
            = wheel_name cfg (lc_name c) version python_version "manylinux1_x86_64")
    as [Hname Hdest].
  { unfold build_linux_setup in Hsetup. rewrite run_bind in Hsetup.
    unfold lift at 1 in Hsetup. rewrite Hv in Hsetup.
    apply run_bind_Return_inv in Hsetup as (tr0 & b' & Hb & Hargs).
    apply run_bind_Return_inv in Hargs as (? & ? & _ & [= _ <- _]).
    by eapply build_linux_config_wheel. }
  apply run_bind_Return_inv in Hrun as (tr2 & workdir & _ & Hrun).
  rewrite remove_workdir_run in Hrun. simpl in Hrun.
  destruct (build_linux_try cfg w "wheel-linux" nccl_assets (Some cuda_version) source
              output b agent_args workdir tr2) as [tr3 r] eqn:Htry.
  simpl in Hrun. destruct (respond w _ _); [|done]. injection Hrun as <- ->.
  apply build_linux_try_Return in Htry as [pre ->].
  exists pre, workdir. by rewrite Hname, Hdest, <-(assoc_L (++)).
Qed.

End Edges.

End DistEdges.

(** ** dist.py: the further properties at concrete inputs *)

Module DistEdgesExamples.
Import Dist DistSpec DistEdges DistExamples.

Lemma extract_nccl_archive_unknown_type_witness :
  extract_nccl_archive linux_host
    {| nccl_type := "v3-zip"; nccl_files := ["nccl.zip"] |} (Some "/assets")
    "/tmp/cupy-dist-0/builder/nccl" []
  = ([Log "Extracting NCCL assets from /assets to /tmp/cupy-dist-0/builder/nccl"],
     Raise (Exn RuntimeError "unknown NCCL asset type: v3-zip")).
Proof.
  by apply (extract_nccl_archive_unknown_type linux_host
              {| nccl_type := "v3-zip"; nccl_files := ["nccl.zip"] |}).
Defined.

(** A cuDNN table with two records for CUDA 11.2, the first of them for
    Linux only. *)
Definition linux_asset : cudnn_asset :=
  {| asset_url := "https://example.org/cudnn-linux.tgz";
     asset_filename := "libcudnn.so.8.1.1" |}.
Definition windows_asset : cudnn_asset :=
  {| asset_url := "https://example.org/cudnn-win.zip";
     asset_filename := "cudnn64_8.dll" |}.

Definition record_110 : cudnn_record :=
  {| rec_cuda := "11.0"; rec_cudnn := "8.0.5";
     rec_assets := {[ "Linux" := linux_asset; "Windows" := windows_asset ]} |}.
Definition record_112_linux : cudnn_record :=
  {| rec_cuda := "11.2"; rec_cudnn := "8.1.1";
     rec_assets := {[ "Linux" := linux_asset ]} |}.
Definition record_112 : cudnn_record :=
  {| rec_cuda := "11.2"; rec_cudnn := "8.1.0";
     rec_assets := {[ "Linux" := linux_asset; "Windows" := windows_asset ]} |}.

Definition cudnn_table : list cudnn_record :=
  [record_110; record_112_linux; record_112].

Lemma find_cudnn_record_takes_the_first_match_witness :
  find_cudnn_record cudnn_table "11.2" "Linux" [] = ([], Return ("8.1.1", linux_asset))
  ∧ find_cudnn_record cudnn_table "11.2" "Windows" []
    = ([], Raise (Exn KeyError "'Windows'"))
  ∧ find_cudnn_record cudnn_table "10.2" "Linux" []
    = ([], Raise (Exn RuntimeError "CUDA 10.2 not supported by install_library tool")).
Proof.
  split_and!.
  - destruct (find_cudnn_record_takes_the_first_match cudnn_table "11.2" "Linux" [])
      as [H _].
    rewrite (H [record_110] record_112_linux [record_112]);
      [vm_compute; reflexivity | reflexivity | by repeat constructor | reflexivity].
  - destruct (find_cudnn_record_takes_the_first_match cudnn_table "11.2" "Windows" [])
      as [H _].
    rewrite (H [record_110] record_112_linux [record_112]);
      [vm_compute; reflexivity | reflexivity | by repeat constructor | reflexivity].
  - destruct (find_cudnn_record_takes_the_first_match cudnn_table "10.2" "Linux" [])
      as [_ H].
    apply H. by repeat constructor.
Defined.

(** A Windows host whose [PATH] holds the CUDA runtime library and not the
    cuDNN one. *)
Definition windows_host_without_cudnn : world :=
  {| sys_platform := "win32";
     sys_version_info := (3, 9, 0);
     sys_executable := "python";
     os_getuid := 0;
     os_getgid := 0;
     os_getcwd := "C:/tools";
     os_environ := {[ "CUDA_PATH" := "C:/CUDA/v11.2" ]};
     get_version_from_source_tree := λ _, Return "9.0.0";
     get_system_cuda_version := λ _, Return (Some 11020);
     find_file_in_path := λ lib,
       if bool_decide (lib = "cudart64_110.dll") then Some "C:/CUDA/v11.2/bin/cudart64_110.dll"
       else None;
     json_loads := λ _, Return cudnn_table;
     respond := respond_ok;
     os_walk := λ _ _, [];
     path_exists := λ _ _, true |}.

Lemma wheel_lib_args_stops_at_the_first_missing_library_witness :
  wheel_lib_args windows_host_without_cudnn ["cudart64_110.dll"] []
    = ([], Return ["--cupy-wheel-lib"; "C:/CUDA/v11.2/bin/cudart64_110.dll"])
  ∧ wheel_lib_args windows_host_without_cudnn
      ["cudart64_110.dll"; "cudnn64_8.dll"; "nvrtc64_112_0.dll"] []
    = ([], Raise (Exn RuntimeError "Library cudnn64_8.dll could not be found in PATH")).
Proof.
  split.
  - destruct (wheel_lib_args_stops_at_the_first_missing_library
                windows_host_without_cudnn ["cudart64_110.dll"] []) as [H _].
    apply H. repeat constructor. by eexists.
  - destruct (wheel_lib_args_stops_at_the_first_missing_library
                windows_host_without_cudnn
                ["cudart64_110.dll"; "cudnn64_8.dll"; "nvrtc64_112_0.dll"] [])
      as [_ H].
    apply (H ["cudart64_110.dll"] "cudnn64_8.dll" ["nvrtc64_112_0.dll"]);
      [reflexivity | repeat constructor; by eexists | reflexivity].
Defined.

Lemma download_extract_cudnn_archive_cleans_up_witness :
  ∃ calls,
    (download_extract_cudnn_archive linux_host_no_removal
       "https://example.org/cudnn-linux.tgz" "/tmp/cupy-dist-0/builder/cudnn" []).1
    = [] ++ [TemporaryDirectory] ++ calls ++ [TemporaryDirectoryCleanup "/tmp/tmp0"].
Proof.
  exact (download_extract_cudnn_archive_cleans_up linux_host_no_removal
           "https://example.org/cudnn-linux.tgz" "/tmp/cupy-dist-0/builder/cudnn" []).
Defined.

(** The ROCm image on CentOS is verified with the RHEL template. *)
Lemma _create_verifier_linux_picks_the_template_witness :
  (∃ rest,
     (_create_verifier_linux example_config linux_host "cupy-verifier" "rocm/dev-centos-7:4.0"
        "/tmp/cupy-dist-0/verifier" []).1
     = [] ++ [ Log "Using RHEL Dockerfile template";
               Copy2 "/tmp/cupy-dist-0/verifier/Dockerfile.rhel"
                 "/tmp/cupy-dist-0/verifier/Dockerfile" ] ++ rest)
  ∧ _create_verifier_linux example_config linux_host "cupy-verifier" "opensuse/leap:15"
      "/tmp/cupy-dist-0/verifier" []
    = ([], Raise (Exn RuntimeError "cannot detect OS from image name: opensuse/leap:15")).
Proof.
  split.
  - destruct (_create_verifier_linux_picks_the_template example_config linux_host
                "cupy-verifier" "rocm/dev-centos-7:4.0" "/tmp/cupy-dist-0/verifier" [])
      as (H & _ & _).
    apply H. vm_compute; reflexivity.
  - destruct (_create_verifier_linux_picks_the_template example_config linux_host
                "cupy-verifier" "opensuse/leap:15" "/tmp/cupy-dist-0/verifier" [])
      as (_ & _ & H).
    apply H; vm_compute; reflexivity.
Defined.

Lemma _run_container_by_kind_witness :
  _run_container linux_host "cupy-builder-sdist" "opencl" "/tmp/cupy-dist-0"
    ["--action"; "sdist"] []
  = ([Log "Running docker container with image: cupy-builder-sdist (opencl)"],
     Raise (Exn AssertionError "")).
Proof.
  destruct (_run_container_by_kind linux_host "cupy-builder-sdist" "opencl"
              "/tmp/cupy-dist-0" ["--action"; "sdist"] []) as (_ & _ & H).
  by apply H.
Defined.

Lemma build_linux_rejects_bad_arguments_witness :
  build_linux example_config linux_host "wheel-osx" None None "3.9.0" "/src/cupy"
    "/out" [] = ([], Raise (Exn RuntimeError "unknown target"))
  ∧ build_linux example_config linux_host "sdist" None (Some "11.2") "3.9.0"
      "/src/cupy" "/out" [] = ([], Raise (Exn AssertionError ""))
  ∧ build_linux example_config linux_host "wheel-linux" None (Some "9.9") "3.9.0"
      "/src/cupy" "/out" []
    = ([Log "Starting wheel-linux build from /src/cupy (version 9.0.0, for CUDA 9.9 + Python 3.9.0)"],
       Raise (Exn KeyError "'9.9'")).
Proof.
  split_and!.
  - destruct (build_linux_rejects_bad_arguments example_config linux_host "wheel-osx"
                None None "3.9.0" "/src/cupy" "/out" []) as [_ H].
    destruct (H "9.0.0" eq_refl) as (H1 & _). by apply H1.
  - destruct (build_linux_rejects_bad_arguments example_config linux_host "sdist"
                None (Some "11.2") "3.9.0" "/src/cupy" "/out" []) as [_ H].
    destruct (H "9.0.0" eq_refl) as (_ & _ & H3 & _). by apply H3.
  - destruct (build_linux_rejects_bad_arguments example_config linux_host "wheel-linux"
                None (Some "9.9") "3.9.0" "/src/cupy" "/out" []) as [_ H].
    destruct (H "9.0.0" eq_refl) as (_ & _ & _ & H4).
    apply (H4 "9.9"); [reflexivity | reflexivity | vm_compute; reflexivity].
Defined.

Lemma verify_linux_rejects_bad_arguments_witness :
  verify_linux example_config linux_host "wheel-win" None (Some "11.2") "3.9.0"
    "/out/cupy.whl" ["/src/cupy/tests"] []
    = ([], Raise (Exn RuntimeError "unknown target"))
  ∧ verify_linux example_config linux_host "wheel-linux" None (Some "9.9") "3.9.0"
      "/out/cupy.whl" ["/src/cupy/tests"] [] = ([], Raise (Exn KeyError "'9.9'")).
Proof.
  split.
  - destruct (verify_linux_rejects_bad_arguments example_config linux_host "wheel-win"
                None (Some "11.2") "3.9.0" "/out/cupy.whl" ["/src/cupy/tests"] [])
      as (H & _).
    by apply H.
  - destruct (verify_linux_rejects_bad_arguments example_config linux_host
                "wheel-linux" None (Some "9.9") "3.9.0" "/out/cupy.whl"
                ["/src/cupy/tests"] []) as (_ & _ & _ & _ & H).
    apply (H "9.9"); [reflexivity | reflexivity | vm_compute; reflexivity].
Defined.

Lemma windows_pipelines_reject_target_then_nccl_witness :
  build_windows example_config windows_host "sdist" None (Some "11.2") "3.9.0"
    "/src/cupy" "/out" []
    = ([Log "Note: Building wheel for Python 3.9.0 using Python 3.8.5"],
       Raise (Exn ValueError "unknown target"))
  ∧ verify_windows example_config windows_host "wheel-win" (Some "/assets")
      (Some "11.2") "3.9.0" "/out/cupy.whl" ["/src/cupy/tests"] []
    = ([Log "Note: Building wheel for Python 3.9.0 using Python 3.8.5"],
       Raise (Exn RuntimeError "NCCL not supported on Windows")).
Proof.
  split.
  - destruct (windows_pipelines_reject_target_then_nccl example_config windows_host
                "sdist" None (Some "11.2") "3.9.0" []
                [Log "Note: Building wheel for Python 3.9.0 using Python 3.8.5"])
      as [H _]; [vm_compute; reflexivity|].
    destruct H as [H _]; [done|]. apply H.
  - destruct (windows_pipelines_reject_target_then_nccl example_config windows_host
                "wheel-win" (Some "/assets") (Some "11.2") "3.9.0" []
                [Log "Note: Building wheel for Python 3.9.0 using Python 3.8.5"])
      as [_ H]; [vm_compute; reflexivity|].
    destruct H as [_ H]; [done | done |]. apply H.
Defined.

Lemma set_up_only_logs_and_queries_witness :
  ∃ evs,
    (build_linux_setup example_config linux_host "wheel-linux" (Some "11.2") "3.9.0"
       "/src/cupy" []).1 = [] ++ evs
    ∧ Forall (λ c, logs_or_queries c = true) evs
    ∧ length evs = 4%nat.
Proof.
  destruct (set_up_only_logs_and_queries example_config linux_host "wheel-linux" None
              (Some "11.2") "3.9.0" "/src/cupy" "/out/cupy.whl") as (H & _).
  destruct (emits_run _ _ [] H) as (evs & Hevs & Hall).
  exists evs. split_and!; [exact Hevs | exact Hall |].
  simpl in Hevs. rewrite <-Hevs. vm_compute. reflexivity.
Defined.

Lemma build_linux_sdist_stages_nothing_and_writes_no_metadata_witness :
  ∃ evs,
    (build_linux example_config linux_host "sdist" None None "3.9.0" "/src/cupy"
       "/out" []).1 = [] ++ evs
    ∧ Forall (λ c, sdist_call c = true) evs
    ∧ (build_linux example_config linux_host "sdist" None None "3.9.0" "/src/cupy"
         "/out" []).2 = Return tt.
Proof.
  destruct (emits_run _ _ []
              (build_linux_sdist_stages_nothing_and_writes_no_metadata example_config
                 linux_host None None "3.9.0" "/src/cupy" "/out"))
    as (evs & Hevs & Hall).
  exists evs. split_and!; [exact Hevs | exact Hall | vm_compute; reflexivity].
Defined.

Lemma verify_windows_runs_the_agent_only_witness :
  ∃ calls,
    (verify_windows example_config windows_host "wheel-win" None (Some "11.2")
       "3.9.0" "C:/out/cupy.whl" ["C:/src/cupy/tests"] []).1
    = [ Log "Note: Building wheel for Python 3.9.0 using Python 3.8.5";
        Log "Starting verification for C:/out/cupy.whl with Python 3.9.0";
        Mkdtemp "cupy-dist-" ] ++ calls
    ∧ Forall (λ c, windows_verify_call windows_host "C:/out/cupy.whl"
                     "/tmp/cupy-dist-0" c = true) calls
    ∧ CheckCall ["python"; "/tools/verifier/agent.py"; "--dist"; "C:/out/cupy.whl"; "tests"]
        (Some "/tmp/cupy-dist-0") ∈ calls.
Proof.
  destruct (verify_windows_runs_the_agent_only example_config windows_host
              "wheel-win" None (Some "11.2") "3.9.0" "C:/out/cupy.whl"
              ["C:/src/cupy/tests"] []) as [_ H].
  change (∃ calls,
            (verify_windows example_config windows_host "wheel-win" None (Some "11.2")
               "3.9.0" "C:/out/cupy.whl" ["C:/src/cupy/tests"] []).1
            = (verify_windows_setup example_config windows_host "wheel-win" None
                 (Some "11.2") "3.9.0" "C:/out/cupy.whl" []).1
                ++ [Mkdtemp "cupy-dist-"] ++ calls
            ∧ Forall (λ c, windows_verify_call windows_host "C:/out/cupy.whl"
                             "/tmp/cupy-dist-0" c = true) calls) in H.
  destruct H as (calls & Hcalls & Hall). exists calls.
  split_and!; [exact Hcalls | exact Hall |].
  apply (f_equal (drop 3)) in Hcalls. vm_compute in Hcalls. rewrite <-Hcalls.
  repeat first [ by constructor 1 | constructor 2 ].
Defined.

Lemma main_wheel_win_needs_a_windows_host_witness :
  main example_config linux_host
    {| args_action := "build"; args_target := "wheel-win"; args_nccl_assets := None;
       args_cuda := Some "11.2"; args_python := "3.9.0"; args_source := "/src/cupy";
       args_output := "/out"; args_dist := ""; args_test := [] |} []
  = ([], Raise (Exn RuntimeError "you are on non-Windows system: linux")).
Proof.
  apply (main_wheel_win_needs_a_windows_host example_config linux_host);
    [reflexivity | reflexivity | by left].
Defined.

Lemma install_cudnn_windows_only_creates_and_copies_witness :
  (install_cudnn_windows windows_host "/tmp/cupy-dist-0/cudnn" "C:/CUDA/v11.2" []).1
  = [ Log "Installing cuDNN from /tmp/cupy-dist-0/cudnn to C:/CUDA/v11.2";
      Log "Copying: C:/CUDA/v11.2/bin/cudnn64_8.dll <- /tmp/cupy-dist-0/cudnn/bin/cudnn64_8.dll";
      Copy2 "/tmp/cupy-dist-0/cudnn/bin/cudnn64_8.dll" "C:/CUDA/v11.2/bin/cudnn64_8.dll" ]
  ∧ ∃ evs,
      (install_cudnn_windows windows_host "/tmp/cupy-dist-0/cudnn" "C:/CUDA/v11.2" []).1
      = [] ++ evs
      ∧ Forall (λ c, installs c = true) evs.
Proof.
  split; [vm_compute; reflexivity|].
  exact (emits_run _ _ []
           (install_cudnn_windows_only_creates_and_copies windows_host
              "/tmp/cupy-dist-0/cudnn" "C:/CUDA/v11.2")).
Defined.

Lemma cuda_wheel_metadata_names_cudnn_witness :
  ∃ evs,
    (build_linux example_config linux_host "wheel-linux" (Some "/assets") (Some "11.2")
       "3.9.0" "/src/cupy" "/out" []).1 = [] ++ evs
    ∧ Forall (λ c, cuda_wheel_call "11.2" c = true) evs
    ∧ JsonDump "/tmp/cupy-dist-0/_wheel.json"
        (JObj [ ("cuda", JStr "11.2");
                ("cudnn", JObj [ ("version", JStr "8.1.1");
                                 ("filename", JStr "libcudnn.so.8.1.1") ]) ]) ∈ evs.
Proof.
  destruct (cuda_wheel_metadata_names_cudnn example_config linux_host (Some "/assets")
              "11.2" "3.9.0" "/src/cupy" "/out") as [H _].
  destruct (emits_run _ _ [] (H cuda_112 ltac:(vm_compute; reflexivity) eq_refl))
    as (evs & Hevs & Hall).
  exists evs. split_and!; [exact Hevs | exact Hall |].
  simpl in Hevs. rewrite <-Hevs. vm_compute.
  repeat first [ by constructor 1 | constructor 2 ].
Defined.

Lemma build_linux_hands_out_a_manylinux1_wheel_witness :
  ∃ pre workdir,
    (build_linux example_config linux_host "wheel-linux" (Some "/assets") (Some "11.2")
       "3.9.0" "/src/cupy" "/out" []).1
    = pre ++ [ Copy2 (workdir +:+ "/cupy/dist/cupy-cuda112-9.0.0-cp39-cp39-linux_x86_64.whl")
                     "/out/cupy-cuda112-9.0.0-cp39-cp39-manylinux1_x86_64.whl";
               removing workdir; Rmtree workdir ].
Proof.
  destruct (build_linux_hands_out_a_manylinux1_wheel example_config linux_host
              (Some "/assets") "11.2" cuda_112 "3.9.0" "/src/cupy" "/out" "9.0.0" []
              (build_linux example_config linux_host "wheel-linux" (Some "/assets")
                 (Some "11.2") "3.9.0" "/src/cupy" "/out" []).1)
    as (pre & workdir & H); [vm_compute; reflexivity | reflexivity | |].
  - vm_compute; reflexivity.
  - exists pre, workdir. exact H.
Defined.

End DistEdgesExamples.
